(** * AI agent platform: gateway policy core, provider router, run status
      endpoint and orchestrator worker

    A shallow embedding of the runtime path of the platform:

    - [services/llm_gateway/src/utils/budget.py]  (BudgetEnforcer, RateLimiter)
    - [services/llm_gateway/src/main.py]          (create_completion, handlers)
    - [services/llm_gateway/src/providers/router.py] (ProviderRouter)
    - [services/llm_gateway/src/providers/openai_provider.py],
      [anthropic_provider.py]                      (model tables, prices)
    - [services/control_plane/src/routers/runs.py]  (create_run,
                                                    update_run_status, cancel_run)
    - [workers/orchestrator/src/sqs_handler.py]    (SQSHandler)
    - [workers/orchestrator/src/step_executor.py]  (StepExecutor)
    - [workers/orchestrator/src/agents/llm_client.py] (LLMClient)

    Python [int] is [Z]; Python [float] is IEEE-754 binary64, computed with
    the executable operations of [SpecFloat]; dictionaries keyed by strings
    are [gmap string _]; the Redis store, the relational rows and the queues
    are explicit state that every operation takes and returns.  A Redis
    key with a time to live is there up to and including its deadline; a
    circuit breaker behaves as pybreaker's does; a number is an int or a
    float where the difference matters (adding a float to a DECIMAL
    column's value raises TypeError). *)

From Stdlib Require Import ZArith QArith Qround String Ascii List Bool Lia.
From Stdlib Require Import Floats.SpecFloat.
From Stdlib Require DecimalString.
From stdpp Require Import gmap strings list fin_maps.

Open Scope string_scope.
Open Scope Z_scope.

(* ===================================================================== *)
(** ** Python floats *)
(* ===================================================================== *)

Module PyFloat.

Definition prec : Z := 53.
Definition emax : Z := 1024.

Abbreviation float := spec_float.

(** [float(n)] for an int [n]: the nearest double, ties to even. *)
Definition of_int (n : Z) : float := binary_normalize prec emax n 0 false.

Definition mul : float -> float -> float := SFmul prec emax.
Definition add : float -> float -> float := SFadd prec emax.
Definition div : float -> float -> float := SFdiv prec emax.

(** The literal [1.3]: 0x3FF4CCCCCCCCCCCD. *)
Definition lit_1_3 : float := S754_finite false 5854679515581645 (-52).

(** The rational a finite float denotes. *)
Definition to_Q (x : float) : option Q :=
  match x with
  | S754_zero _ => Some 0%Q
  | S754_finite s m e =>
      Some (if 0 <=? e
            then inject_Z (cond_Zopp s (Zpos m * 2 ^ e))
            else Qmake (cond_Zopp s (Zpos m)) (Z.to_pos (2 ^ (- e))))
  | _ => None
  end.

(** [int(x)]: truncation toward zero; [None] is the OverflowError or
    ValueError Python raises on an infinity or a NaN. *)
Definition to_int (x : float) : option Z :=
  match x with
  | S754_zero _ => Some 0
  | S754_finite s m e =>
      Some (cond_Zopp s (if 0 <=? e then Zpos m * 2 ^ e
                         else Zpos m / 2 ^ (- e)))
  | _ => None
  end.

(** [n >= x] for an int [n] and a float [x]; Python compares the two
    exactly, without converting the int. *)
Definition int_ge (n : Z) (x : float) : bool :=
  match x with
  | S754_zero _ => 0 <=? n
  | S754_finite s m e =>
      if 0 <=? e then cond_Zopp s (Zpos m * 2 ^ e) <=? n
      else cond_Zopp s (Zpos m) <=? n * 2 ^ (- e)
  | S754_infinity s => s
  | S754_nan => false
  end.

(** Floats that are not negative: what sums and products of counts are. *)
Definition nonneg (x : float) : bool :=
  match x with
  | S754_finite s _ _ => negb s
  | S754_infinity s => negb s
  | _ => true
  end.

End PyFloat.

(* ===================================================================== *)
(** ** Python strings *)
(* ===================================================================== *)

(** A [str] is modelled by the sequence of its code points, all taken
    below 256. *)
Module PyStr.

(** [str.isspace] on the code points below 256. *)
Definition is_space (c : ascii) : bool :=
  let n := Z.of_nat (nat_of_ascii c) in
  ((9 <=? n) && (n <=? 13)) || ((28 <=? n) && (n <=? 32))
  || (n =? 133) || (n =? 160).

(** [content.split()]: the maximal runs of non-whitespace characters. *)
Fixpoint split_from (cur : string) (s : string) : list string :=
  match s with
  | EmptyString => match cur with EmptyString => [] | _ => [cur] end
  | String c s' =>
      if is_space c
      then match cur with
           | EmptyString => split_from EmptyString s'
           | _ => cur :: split_from EmptyString s'
           end
      else split_from (cur ++ String c EmptyString) s'
  end.

Definition split (s : string) : list string := split_from EmptyString s.

(** [str.lower] on the code points below 256. *)
Definition lower_char (c : ascii) : ascii :=
  let n := nat_of_ascii c in
  if ((65 <=? n) && (n <=? 90)
      || (192 <=? n) && (n <=? 222) && negb (n =? 215))%nat
  then ascii_of_nat (n + 32) else c.

Fixpoint lower (s : string) : string :=
  match s with
  | EmptyString => EmptyString
  | String c s' => String (lower_char c) (lower s')
  end.

(** [pat in s] for two strings. *)
Fixpoint contains (pat s : string) : bool :=
  String.prefix pat s
  || match s with
     | EmptyString => false
     | String _ s' => contains pat s'
     end.

End PyStr.

(* ===================================================================== *)
(** ** The fast key-value store (Redis) *)
(* ===================================================================== *)

Module Redis.

(** What a key holds.  Redis stores byte strings; the gateway writes
    two kinds: decimal counters (INCR, INCRBY) and the serialized budget
    dictionary [str({"budget_monthly": b, "used_current_month": u})],
    which [eval] reads back as that dictionary. *)
Inductive rval :=
| RInt (n : Z)
| RBudget (budget_monthly used_current_month : Z)
| RBytes (s : string).

Record entry := Entry { value : rval; expires_at : option Z }.

Abbreviation store := (gmap string entry).

(** A key with a deadline is there up to and including the deadline:
    Redis expires it once the clock has passed it. *)
Definition live (now : Z) (e : entry) : bool :=
  match expires_at e with
  | None => true
  | Some t => now <=? t
  end.

(** The entry under [k] at time [now], expired keys being gone. *)
Definition find (now : Z) (st : store) (k : string) : option entry :=
  match st !! k with
  | Some e => if live now e then Some e else None
  | None => None
  end.

Definition get (now : Z) (st : store) (k : string) : option rval :=
  value <$> find now st k.

Definition ttl_deadline (now : Z) (st : store) (k : string) : option Z :=
  match find now st k with
  | Some e => expires_at e
  | None => None
  end.

Definition setex (now : Z) (st : store) (k : string) (seconds : Z) (v : rval)
  : store :=
  <[k := Entry v (Some (now + seconds))]> st.

(** INCRBY: a missing key counts as 0 and gets no expiry; an existing
    key keeps its expiry; a value that is not an integer is an error. *)
Definition incrby (now : Z) (st : store) (k : string) (n : Z)
  : option (store * Z) :=
  match find now st k with
  | None => Some (<[k := Entry (RInt n) None]> st, n)
  | Some (Entry (RInt c) ex) => Some (<[k := Entry (RInt (c + n)) ex]> st, c + n)
  | Some _ => None
  end.

Definition incr (now : Z) (st : store) (k : string) : option (store * Z) :=
  incrby now st k 1.

(** EXPIRE: sets the deadline of an existing key to [now + seconds]. *)
Definition expire (now : Z) (st : store) (k : string) (seconds : Z)
  : store * bool :=
  match find now st k with
  | Some e => (<[k := Entry (value e) (Some (now + seconds))]> st, true)
  | None => (st, false)
  end.

(** The count a key holds for INCR: an absent or expired key counts 0. *)
Definition count_of (now : Z) (st : Redis.store) (k : string) : Z :=
  match Redis.get now st k with
  | Some (Redis.RInt c) => c
  | _ => 0
  end.

(** INCR succeeds on a key that is absent, expired or a counter. *)
Definition counter_or_absent (now : Z) (st : Redis.store) (k : string) : Prop :=
  match Redis.get now st k with
  | Some (Redis.RInt _) | None => True
  | Some _ => False
  end.

End Redis.

(* ===================================================================== *)
(** ** LLM gateway: configuration, errors and HTTP mapping *)
(* ===================================================================== *)

Module Gateway.

Import PyFloat PyStr.

(** [config.py]: the settings the modelled code reads. *)
Record Settings := {
  PROVIDER_PRIORITY : list string;
  CIRCUIT_BREAKER_ENABLED : bool;
  CIRCUIT_BREAKER_FAILURE_THRESHOLD : Z;
  RATE_LIMIT_ENABLED : bool;
  RATE_LIMIT_REQUESTS_PER_MINUTE : Z;
  RATE_LIMIT_WINDOW_SECONDS : Z;
  BUDGET_CHECK_ENABLED : bool;
  BUDGET_SOFT_LIMIT_PERCENT : Z
}.

Definition default_settings : Settings := {|
  PROVIDER_PRIORITY := ["openai"; "anthropic"; "local"];
  CIRCUIT_BREAKER_ENABLED := true;
  CIRCUIT_BREAKER_FAILURE_THRESHOLD := 5;
  RATE_LIMIT_ENABLED := true;
  RATE_LIMIT_REQUESTS_PER_MINUTE := 100;
  RATE_LIMIT_WINDOW_SECONDS := 60;
  BUDGET_CHECK_ENABLED := true;
  BUDGET_SOFT_LIMIT_PERCENT := 80
|}.

(** [providers/base.py]: the gateway's exception classes, with the
    library and builtin exceptions the request path can meet
    ([ResponseError] is the Redis client's). *)
Inductive exn :=
| ProviderError (provider message : string)
| BudgetExceededError (tenant_id : string) (current_usage budget : Z)
| RateLimitError (tenant_id : string) (retry_after : Z)
| ModelNotSupportedError (provider model : string)
| CircuitBreakerError
| KeyError (key : string)
| OverflowError
| ResponseError.

Inductive result (A : Type) :=
| Ok (a : A)
| Raise (e : exn).
Arguments Ok {A} a.
Arguments Raise {A} e.

(** The part of a JSON response the claims read.  [retry_after] is the
    [Retry-After] header, which carries [str(exc.retry_after)]. *)
Record http_response := {
  status_code : Z;
  error : string;
  retry_after : option Z
}.

(** [main.py], exception handlers.  Three classes are registered with
    [@app.exception_handler]; an exception of any other class reaches
    the server's default handler, which answers 500. *)
Definition exception_response (e : exn) : http_response :=
  match e with
  | BudgetExceededError _ _ _ =>
      {| status_code := 402; error := "budget_exceeded"; retry_after := None |}
  | RateLimitError _ ra =>
      {| status_code := 429; error := "rate_limit_exceeded";
         retry_after := Some ra |}
  | ProviderError _ _ =>
      {| status_code := 503; error := "provider_error"; retry_after := None |}
  | _ =>
      {| status_code := 500; error := "Internal Server Error";
         retry_after := None |}
  end.

(* ------------------------------------------------------------------- *)
(** *** [utils/budget.py]: BudgetEnforcer *)

(** The dictionary [_check_limits] returns ([percentage_used], a value
    only logged, is left out). *)
Record limits := {
  allowed : bool;
  budget_monthly : Z;
  used_current_month : Z;
  remaining : Z;
  soft_limit_reached : bool;
  hard_limit_reached : bool
}.

(** [soft_limit_threshold = budget_monthly *
    (settings.BUDGET_SOFT_LIMIT_PERCENT / 100)]: a true division of two
    ints, then an int times a float.  [budget_monthly] is an INTEGER
    column, so the conversion to a double is exact. *)
Definition soft_limit_threshold (s : Settings) (budget_monthly : Z) : float :=
  mul (of_int budget_monthly)
      (div (of_int (BUDGET_SOFT_LIMIT_PERCENT s)) (of_int 100)).

Definition _check_limits (s : Settings)
    (budget_monthly used_current_month estimated_tokens : Z) : limits :=
  let remaining := budget_monthly - used_current_month in
  let hard_limit_reached :=
    budget_monthly <=? used_current_month + estimated_tokens in
  let soft_limit_reached :=
    int_ge used_current_month (soft_limit_threshold s budget_monthly)
    && negb hard_limit_reached in
  {| allowed := negb hard_limit_reached;
     budget_monthly := budget_monthly;
     used_current_month := used_current_month;
     remaining := Z.max 0 remaining;
     soft_limit_reached := soft_limit_reached;
     hard_limit_reached := hard_limit_reached |}.

(** The three shapes of dictionary [check_budget] returns. *)
Inductive budget_check :=
| CheckDisabled                 (* {"allowed": True} *)
| TenantNotFound                (* {"allowed": False, "error": ...} *)
| Checked (r : limits).

Record Tenant := {
  token_budget_monthly : Z;
  token_used_current_month : Z;
  rate_limit_per_minute : Z
}.

Definition budget_key (tenant_id : string) : string :=
  "budget:" ++ tenant_id.

Definition counter_key (tenant_id : string) : string :=
  budget_key tenant_id ++ ":counter".

(** [BudgetEnforcer.check_budget].  A cached value that does not read
    back as the budget dictionary raises inside the [try] and falls
    through to the database path, like a miss. *)
Definition check_budget (s : Settings) (now : Z) (st : Redis.store)
    (tenants : gmap string Tenant) (tenant_id : string)
    (estimated_tokens : Z) : Redis.store * budget_check :=
  if negb (BUDGET_CHECK_ENABLED s) then (st, CheckDisabled)
  else
    let redis_key := budget_key tenant_id in
    match Redis.get now st redis_key with
    | Some (Redis.RBudget b u) =>
        (st, Checked (_check_limits s b u estimated_tokens))
    | _ =>
        match tenants !! tenant_id with
        | None => (st, TenantNotFound)
        | Some t =>
            (Redis.setex now st redis_key 60
               (Redis.RBudget (token_budget_monthly t)
                              (token_used_current_month t)),
             Checked (_check_limits s (token_budget_monthly t)
                        (token_used_current_month t) estimated_tokens))
        end
    end.

(** [BudgetEnforcer.increment_usage]: one INCRBY on the counter key. *)
Definition increment_usage (now : Z) (st : Redis.store)
    (tenant_id : string) (tokens_used : Z) : option Redis.store :=
  fst <$> Redis.incrby now st (counter_key tenant_id) tokens_used.

(* ------------------------------------------------------------------- *)
(** *** [utils/budget.py]: RateLimiter *)

Record rate_check := {
  rc_allowed : bool;
  rc_limit : Z;
  rc_current : Z;
  rc_remaining : Z;
  rc_reset_seconds : Z
}.

Inductive rate_result :=
| RateDisabled                  (* {"allowed": True} *)
| RateChecked (r : rate_check).

Definition rate_key (tenant_id : string) : string :=
  "ratelimit:" ++ tenant_id.

(** [limit = limit or settings.RATE_LIMIT_REQUESTS_PER_MINUTE]: [None]
    and [0] are both falsy. *)
Definition effective_limit (s : Settings) (limit : option Z) : Z :=
  match limit with
  | Some l => if l =? 0 then RATE_LIMIT_REQUESTS_PER_MINUTE s else l
  | None => RATE_LIMIT_REQUESTS_PER_MINUTE s
  end.

(** [RateLimiter.check_rate_limit]: the pipeline queues INCR and EXPIRE
    and [execute] runs both, in that order, as one transaction. *)
Definition check_rate_limit (s : Settings) (now : Z) (st : Redis.store)
    (tenant_id : string) (limit : option Z)
    : option (Redis.store * rate_result) :=
  if negb (RATE_LIMIT_ENABLED s) then Some (st, RateDisabled)
  else
    let rate_key := rate_key tenant_id in
    let limit := effective_limit s limit in
    let window := RATE_LIMIT_WINDOW_SECONDS s in
    match Redis.incr now st rate_key with
    | None => None
    | Some (st1, current_count) =>
        let st2 := fst (Redis.expire now st1 rate_key window) in
        Some (st2, RateChecked
                {| rc_allowed := current_count <=? limit;
                   rc_limit := limit;
                   rc_current := current_count;
                   rc_remaining := Z.max 0 (limit - current_count);
                   rc_reset_seconds := window |})
    end.

(* ------------------------------------------------------------------- *)
(** *** [main.py]: token estimation *)

Record Message := { role : string; content : string }.

(** [len(msg.content.split()) * 1.3] *)
Definition message_estimate (m : Message) : float :=
  mul (of_int (Z.of_nat (length (split (content m))))) lit_1_3.

(** [sum(... for msg in request.messages)]: from the int 0, left to
    right. *)
Definition estimate_sum (messages : list Message) : float :=
  fold_left add (map message_estimate messages) (of_int 0).

(** [estimated_tokens = int(estimated_tokens)] *)
Definition estimated_tokens (messages : list Message) : option Z :=
  to_int (estimate_sum messages).

(* ------------------------------------------------------------------- *)
(** *** [schemas.py] and [providers/base.py]: requests and providers *)

Record LLMRequest := {
  model : string;
  messages : list Message;
  tenant_id : string;              (* str(request.tenant_id) *)
  preferred_provider : option string
}.

Record LLMResponse := {
  provider : string;
  response_content : string;
  total_tokens : Z;
  cost_usd : float;
  is_fallback : bool;
  attempted_providers : list string
}.

(** A provider: its name, the keys of its [supported_models] table and
    what its [completion] does with a request: return a response or
    raise ([ProviderError], or [RateLimitError] on a provider 429). *)
Record Provider := {
  name : string;
  supported_models : list string;
  completion : LLMRequest -> result LLMResponse
}.

Definition supports_model (p : Provider) (m : string) : bool :=
  existsb (String.eqb m) (supported_models p).

(** A provider's breaker, as the request finds it.  The breaker is
    pybreaker's [CircuitBreaker], a library that is not among the
    sources: what a call through it does is taken from the library.
    [OPEN] is an open breaker whose reset timeout has not elapsed;
    [HALF_OPEN] a half-open breaker, or an open one whose timeout has
    elapsed, so that the call is the trial call. *)
Inductive breaker_state := CLOSED | OPEN | HALF_OPEN.

Record CircuitBreaker := {
  current_state : breaker_state;
  fail_counter : Z
}.

(** [breaker.call_async(func, request)].  An open breaker rejects the
    call without making it.  Otherwise the call is made; every exception
    it raises counts as a failure: a closed breaker raises it again,
    unless the failure is the one that reaches [fail_max], which opens
    the breaker and raises CircuitBreakerError in its place; a failed
    trial call opens the breaker and raises CircuitBreakerError. *)
Definition call_async (fail_max : Z) (b : CircuitBreaker)
    (f : LLMRequest -> result LLMResponse) (req : LLMRequest)
    : result LLMResponse :=
  match current_state b with
  | OPEN => Raise CircuitBreakerError
  | HALF_OPEN =>
      match f req with
      | Ok response => Ok response
      | Raise _ => Raise CircuitBreakerError
      end
  | CLOSED =>
      match f req with
      | Ok response => Ok response
      | Raise e =>
          if fail_max <=? fail_counter b + 1
          then Raise CircuitBreakerError
          else Raise e
      end
  end.

(* ------------------------------------------------------------------- *)
(** *** [providers/router.py]: ProviderRouter *)

Record ProviderRouter := {
  providers : list Provider;
  circuit_breakers : gmap string CircuitBreaker
}.

Definition _get_provider_by_name (r : ProviderRouter) (n : string)
    : option Provider :=
  List.find (fun p => String.eqb (name p) (lower n)) (providers r).

(** [provider in capable]: the router holds one instance per provider
    class and a provider's name is its class name, so instances are
    told apart by name. *)
Definition provider_in (p : Provider) (l : list Provider) : bool :=
  existsb (fun q => String.eqb (name q) (name p)) l.

Definition _get_providers_for_model (s : Settings) (r : ProviderRouter)
    (m : string) : list Provider :=
  let capable :=
    fold_left
      (fun capable provider_name =>
         match _get_provider_by_name r provider_name with
         | Some p => if supports_model p m then (capable ++ [p])%list else capable
         | None => capable
         end)
      (PROVIDER_PRIORITY s) [] in
  fold_left
    (fun capable p =>
       if negb (provider_in p capable) && supports_model p m
       then (capable ++ [p])%list else capable)
    (providers r) capable.

Definition _execute_with_circuit_breaker (s : Settings) (r : ProviderRouter)
    (p : Provider) (req : LLMRequest) : result LLMResponse :=
  if CIRCUIT_BREAKER_ENABLED s then
    match circuit_breakers r !! name p with
    | Some breaker =>
        call_async (CIRCUIT_BREAKER_FAILURE_THRESHOLD s) breaker
          (completion p) req
    | None => completion p req
    end
  else completion p req.

Definition join_names (l : list string) : string := String.concat ", " l.

Definition all_providers_failed (req : LLMRequest) (attempted : list string)
    : exn :=
  ProviderError "all"
    ("All providers failed for model " ++ model req ++ ". "
     ++ "Attempted: " ++ join_names attempted).

(** The [for provider in capable_providers] loop of [route];
    [total] is [len(capable_providers)]. *)
Fixpoint try_providers (s : Settings) (r : ProviderRouter) (req : LLMRequest)
    (total : nat) (todo : list Provider) (attempted : list string)
    : result LLMResponse :=
  match todo with
  | [] => Raise (all_providers_failed req attempted)
  | p :: rest =>
      let attempted := (attempted ++ [name p])%list in
      match _execute_with_circuit_breaker s r p req with
      | Ok response =>
          Ok {| provider := provider response;
                response_content := response_content response;
                total_tokens := total_tokens response;
                cost_usd := cost_usd response;
                is_fallback :=
                  if (1 <? length attempted)%nat then true
                  else is_fallback response;
                attempted_providers := attempted |}
      | Raise CircuitBreakerError => try_providers s r req total rest attempted
      | Raise (ProviderError _ _) =>
          if (total <=? length attempted)%nat
          then Raise (all_providers_failed req attempted)
          else try_providers s r req total rest attempted
      | Raise e => Raise e
      end
  end.

(** The part of [route] after the preference check. *)
Definition route_capable (s : Settings) (r : ProviderRouter)
    (req : LLMRequest) : result LLMResponse :=
  let capable_providers := _get_providers_for_model s r (model req) in
  match capable_providers with
  | [] => Raise (ModelNotSupportedError "any" (model req))
  | _ => try_providers s r req (length capable_providers)
           capable_providers []
  end.

(** [ProviderRouter.route].  [if request.preferred_provider:] is false
    for [None] and for the empty string. *)
Definition route (s : Settings) (r : ProviderRouter) (req : LLMRequest)
    : result LLMResponse :=
  match preferred_provider req with
  | Some (String c pn) =>
      match _get_provider_by_name r (String c pn) with
      | Some p =>
          if supports_model p (model req)
          then _execute_with_circuit_breaker s r p req
          else route_capable s r req
      | None => route_capable s r req
      end
  | _ => route_capable s r req
  end.

(* ------------------------------------------------------------------- *)
(** *** [main.py]: create_completion *)

Record LLMEvent := {
  ev_tenant_id : string;
  ev_provider : string;
  ev_total_tokens : Z;
  ev_is_fallback : bool
}.

(** The stores a request touches: Redis, the tenants table and the
    LLM event rows. *)
Record State := {
  redis : Redis.store;
  tenants : gmap string Tenant;
  llm_events : list LLMEvent
}.

Definition with_redis (σ : State) (st : Redis.store) : State :=
  {| redis := st; tenants := tenants σ; llm_events := llm_events σ |}.

(** The budget step of [create_completion]: raise when
    [budget_check["allowed"]] is false.  The "Tenant not found"
    dictionary has no ["used_current_month"] key. *)
Definition budget_step (tenant_id : string) (c : budget_check)
    : result bool :=
  match c with
  | CheckDisabled => Ok false
  | TenantNotFound => Raise (KeyError "used_current_month")
  | Checked r =>
      if negb (allowed r)
      then Raise (BudgetExceededError tenant_id (used_current_month r)
                    (budget_monthly r))
      else Ok (soft_limit_reached r)   (* the soft-limit warning *)
  end.

(** The rate step: raise when [rate_check["allowed"]] is false. *)
Definition rate_step (tenant_id : string) (c : rate_result) : result unit :=
  match c with
  | RateDisabled => Ok tt
  | RateChecked r =>
      if negb (rc_allowed r)
      then Raise (RateLimitError tenant_id (rc_reset_seconds r))
      else Ok tt
  end.

(** [create_completion]: the new state and the response or the
    exception that leaves the endpoint.  Writes to Redis are immediate;
    the event row is committed only when the endpoint returns. *)
Definition create_completion (s : Settings) (now : Z) (r : ProviderRouter)
    (σ : State) (req : LLMRequest) : State * result LLMResponse :=
  match check_rate_limit s now (redis σ) (tenant_id req) None with
  | None => (σ, Raise ResponseError)
  | Some (st1, rate_check) =>
      let σ1 := with_redis σ st1 in
      match rate_step (tenant_id req) rate_check with
      | Raise e => (σ1, Raise e)
      | Ok _ =>
          match estimated_tokens (messages req) with
          | None => (σ1, Raise OverflowError)
          | Some estimated =>
              let '(st2, budget_check) :=
                check_budget s now st1 (tenants σ) (tenant_id req) estimated in
              let σ2 := with_redis σ st2 in
              match budget_step (tenant_id req) budget_check with
              | Raise e => (σ2, Raise e)
              | Ok _ =>
                  match route s r req with
                  | Raise e => (σ2, Raise e)
                  | Ok response =>
                      match increment_usage now st2 (tenant_id req)
                              (total_tokens response) with
                      | None => (σ2, Raise ResponseError)
                      | Some st3 =>
                          ({| redis := st3;
                              tenants := tenants σ;
                              llm_events :=
                                (llm_events σ ++
                                 [{| ev_tenant_id := tenant_id req;
                                     ev_provider := provider response;
                                     ev_total_tokens := total_tokens response;
                                     ev_is_fallback := is_fallback response |}])%list
                            |}, Ok response)
                      end
                  end
              end
          end
      end
  end.

(** What the client sees. *)
Definition respond (res : result LLMResponse) : http_response :=
  match res with
  | Ok _ => {| status_code := 200; error := ""; retry_after := None |}
  | Raise e => exception_response e
  end.

End Gateway.

(* ===================================================================== *)
(** ** Control plane: the run status endpoints *)
(* ===================================================================== *)

Module ControlPlane.

(** Modelled from the spec: the [RunStatus] enumeration behind
    [RunStatusUpdate.status] lives in the control plane's [schemas.py],
    which is not among the sources; its members are the statuses the
    data model gives a Run. *)
Inductive RunStatus :=
| Pending | Running | Completed | Failed
| Cancelled | Timeout | BudgetExceeded.

(** [status.value] *)
Definition value (s : RunStatus) : string :=
  match s with
  | Pending => "pending"
  | Running => "running"
  | Completed => "completed"
  | Failed => "failed"
  | Cancelled => "cancelled"
  | Timeout => "timeout"
  | BudgetExceeded => "budget_exceeded"
  end.

(** The request body of the status endpoint, with the three fields the
    handler reads. *)
Record RunStatusUpdate := {
  status : RunStatus;
  upd_error_message : option string;
  upd_current_step : option string
}.

(** A row of [runs] ([models.py]); times are microseconds. *)
Record Run := {
  tenant_id : string;
  run_status : string;
  error_message : option string;
  started_at : option Z;
  completed_at : option Z;
  duration_seconds : option Z;
  current_step : option string
}.

Inductive response :=
| Returned (r : option Run)     (* 200 with the run, or 204 *)
| HTTPException (code : Z) (detail : string).

Definition in_list (x : string) (l : list string) : bool :=
  existsb (String.eqb x) l.

Definition terminal_statuses : list string :=
  ["completed"; "failed"; "cancelled"; "budget_exceeded"; "timeout"].

(** [int((a - b).total_seconds())] *)
Definition seconds_between (a b : Z) : Z := Z.quot (a - b) 1000000.

(** A string option is truthy when it is a non-empty string. *)
Definition or_keep (new old : option string) : option string :=
  match new with
  | Some (String _ _) => new
  | _ => old
  end.

(** [select(Run).filter(Run.id == run_id, Run.tenant_id == tenant)] *)
Definition select_run (runs : gmap string Run) (run_id user_tenant : string)
    : option Run :=
  match runs !! run_id with
  | Some r => if String.eqb (tenant_id r) user_tenant then Some r else None
  | None => None
  end.

(** [update_run_status] (PUT /{run_id}/status) *)
Definition update_run_status (now : Z) (runs : gmap string Run)
    (user_tenant run_id : string) (status_update : RunStatusUpdate)
    : gmap string Run * response :=
  match select_run runs run_id user_tenant with
  | None => (runs, HTTPException 404 "Run not found")
  | Some run =>
      let new_status := value (status status_update) in
      let started :=
        match started_at run with
        | None => if String.eqb new_status "running" then Some now else None
        | Some t => Some t
        end in
      let '(completed, duration) :=
        if in_list new_status terminal_statuses then
          match completed_at run with
          | None =>
              (Some now,
               match started with
               | Some t => Some (seconds_between now t)
               | None => duration_seconds run
               end)
          | Some c => (Some c, duration_seconds run)
          end
        else (completed_at run, duration_seconds run) in
      let run' :=
        {| tenant_id := tenant_id run;
           run_status := new_status;
           error_message :=
             or_keep (upd_error_message status_update) (error_message run);
           started_at := started;
           completed_at := completed;
           duration_seconds := duration;
           current_step :=
             or_keep (upd_current_step status_update) (current_step run) |} in
      (<[run_id := run']> runs, Returned (Some run'))
  end.

(** [cancel_run] (DELETE /{run_id}) *)
Definition cancel_run (now : Z) (runs : gmap string Run)
    (user_tenant run_id : string) : gmap string Run * response :=
  match select_run runs run_id user_tenant with
  | None => (runs, HTTPException 404 "Run not found")
  | Some run =>
      if negb (in_list (run_status run) ["pending"; "running"])
      then (runs, HTTPException 400
                    ("Cannot cancel run with status: " ++ run_status run))
      else
        let run' :=
          {| tenant_id := tenant_id run;
             run_status := "cancelled";
             error_message := error_message run;
             started_at := started_at run;
             completed_at := Some now;
             duration_seconds :=
               match started_at run with
               | Some t => Some (seconds_between now t)
               | None => duration_seconds run
               end;
             current_step := current_step run |} in
        (<[run_id := run']> runs, Returned None)
  end.

End ControlPlane.

(* ===================================================================== *)
(** ** Orchestrator worker: queue handler and step executor *)
(* ===================================================================== *)

Module Worker.

Import PyStr.

(** [config.py]: the settings the modelled code reads. *)
Record Settings := {
  SQS_DLQ_URL : string;
  STEP_MAX_RETRIES : Z
}.

Definition default_settings : Settings :=
  {| SQS_DLQ_URL := ""; STEP_MAX_RETRIES := 3 |}.

(** JSON values: step outputs and step configurations. *)
#[local] Set Warnings "-register-all".
Inductive json :=
| JNull
| JBool (b : bool)
| JInt (n : Z)
| JStr (s : string)
| JList (l : list json)
| JObj (fields : list (string * json)).

(** Python truthiness of a decoded JSON value. *)
Definition truthy (v : json) : bool :=
  match v with
  | JNull => false
  | JBool b => b
  | JInt n => negb (n =? 0)
  | JStr s => negb (String.eqb s "")
  | JList l => match l with [] => false | _ => true end
  | JObj l => match l with [] => false | _ => true end
  end.

(** A number as Python holds it: the JSON decoder and the literals of
    the step bodies give an [int] or a [float]; the value is kept as the
    exact rational. *)
Inductive number :=
| NInt (n : Z)
| NFloat (x : Q).

Definition number_value (c : number) : Q :=
  match c with
  | NInt n => inject_Z n
  | NFloat x => x
  end.

(** [if c:] for a number. *)
Definition number_truthy (c : number) : bool :=
  negb (Qeq_bool (number_value c) 0).

(** The body of a queue message that is a JSON object: each key of the
    message format is present, with its documented type, or absent. *)
Record Body := {
  run_id : option string;
  step_id : option string;
  step_name : option string;
  step_type : option string;
  step_config : option (list (string * json));
  attempt : option Z
}.

(** [json.loads(message['Body'])] *)
Inductive parsed :=
| InvalidJSON                   (* raises JSONDecodeError *)
| NotAnObject                   (* a JSON value without [get] *)
| Object (b : Body).

Record SQSMessage := {
  ReceiptHandle : string;
  MessageId : string;
  MessageBody : parsed
}.

Record DLQMessage := {
  dlq_body : Body;
  dlq_reason : string;
  original_message_id : string
}.

(** Rows of [steps] and [runs] ([models.py]); times are microseconds,
    money is the exact decimal. *)
Record Step := {
  status : string;
  started_at : option Z;
  completed_at : option Z;
  duration_seconds : option Z;
  output_data : option json;
  error_message : option string;
  tokens_used : Z;
  cost_usd : Q
}.

Record Run := {
  run_tenant_id : string;
  run_tokens_used : Z;
  estimated_cost_usd : Q
}.

Record DB := {
  steps : gmap string Step;
  runs : gmap string Run
}.

(** What a step body returns. *)
Record StepResult := {
  output : json;
  res_tokens_used : Z;
  res_cost_usd : number
}.

(** The collaborators of the executor: the gateway client, which
    returns [(content, total_tokens, cost_usd)] or raises with a
    message, and the tool executor. *)
Record Env := {
  llm_completion :
    list (string * json) -> string -> string -> string
    -> string + (string * Z * number);
  tool_execute :
    list (string * json) -> string -> string -> string + json
}.

(** A computation that may raise; the payload of [inl] is [str(e)]. *)
Definition exc (A : Type) : Type := string + A.

Definition no_row : string := "No row was found when one was required".

(** [str(e)] of the TypeError of [Decimal += float]: the decimal module
    does not mix with floats. *)
Definition decimal_plus_float : string :=
  "unsupported operand type(s) for +=: 'decimal.Decimal' and 'float'".

(* ------------------------------------------------------------------- *)
(** *** [step_executor.py] *)

(** [_update_step_status]: every optional argument is written only
    when it is truthy ([duration_seconds] when it is not [None]). *)
Definition _update_step_status (db : DB) (step_id : string) (status' : string)
    (started_at' completed_at' duration_seconds' : option Z)
    (output_data' : option json) (error_message' : option string)
    (tokens_used' : Z) (cost_usd' : number) : exc DB :=
  match steps db !! step_id with
  | None => inl no_row
  | Some step =>
      let step' :=
        {| status := status';
           started_at :=
             match started_at' with Some t => Some t | None => started_at step end;
           completed_at :=
             match completed_at' with
             | Some t => Some t
             | None => completed_at step
             end;
           duration_seconds :=
             match duration_seconds' with
             | Some d => Some d
             | None => duration_seconds step
             end;
           output_data :=
             match output_data' with
             | Some v => if truthy v then Some v else output_data step
             | None => output_data step
             end;
           error_message :=
             match error_message' with
             | Some (String c m) => Some (String c m)
             | _ => error_message step
             end;
           tokens_used :=
             if tokens_used' =? 0 then tokens_used step else tokens_used';
           cost_usd :=
             if number_truthy cost_usd' then number_value cost_usd'
             else cost_usd step |} in
      inr {| steps := <[step_id := step']> (steps db); runs := runs db |}
  end.

(** [_update_run_usage].  [run.tokens_used += tokens] is done first, on
    the row loaded into the session; [run.estimated_cost_usd += cost]
    then adds to a [Decimal] (the column is DECIMAL(10,6), and holds a
    value): an [int] adds, a [float] raises TypeError.  The session
    state is returned with the outcome: what was assigned before the
    exception stays assigned in it. *)
Definition _update_run_usage (db : DB) (run_id : string) (tokens : Z)
    (cost : number) : DB * exc unit :=
  match runs db !! run_id with
  | None => (db, inl no_row)
  | Some run =>
      let run1 :=
        {| run_tenant_id := run_tenant_id run;
           run_tokens_used := run_tokens_used run + tokens;
           estimated_cost_usd := estimated_cost_usd run |} in
      match cost with
      | NFloat _ =>
          ({| steps := steps db; runs := <[run_id := run1]> (runs db) |},
           inl decimal_plus_float)
      | NInt n =>
          let run2 :=
            {| run_tenant_id := run_tenant_id run;
               run_tokens_used := run_tokens_used run + tokens;
               estimated_cost_usd := (estimated_cost_usd run + inject_Z n)%Q |} in
          ({| steps := steps db; runs := <[run_id := run2]> (runs db) |},
           inr tt)
      end
  end.

Definition retryable_patterns : list string :=
  ["timeout"; "connection"; "rate limit"; "503"; "502"; "500"].

(** [_is_retryable_error] *)
Definition _is_retryable_error (error : string) : bool :=
  let error_str := lower error in
  existsb (fun pattern => contains pattern error_str) retryable_patterns.

(** [_execute_llm_step]: the run is read first, then the gateway is
    called with the step configuration for the run's tenant. *)
Definition _execute_llm_step (env : Env) (db : DB) (run_id step_id : string)
    (config : list (string * json)) : exc StepResult :=
  match runs db !! run_id with
  | None => inl no_row
  | Some run =>
      match llm_completion env config (run_tenant_id run) run_id step_id with
      | inl e => inl e
      | inr (content, total, cost) =>
          inr {| output := JStr content;
                 res_tokens_used := total;
                 res_cost_usd := cost |}
      end
  end.

(** [_execute_tool_step] *)
Definition _execute_tool_step (env : Env) (run_id step_id : string)
    (config : list (string * json)) : exc StepResult :=
  match tool_execute env config run_id step_id with
  | inl e => inl e
  | inr out =>
      inr {| output := out; res_tokens_used := 0; res_cost_usd := NFloat 0 |}
  end.

Definition _execute_decision_step : exc StepResult :=
  inr {| output := JObj [("decision", JStr "placeholder")];
         res_tokens_used := 0; res_cost_usd := NFloat 0 |}.

Definition _execute_parallel_step : exc StepResult :=
  inr {| output := JObj [("parallel_results", JList [])];
         res_tokens_used := 0; res_cost_usd := NFloat 0 |}.

(** The dispatch on [step_type] inside [execute]. *)
Definition run_step (env : Env) (db : DB) (run_id step_id step_type : string)
    (config : list (string * json)) : exc StepResult :=
  if String.eqb step_type "llm" then _execute_llm_step env db run_id step_id config
  else if String.eqb step_type "tool" then _execute_tool_step env run_id step_id config
  else if String.eqb step_type "decision" then _execute_decision_step
  else if String.eqb step_type "parallel" then _execute_parallel_step
  else inl ("Unknown step type: " ++ step_type).

(** The dictionary [execute] returns. *)
Inductive ExecResult :=
| Succeeded (r : StepResult)
| Failure (error : string) (retryable : bool).

(** [int((completed_at - start_time).total_seconds())] *)
Definition seconds_between (a b : Z) : Z := Z.quot (a - b) 1000000.

(** The [except Exception] block of [execute].  It works in the same
    session, so it sees what the [try] block flushed or assigned ([db]),
    and its commit writes all of it; if it raises itself nothing is
    committed and the exception leaves [execute] ([None], database as it
    was in [db0]).  [completed_at] is the reading of the clock in this
    block. *)
Definition on_failure (s : Settings) (start_time completed_at : Z)
    (db0 db : DB) (step_id : string) (attempt : Z) (e : string)
    : DB * option ExecResult :=
  let duration := seconds_between completed_at start_time in
  let retryable := _is_retryable_error e in
  match _update_step_status db step_id
          (if retryable && (attempt <? STEP_MAX_RETRIES s)
           then "retrying" else "failed")
          None (Some completed_at) (Some duration) None (Some e)
          0 (NFloat 0) with
  | inl _ => (db0, None)
  | inr db' => (db', Some (Failure e retryable))
  end.

(** [StepExecutor.execute]; [start_time] is the first reading of the
    clock and [completed_at] the last one (where the [except] block
    follows a success update of the [try] block it overwrites that
    update's [completed_at] and [duration_seconds] with its own, so the
    earlier reading leaves no trace). *)
Definition execute (s : Settings) (env : Env) (start_time completed_at : Z)
    (db0 : DB) (run_id step_id step_name step_type : string)
    (step_config : list (string * json)) (attempt : Z)
    : DB * option ExecResult :=
  let fail := on_failure s start_time completed_at db0 in
  match _update_step_status db0 step_id "running"
          (Some start_time) None None None None 0 (NFloat 0) with
  | inl e => fail db0 step_id attempt e
  | inr db1 =>
      match run_step env db1 run_id step_id step_type step_config with
      | inl e => fail db1 step_id attempt e
      | inr result =>
          let duration := seconds_between completed_at start_time in
          match _update_step_status db1 step_id "success"
                  None (Some completed_at) (Some duration)
                  (Some (output result)) None
                  (res_tokens_used result) (res_cost_usd result) with
          | inl e => fail db1 step_id attempt e
          | inr db2 =>
              match _update_run_usage db2 run_id (res_tokens_used result)
                      (res_cost_usd result) with
              | (db3, inl e) => fail db3 step_id attempt e
              | (db3, inr _) => (db3, Some (Succeeded result))
              end
          end
      end
  end.

(* ------------------------------------------------------------------- *)
(** *** [sqs_handler.py] *)

(** The worker's world: the database, the messages held by the main
    queue (visible or in flight) and those in the dead-letter queue. *)
Record World := {
  db : DB;
  queue : list SQSMessage;
  dlq : list DLQMessage
}.

Definition with_db (w : World) (d : DB) : World :=
  {| db := d; queue := queue w; dlq := dlq w |}.

(** [_delete_message] *)
Definition _delete_message (w : World) (receipt_handle : string) : World :=
  {| db := db w;
     queue :=
       filter (fun m => ReceiptHandle m ≠ receipt_handle) (queue w);
     dlq := dlq w |}.

(** [_move_to_dlq]: without a DLQ the message is only deleted; with
    one, the body is parsed again, and a body that does not parse (or
    cannot take the two added keys) raises into the function's own
    [except], which only logs. *)
Definition _move_to_dlq (s : Settings) (w : World) (message : SQSMessage)
    (reason : string) : World :=
  if String.eqb (SQS_DLQ_URL s) ""
  then _delete_message w (ReceiptHandle message)
  else
    match MessageBody message with
    | Object body =>
        _delete_message
          {| db := db w;
             queue := queue w;
             dlq := (dlq w ++
                     [{| dlq_body := body;
                         dlq_reason := reason;
                         original_message_id := MessageId message |}])%list |}
          (ReceiptHandle message)
    | _ => w
    end.

Definition required_fields : list string :=
  ["run_id"; "step_id"; "step_name"; "step_type"].

(** [f in body] for a key of the message format. *)
Definition has_key (body : Body) (f : string) : bool :=
  if String.eqb f "run_id" then bool_decide (is_Some (run_id body))
  else if String.eqb f "step_id" then bool_decide (is_Some (step_id body))
  else if String.eqb f "step_name" then bool_decide (is_Some (step_name body))
  else if String.eqb f "step_type" then bool_decide (is_Some (step_type body))
  else if String.eqb f "step_config" then bool_decide (is_Some (step_config body))
  else if String.eqb f "attempt" then bool_decide (is_Some (attempt body))
  else false.

Definition missing_fields (body : Body) : list string :=
  List.filter (fun f => negb (has_key body f)) required_fields.

(** [_process_message] *)
Definition _process_message (s : Settings) (env : Env)
    (start_time completed_at : Z) (w : World) (message : SQSMessage)
    : World :=
  match MessageBody message with
  | InvalidJSON => _move_to_dlq s w message "Invalid JSON"
  | NotAnObject => w
  | Object body =>
      match missing_fields body with
      | _ :: _ => _move_to_dlq s w message "Missing required fields"
      | [] =>
          match run_id body, step_id body, step_name body, step_type body with
          | Some rid, Some sid, Some sname, Some stype =>
              let attempt := default 1 (attempt body) in
              match execute s env start_time completed_at (db w)
                      rid sid sname stype
                      (default [] (step_config body)) attempt with
              | (_, None) => w
              | (db', Some (Succeeded _)) =>
                  _delete_message (with_db w db') (ReceiptHandle message)
              | (db', Some (Failure error retryable)) =>
                  if retryable && (attempt <? STEP_MAX_RETRIES s)
                  then with_db w db'
                  else _move_to_dlq s (with_db w db') message error
              end
          | _, _, _, _ => w
          end
      end
  end.

End Worker.

(* ===================================================================== *)
(** ** Orchestrator worker: the gateway client *)
(* ===================================================================== *)

Module LLMClient.

(** [str(n)] for an int: its decimal digits. *)
Definition str (n : Z) : string :=
  DecimalString.NilZero.string_of_int (Z.to_int n).

(** [str(exc)] of the gateway's [BudgetExceededError] ([base.py]), which
    the gateway's 402 handler sends as the ["message"] of the body. *)
Definition budget_message (current_usage budget : Z) : string :=
  "Budget exceeded: " ++ str current_usage ++ "/" ++ str budget ++ " tokens".

(** What one POST to the gateway comes to: a response, with its status
    code, the ["message"] of its body when it has one, and the fields of
    a completion the executor reads; or one of the two transport errors
    the client catches. *)
Inductive reply :=
| Response (status_code : Z) (message : option string)
    (data : string * Z * Worker.number)
| TimeoutException
| RequestError (text : string).

(** The body of [completion]: one attempt.  [inl] carries [str(e)] of
    the exception raised. *)
Definition attempt (timeout : Z) (r : reply) : Worker.exc (string * Z * Worker.number) :=
  match r with
  | Response status_code message data =>
      if status_code =? 200 then inr data
      else if status_code =? 402 then inl (default "None" message)
      else if status_code =? 429 then inl "Rate limit exceeded"
      else inl ("LLM request failed: " ++ str status_code)
  | TimeoutException => inl ("Request timeout after " ++ str timeout ++ "s")
  | RequestError text => inl ("Request error: " ++ text)
  end.

(** [@retry(stop=stop_after_attempt(3), reraise=True)]: every exception
    is retried; after the last attempt the last exception is raised.
    [i] counts the attempts made, [more] those still allowed. *)
Fixpoint retry {A : Type} (more : nat) (i : nat) (call : nat -> Worker.exc A)
    : nat * Worker.exc A :=
  match call i with
  | inr a => (S i, inr a)
  | inl e =>
      match more with
      | O => (S i, inl e)
      | S more' => retry more' (S i) call
      end
  end.

(** [LLMClient.completion]: the number of requests sent and the
    outcome; [gateway i] is what the [i]-th request comes to. *)
Definition completion (timeout : Z) (gateway : nat -> reply)
    : nat * Worker.exc (string * Z * Worker.number) :=
  retry 2 0 (fun i => attempt timeout (gateway i)).

End LLMClient.

(** For the proofs: the error text per status code, and the statuses
    found retryable. *)
Module ClientStatus.

(** The text [attempt] raises for a status code other than 200 and
    402. *)
Definition status_error (code : Z) : string :=
  if code =? 429 then "Rate limit exceeded"
  else "LLM request failed: " ++ LLMClient.str code.

Definition retried_statuses (code : Z) : bool :=
  (code =? 429) || (code =? 500) || (code =? 502) || (code =? 503).

End ClientStatus.


(* ===================================================================== *)
(** ** The specification's wording, for comparison with the code *)
(* ===================================================================== *)

Module Spec.

(** Section 4.2, token estimation: the ceiling of 1.3 times the total
    whitespace-separated word count of the messages. *)
Definition word_count (m : Gateway.Message) : Z :=
  Z.of_nat (length (PyStr.split (Gateway.content m))).

Definition total_words (messages : list Gateway.Message) : Z :=
  fold_right Z.add 0 (map word_count messages).

Definition estimate (messages : list Gateway.Message) : Z :=
  Qceiling ((13 # 10) * inject_Z (total_words messages)).

(** Section 4.3, provider selection: the preferred provider first, when
    it supports the model and its breaker is not OPEN, then the
    providers that support the model in priority order. *)
Definition breaker_open (s : Gateway.Settings) (r : Gateway.ProviderRouter)
    (p : Gateway.Provider) : bool :=
  Gateway.CIRCUIT_BREAKER_ENABLED s
  && match Gateway.current_state
             <$> Gateway.circuit_breakers r !! Gateway.name p with
     | Some Gateway.OPEN => true
     | _ => false
     end.

Definition candidates (s : Gateway.Settings) (r : Gateway.ProviderRouter)
    (req : Gateway.LLMRequest) : list Gateway.Provider :=
  let ranked := Gateway._get_providers_for_model s r (Gateway.model req) in
  match Gateway.preferred_provider req with
  | Some pn =>
      match Gateway._get_provider_by_name r pn with
      | Some p =>
          if Gateway.supports_model p (Gateway.model req)
             && negb (breaker_open s r p)
          then p :: List.filter
                      (fun q => negb (String.eqb (Gateway.name q) (Gateway.name p)))
                      ranked
          else ranked
      | None => ranked
      end
  | None => ranked
  end.

(** Section 4.3, attempt loop: iterate the candidate list. *)
Definition route (s : Gateway.Settings) (r : Gateway.ProviderRouter)
    (req : Gateway.LLMRequest) : Gateway.result Gateway.LLMResponse :=
  match candidates s r req with
  | [] => Gateway.Raise (Gateway.ModelNotSupportedError "any" (Gateway.model req))
  | c => Gateway.try_providers s r req (length c) c []
  end.

(** Section 4.1, budget: [soft_fraction] is the configured percentage
    as a fraction (default 0.8); the warning is attached when
    [used >= budget * soft_fraction] and the request is within the hard
    limit, in exact arithmetic. *)
Definition soft_fraction (s : Gateway.Settings) : Q :=
  inject_Z (Gateway.BUDGET_SOFT_LIMIT_PERCENT s) / inject_Z 100.

Definition soft_limit_warning (s : Gateway.Settings) (B U E : Z) : bool :=
  Qle_bool (inject_Z B * soft_fraction s) (inject_Z U) && (U + E <? B).

End Spec.

(* ===================================================================== *)
(** ** Concrete inputs used by the examples below *)
(* ===================================================================== *)

Module Sample.

Definition response_of (provider_name : string) : Gateway.LLMResponse :=
  {| Gateway.provider := provider_name;
     Gateway.response_content := "pong";
     Gateway.total_tokens := 4;
     Gateway.cost_usd := PyFloat.of_int 0;
     Gateway.is_fallback := false;
     Gateway.attempted_providers := [provider_name] |}.

(** The two providers of [_init_providers], with the keys of their
    [supported_models] tables, each answering every request. *)
Definition openai : Gateway.Provider :=
  {| Gateway.name := "openai";
     Gateway.supported_models :=
       ["gpt-4"; "gpt-4-turbo"; "gpt-4-turbo-preview"; "gpt-3.5-turbo"; "gpt-3.5"];
     Gateway.completion := fun _ => Gateway.Ok (response_of "openai") |}.

Definition anthropic : Gateway.Provider :=
  {| Gateway.name := "anthropic";
     Gateway.supported_models :=
       ["claude-3-opus"; "claude-3-sonnet"; "claude-3-haiku";
        "claude-opus"; "claude-sonnet"; "claude-haiku"];
     Gateway.completion := fun _ => Gateway.Ok (response_of "anthropic") |}.

(** A breaker in the given state that has counted [n] failures. *)
Definition breaker (st : Gateway.breaker_state) (n : Z)
    : Gateway.CircuitBreaker :=
  {| Gateway.current_state := st; Gateway.fail_counter := n |}.

Definition closed_breakers : gmap string Gateway.CircuitBreaker :=
  <["openai" := breaker Gateway.CLOSED 0]>
    (<["anthropic" := breaker Gateway.CLOSED 0]> ∅).

Definition router : Gateway.ProviderRouter :=
  {| Gateway.providers := [openai; anthropic];
     Gateway.circuit_breakers := closed_breakers |}.



(** Two providers that share a model alias, the first of them down. *)
Definition openai_down : Gateway.Provider :=
  {| Gateway.name := "openai";
     Gateway.supported_models := ["gpt-4"];
     Gateway.completion :=
       fun _ => Gateway.Raise (Gateway.ProviderError "openai" "503") |}.

Definition anthropic_alias : Gateway.Provider :=
  {| Gateway.name := "anthropic";
     Gateway.supported_models := ["gpt-4"; "claude-3-sonnet"];
     Gateway.completion := fun _ => Gateway.Ok (response_of "anthropic") |}.

Definition router_shared_alias : Gateway.ProviderRouter :=
  {| Gateway.providers := [openai_down; anthropic_alias];
     Gateway.circuit_breakers := closed_breakers |}.

Definition request (m : string) (preferred : option string)
    : Gateway.LLMRequest :=
  {| Gateway.model := m;
     Gateway.messages :=
       [ {| Gateway.role := "user"; Gateway.content := "ping" |} ];
     Gateway.tenant_id := "t1";
     Gateway.preferred_provider := preferred |}.

Definition tenant : Gateway.Tenant :=
  {| Gateway.token_budget_monthly := 1000000;
     Gateway.token_used_current_month := 0;
     Gateway.rate_limit_per_minute := 100 |}.

Definition state : Gateway.State :=
  {| Gateway.redis := ∅;
     Gateway.tenants := <["t1" := tenant]> ∅;
     Gateway.llm_events := [] |}.

(** The default settings with [BUDGET_SOFT_LIMIT_PERCENT=55] in the
    environment. *)
Definition soft_limit_55 : Gateway.Settings :=
  {| Gateway.PROVIDER_PRIORITY := ["openai"; "anthropic"; "local"];
     Gateway.CIRCUIT_BREAKER_ENABLED := true;
     Gateway.CIRCUIT_BREAKER_FAILURE_THRESHOLD := 5;
     Gateway.RATE_LIMIT_ENABLED := true;
     Gateway.RATE_LIMIT_REQUESTS_PER_MINUTE := 100;
     Gateway.RATE_LIMIT_WINDOW_SECONDS := 60;
     Gateway.BUDGET_CHECK_ENABLED := true;
     Gateway.BUDGET_SOFT_LIMIT_PERCENT := 55 |}.

End Sample.

Module ControlSample.

(** A run that completed five seconds after it started. *)
Definition completed_run : ControlPlane.Run :=
  {| ControlPlane.tenant_id := "t1";
     ControlPlane.run_status := "completed";
     ControlPlane.error_message := None;
     ControlPlane.started_at := Some 1000000;
     ControlPlane.completed_at := Some 6000000;
     ControlPlane.duration_seconds := Some 5;
     ControlPlane.current_step := None |}.

Definition runs : gmap string ControlPlane.Run := <["r1" := completed_run]> ∅.

Definition to_running : ControlPlane.RunStatusUpdate :=
  {| ControlPlane.status := ControlPlane.Running;
     ControlPlane.upd_error_message := None;
     ControlPlane.upd_current_step := None |}.

End ControlSample.

Module WorkerSample.

Definition with_dlq : Worker.Settings :=
  {| Worker.SQS_DLQ_URL := "https://sqs.example/dlq";
     Worker.STEP_MAX_RETRIES := 3 |}.

(** The tool executor on a step configuration that names no tool. *)
Definition no_tool (config : list (string * Worker.json))
    (run_id step_id : string) : string + Worker.json :=
  inl "Unknown tool: None".

(** The executor's collaborators, with the gateway client in front of
    a gateway that gives [reply] to every request. *)
Definition env_of (reply : LLMClient.reply) : Worker.Env :=
  {| Worker.llm_completion :=
       fun _ _ _ _ => (LLMClient.completion 120 (fun _ => reply)).2;
     Worker.tool_execute := no_tool |}.

(** A gateway that answers "pong" for 4 tokens; the cost is a JSON
    float, as the gateway's response model has it. *)
Definition env : Worker.Env :=
  env_of (LLMClient.Response 200 None
            ("pong", 4, Worker.NFloat (35 # 10000000))).

(** A gateway that answers with empty content and no usage. *)
Definition env_empty_answer : Worker.Env :=
  env_of (LLMClient.Response 200 None ("", 0, Worker.NFloat 0)).

(** A gateway that cannot be reached. *)
Definition env_down : Worker.Env :=
  env_of (LLMClient.RequestError "All connection attempts failed").

Definition queued_step : Worker.Step :=
  {| Worker.status := "queued";
     Worker.started_at := None;
     Worker.completed_at := None;
     Worker.duration_seconds := None;
     Worker.output_data := None;
     Worker.error_message := None;
     Worker.tokens_used := 0;
     Worker.cost_usd := 0 |}.

(** The row an earlier delivery of the same message left behind. *)
Definition replayed_step : Worker.Step :=
  {| Worker.status := "success";
     Worker.started_at := Some 0;
     Worker.completed_at := Some 2000000;
     Worker.duration_seconds := Some 2;
     Worker.output_data := Some (Worker.JStr "pong");
     Worker.error_message := None;
     Worker.tokens_used := 4;
     Worker.cost_usd := 35 # 10000000 |}.

Definition run_row : Worker.Run :=
  {| Worker.run_tenant_id := "t1";
     Worker.run_tokens_used := 0;
     Worker.estimated_cost_usd := 0 |}.

Definition database (step : Worker.Step) : Worker.DB :=
  {| Worker.steps := <["s1" := step]> ∅;
     Worker.runs := <["r1" := run_row]> ∅ |}.

Definition body (stype : string) (attempt : option Z) : Worker.Body :=
  {| Worker.run_id := Some "r1";
     Worker.step_id := Some "s1";
     Worker.step_name := Some "search_web";
     Worker.step_type := Some stype;
     Worker.step_config := Some [];
     Worker.attempt := attempt |}.

Definition message (b : Worker.Body) : Worker.SQSMessage :=
  {| Worker.ReceiptHandle := "rh-1";
     Worker.MessageId := "m-1";
     Worker.MessageBody := Worker.Object b |}.

Definition world (step : Worker.Step) (b : Worker.Body) : Worker.World :=
  {| Worker.db := database step;
     Worker.queue := [message b];
     Worker.dlq := [] |}.

End WorkerSample.

Module Outcome.

(** The Step row a success update writes: optional values are written
    only when truthy, and a falsy one leaves what the row held. *)
Definition committed_step (t0 t1 : Z) (st0 : Worker.Step)
    (res : Worker.StepResult) : Worker.Step :=
  {| Worker.status := "success";
     Worker.started_at := Some t0;
     Worker.completed_at := Some t1;
     Worker.duration_seconds := Some (Worker.seconds_between t1 t0);
     Worker.output_data :=
       if Worker.truthy (Worker.output res) then Some (Worker.output res)
       else Worker.output_data st0;
     Worker.error_message := Worker.error_message st0;
     Worker.tokens_used :=
       if Worker.res_tokens_used res =? 0 then Worker.tokens_used st0
       else Worker.res_tokens_used res;
     Worker.cost_usd :=
       if Worker.number_truthy (Worker.res_cost_usd res)
       then Worker.number_value (Worker.res_cost_usd res)
       else Worker.cost_usd st0 |}.

(** The same row once the [except] block has marked it failed with the
    TypeError of the usage update. *)
Definition failed_after_success (t0 t1 : Z) (st0 : Worker.Step)
    (res : Worker.StepResult) : Worker.Step :=
  {| Worker.status := "failed";
     Worker.started_at := Some t0;
     Worker.completed_at := Some t1;
     Worker.duration_seconds := Some (Worker.seconds_between t1 t0);
     Worker.output_data :=
       if Worker.truthy (Worker.output res) then Some (Worker.output res)
       else Worker.output_data st0;
     Worker.error_message := Some Worker.decimal_plus_float;
     Worker.tokens_used :=
       if Worker.res_tokens_used res =? 0 then Worker.tokens_used st0
       else Worker.res_tokens_used res;
     Worker.cost_usd :=
       if Worker.number_truthy (Worker.res_cost_usd res)
       then Worker.number_value (Worker.res_cost_usd res)
       else Worker.cost_usd st0 |}.

(** The Run row with the outcome's tokens added and its cost left. *)
Definition tokens_charged (run0 : Worker.Run) (tokens : Z) : Worker.Run :=
  {| Worker.run_tenant_id := Worker.run_tenant_id run0;
     Worker.run_tokens_used := Worker.run_tokens_used run0 + tokens;
     Worker.estimated_cost_usd := Worker.estimated_cost_usd run0 |}.

(** The Run row with the outcome's tokens and its whole-number cost
    added. *)
Definition charged_run (run0 : Worker.Run) (tokens cost : Z) : Worker.Run :=
  {| Worker.run_tenant_id := Worker.run_tenant_id run0;
     Worker.run_tokens_used := Worker.run_tokens_used run0 + tokens;
     Worker.estimated_cost_usd :=
       (Worker.estimated_cost_usd run0 + inject_Z cost)%Q |}.

(** The message with [attempt] set to 1 in its body. *)
Definition as_first_attempt (msg : Worker.SQSMessage) (b : Worker.Body)
    : Worker.SQSMessage :=
  {| Worker.ReceiptHandle := Worker.ReceiptHandle msg;
     Worker.MessageId := Worker.MessageId msg;
     Worker.MessageBody :=
       Worker.Object
         {| Worker.run_id := Worker.run_id b;
            Worker.step_id := Worker.step_id b;
            Worker.step_name := Worker.step_name b;
            Worker.step_type := Worker.step_type b;
            Worker.step_config := Worker.step_config b;
            Worker.attempt := Some 1 |} |}.

End Outcome.

Module Routing.

(** The outcomes the attempt loop of [route] passes over: a ProviderError
    or a CircuitBreakerError raised by the call through the breaker. *)
Definition falls_through (s : Gateway.Settings) (r : Gateway.ProviderRouter)
    (req : Gateway.LLMRequest) (p : Gateway.Provider) : bool :=
  match Gateway._execute_with_circuit_breaker s r p req with
  | Gateway.Raise (Gateway.ProviderError _ _) => true
  | Gateway.Raise Gateway.CircuitBreakerError => true
  | _ => false
  end.

(** The providers the first loop of [_get_providers_for_model] collects:
    one per priority name that resolves to a provider supporting the
    model, in priority order. *)
Definition by_priority (s : Gateway.Settings) (r : Gateway.ProviderRouter)
    (m : string) : list Gateway.Provider :=
  flat_map
    (fun provider_name =>
       match Gateway._get_provider_by_name r provider_name with
       | Some p => if Gateway.supports_model p m then [p] else []
       | None => []
       end)
    (Gateway.PROVIDER_PRIORITY s).

(** The response the loop returns for the provider that answered. *)
Definition answered (response : Gateway.LLMResponse) (fallback : bool)
    (attempted : list string) : Gateway.LLMResponse :=
  {| Gateway.provider := Gateway.provider response;
     Gateway.response_content := Gateway.response_content response;
     Gateway.total_tokens := Gateway.total_tokens response;
     Gateway.cost_usd := Gateway.cost_usd response;
     Gateway.is_fallback := fallback;
     Gateway.attempted_providers := attempted |}.

End Routing.

Module RoutingSample.



Definition router_all_down : Gateway.ProviderRouter :=
  {| Gateway.providers := [Sample.openai_down; Sample.anthropic_alias];
     Gateway.circuit_breakers :=
       <["openai" := Sample.breaker Gateway.CLOSED 0]>
         (<["anthropic" := Sample.breaker Gateway.OPEN 5]> ∅) |}.

End RoutingSample.

Module Pipeline.

(** The numbers a budget check computes with: the cached dictionary when
    the cache holds one, the tenant row otherwise. *)
Definition budget_view (now : Z) (st : Redis.store)
    (tenants : gmap string Gateway.Tenant) (tenant : string) : option (Z * Z) :=
  match Redis.get now st (Gateway.budget_key tenant) with
  | Some (Redis.RBudget b u) => Some (b, u)
  | _ =>
      match tenants !! tenant with
      | Some t => Some (Gateway.token_budget_monthly t,
                        Gateway.token_used_current_month t)
      | None => None
      end
  end.

(** The dictionary [check_rate_limit] returns for a post-increment count. *)
Definition verdict (s : Gateway.Settings) (limit : option Z) (count : Z)
    : Gateway.rate_result :=
  Gateway.RateChecked
    {| Gateway.rc_allowed := count <=? Gateway.effective_limit s limit;
       Gateway.rc_limit := Gateway.effective_limit s limit;
       Gateway.rc_current := count;
       Gateway.rc_remaining := Z.max 0 (Gateway.effective_limit s limit - count);
       Gateway.rc_reset_seconds := Gateway.RATE_LIMIT_WINDOW_SECONDS s |}.

(** Rate-limit checks of one tenant, one after the other, at the given
    times. *)
Fixpoint rate_checks (s : Gateway.Settings) (st : Redis.store)
    (tenant : string) (times : list Z)
    : option (Redis.store * list Gateway.rate_result) :=
  match times with
  | [] => Some (st, [])
  | t :: ts =>
      match Gateway.check_rate_limit s t st tenant None with
      | None => None
      | Some (st1, res) =>
          match rate_checks s st1 tenant ts with
          | None => None
          | Some (st2, rs) => Some (st2, res :: rs)
          end
      end
  end.

(** Each time is no earlier than the one before and less than a window
    after it. *)
Fixpoint chained (window : Z) (t : Z) (ts : list Z) : Prop :=
  match ts with
  | [] => True
  | t' :: rest => t <= t' < t + window /\ chained window t' rest
  end.

(** [start, start + 1, ...], [n] numbers. *)
Definition counts (start : Z) (n : nat) : list Z :=
  map (fun i => start + Z.of_nat i) (seq 0 n).

(** The event row [_log_llm_event] adds for a response. *)
Definition event_of (req : Gateway.LLMRequest) (response : Gateway.LLMResponse)
    : Gateway.LLMEvent :=
  {| Gateway.ev_tenant_id := Gateway.tenant_id req;
     Gateway.ev_provider := Gateway.provider response;
     Gateway.ev_total_tokens := Gateway.total_tokens response;
     Gateway.ev_is_fallback := Gateway.is_fallback response |}.

End Pipeline.

Module PipelineSample.

(** The tenant of the specification's budget-block scenario: budget 1000,
    999 used. *)
Definition nearly_spent : Gateway.Tenant :=
  {| Gateway.token_budget_monthly := 1000;
     Gateway.token_used_current_month := 999;
     Gateway.rate_limit_per_minute := 100 |}.

Definition state_nearly_spent : Gateway.State :=
  {| Gateway.redis := ∅;
     Gateway.tenants := <["t1" := nearly_spent]> ∅;
     Gateway.llm_events := [] |}.

(** A tenant that has used up its 100 requests of the current window. *)
Definition state_at_rate_limit : Gateway.State :=
  {| Gateway.redis :=
       <[Gateway.rate_key "t1" := Redis.Entry (Redis.RInt 100) (Some 60)]> ∅;
     Gateway.tenants := <["t1" := Sample.tenant]> ∅;
     Gateway.llm_events := [] |}.

(** No row for the tenant. *)
Definition state_no_tenant : Gateway.State :=
  {| Gateway.redis := ∅; Gateway.tenants := ∅; Gateway.llm_events := [] |}.

(** Ten words: an estimate of 13 tokens. *)
Definition ten_word_request : Gateway.LLMRequest :=
  {| Gateway.model := "gpt-4";
     Gateway.messages :=
       [ {| Gateway.role := "user";
            Gateway.content := "a b c d e f g h i j" |} ];
     Gateway.tenant_id := "t1";
     Gateway.preferred_provider := None |}.

End PipelineSample.

Module Providers.

(** A [dict] with string keys, as a list of items; [get] is [dict.get]. *)
Fixpoint get {A : Type} (d : list (string * A)) (k : string) : option A :=
  match d with
  | [] => None
  | (k', v) :: rest => if String.eqb k' k then Some v else get rest k
  end.

Definition keys {A : Type} (d : list (string * A)) : list string := map fst d.

(** [OpenAIProvider.supported_models] and [AnthropicProvider.supported_models] *)
Definition openai_models : list (string * string) :=
  [ ("gpt-4", "gpt-4");
    ("gpt-4-turbo", "gpt-4-turbo-preview");
    ("gpt-4-turbo-preview", "gpt-4-turbo-preview");
    ("gpt-3.5-turbo", "gpt-3.5-turbo");
    ("gpt-3.5", "gpt-3.5-turbo") ].

Definition anthropic_models : list (string * string) :=
  [ ("claude-3-opus", "claude-3-opus-20240229");
    ("claude-3-sonnet", "claude-3-sonnet-20240229");
    ("claude-3-haiku", "claude-3-haiku-20240307");
    ("claude-opus", "claude-3-opus-20240229");
    ("claude-sonnet", "claude-3-sonnet-20240229");
    ("claude-haiku", "claude-3-haiku-20240307") ].

(** [map_model_name]: [self.supported_models.get(model, model)] *)
Definition map_model_name (models : list (string * string)) (m : string)
    : string :=
  default m (get models m).

(** An entry of [settings.TOKEN_COSTS]: USD per 1000 tokens, as the
    decimal written in the configuration. *)
Record Pricing := { prompt : Q; completion : Q }.

Definition TOKEN_COSTS : list (string * Pricing) :=
  [ ("gpt-4-turbo-preview", {| prompt := 1 # 100; completion := 3 # 100 |});
    ("gpt-4", {| prompt := 3 # 100; completion := 6 # 100 |});
    ("gpt-3.5-turbo", {| prompt := 5 # 10000; completion := 15 # 10000 |});
    ("claude-3-opus", {| prompt := 15 # 1000; completion := 75 # 1000 |});
    ("claude-3-sonnet", {| prompt := 3 # 1000; completion := 15 # 1000 |});
    ("claude-3-haiku", {| prompt := 25 # 100000; completion := 125 # 100000 |}) ].

(** The pricing entry [OpenAIProvider.calculate_cost] computes with. *)
Definition openai_pricing (m : string) : option Pricing :=
  match get TOKEN_COSTS m with
  | Some pricing => Some pricing
  | None => get TOKEN_COSTS "gpt-3.5-turbo"
  end.

(** The pricing entry [AnthropicProvider.calculate_cost] computes with. *)
Definition anthropic_pricing (m : string) : option Pricing :=
  let pricing := get TOKEN_COSTS m in
  let pricing :=
    match pricing with
    | Some _ => pricing
    | None =>
        if PyStr.contains "opus" m then get TOKEN_COSTS "claude-3-opus"
        else if PyStr.contains "sonnet" m then get TOKEN_COSTS "claude-3-sonnet"
        else if PyStr.contains "haiku" m then get TOKEN_COSTS "claude-3-haiku"
        else None
    end in
  match pricing with
  | Some _ => pricing
  | None => get TOKEN_COSTS "claude-3-haiku"
  end.

(** [AnthropicProvider.completion], the loop that separates the system
    message from the conversation: [(system_message, messages)]. *)
Definition split_system (messages : list Gateway.Message)
    : option string * list Gateway.Message :=
  fold_left
    (fun '(system_message, out) msg =>
       if String.eqb (Gateway.role msg) "system"
       then (Some (Gateway.content msg), out)
       else (system_message, (out ++ [msg])%list))
    messages (None, []).

Definition is_system (m : Gateway.Message) : bool :=
  String.eqb (Gateway.role m) "system".

End Providers.

Module Words.

Fixpoint no_space (w : string) : bool :=
  match w with
  | EmptyString => true
  | String c w' => negb (PyStr.is_space c) && no_space w'
  end.

Fixpoint all_space (s : string) : bool :=
  match s with
  | EmptyString => true
  | String c s' => PyStr.is_space c && all_space s'
  end.

(** A word: not empty, no whitespace in it. *)
Definition is_word (w : string) : Prop := w ≠ "" /\ no_space w = true.

End Words.

(* ===================================================================== *)
(** ** Control plane: creating a run *)
(* ===================================================================== *)

Module RunCreation.

(** The columns of [tasks], [tenants] and [users] ([models.py]) the
    handler reads; [default_token_budget] is nullable. *)
Record Task := {
  task_tenant_id : string;
  is_active : bool;
  default_token_budget : option Z
}.

Record Tenant := {
  token_budget_monthly : Z;
  token_used_current_month : Z
}.

Record User := {
  user_id : string;
  user_tenant_id : string
}.

(** The two fields of the request body the handler reads. *)
Record RunCreate := {
  task_id : string;
  token_budget : option Z
}.

Inductive created :=
| Created (run_id : string) (token_budget : Z) (run : ControlPlane.Run)
| HTTPException (code : Z) (detail : string)
| TypeError.                    (* [int + None] *)

(** [a or b] on two optional integers. *)
Definition int_or (a b : option Z) : option Z :=
  match a with
  | Some n => if n =? 0 then b else Some n
  | None => b
  end.

(** [select(Task).filter(Task.id == task_id, Task.tenant_id == tenant,
    Task.is_active == True)] *)
Definition select_task (tasks : gmap string Task) (id user_tenant : string)
    : option Task :=
  match tasks !! id with
  | Some t =>
      if String.eqb (task_tenant_id t) user_tenant && is_active t
      then Some t else None
  | None => None
  end.

(** [create_run] (POST /); [tenant] is the tenant row of the current
    user and [new_id] the primary key the new row is given. *)
Definition create_run (tasks : gmap string Task) (tenant : Tenant)
    (runs : gmap string ControlPlane.Run) (new_id : string)
    (current_user : User) (run_data : RunCreate)
    : gmap string ControlPlane.Run * created :=
  match select_task tasks (task_id run_data) (user_tenant_id current_user) with
  | None => (runs, HTTPException 404 "Task not found or inactive")
  | Some task =>
      match int_or (token_budget run_data) (default_token_budget task) with
      | None => (runs, TypeError)
      | Some budget =>
          if token_used_current_month tenant + budget
             >? token_budget_monthly tenant
          then (runs, HTTPException 402 "Insufficient token budget for this run")
          else
            let run :=
              {| ControlPlane.tenant_id := user_tenant_id current_user;
                 ControlPlane.run_status := "pending";
                 ControlPlane.error_message := None;
                 ControlPlane.started_at := None;
                 ControlPlane.completed_at := None;
                 ControlPlane.duration_seconds := None;
                 ControlPlane.current_step := None |} in
            (<[new_id := run]> runs, Created new_id budget run)
      end
  end.

End RunCreation.

Module RunCreationSample.

Definition task : RunCreation.Task :=
  {| RunCreation.task_tenant_id := "t1";
     RunCreation.is_active := true;
     RunCreation.default_token_budget := Some 10000 |}.

Definition tasks : gmap string RunCreation.Task := <["task-1" := task]> ∅.

(** 10000 tokens are left of the month. *)
Definition tenant : RunCreation.Tenant :=
  {| RunCreation.token_budget_monthly := 1000000;
     RunCreation.token_used_current_month := 990000 |}.

Definition user : RunCreation.User :=
  {| RunCreation.user_id := "u1"; RunCreation.user_tenant_id := "t1" |}.

Definition request (budget : option Z) : RunCreation.RunCreate :=
  {| RunCreation.task_id := "task-1"; RunCreation.token_budget := budget |}.

Definition pending_run : ControlPlane.Run :=
  {| ControlPlane.tenant_id := "t1";
     ControlPlane.run_status := "pending";
     ControlPlane.error_message := None;
     ControlPlane.started_at := None;
     ControlPlane.completed_at := None;
     ControlPlane.duration_seconds := None;
     ControlPlane.current_step := None |}.

Definition update (s : ControlPlane.RunStatus) : ControlPlane.RunStatusUpdate :=
  {| ControlPlane.status := s;
     ControlPlane.upd_error_message := None;
     ControlPlane.upd_current_step := None |}.

End RunCreationSample.



(* ===================================================================== *)
(** * Properties *)
(* ===================================================================== *)

(** ** The fast store: frame lemmas *)

Lemma find_insert_ne (now : Z) (st : Redis.store) (k k' : string)
    (e : Redis.entry) :
  k ≠ k' -> Redis.find now (<[k := e]> st) k' = Redis.find now st k'.
Proof.
  intros Hne. unfold Redis.find. by rewrite lookup_insert_ne.
Qed.

Lemma incrby_frame (now : Z) (st st' : Redis.store) (k : string) (n c : Z) :
  Redis.incrby now st k n = Some (st', c) ->
  forall k', k' ≠ k -> st' !! k' = st !! k'.
Proof.
  unfold Redis.incrby. intros H k' Hne.
  destruct (Redis.find now st k) as [[[c0| |] ex]|]; simplify_eq;
    by rewrite lookup_insert_ne.
Qed.

Lemma incrby_counter (now : Z) (st : Redis.store) (k : string) (n : Z) :
  Redis.counter_or_absent now st k ->
  exists st' ex,
    Redis.incrby now st k n = Some (st', Redis.count_of now st k + n)
    /\ st' !! k = Some (Redis.Entry (Redis.RInt (Redis.count_of now st k + n)) ex)
    /\ Redis.find now st' k
       = Some (Redis.Entry (Redis.RInt (Redis.count_of now st k + n)) ex).
Proof.
  unfold Redis.counter_or_absent, Redis.count_of, Redis.get, Redis.incrby.
  destruct (Redis.find now st k) as [[[c| |] ex]|] eqn:Hf; simpl; try done.
  - intros _. eexists _, ex. unfold Redis.find.
    rewrite lookup_insert_eq. repeat split; try done.
    unfold Redis.find in Hf. destruct (st !! k) as [e0|]; [|done].
    destruct (Redis.live now e0) eqn:Hl; [|done]. simplify_eq.
    unfold Redis.live in *. simpl in *. by rewrite Hl.
  - intros _. eexists _, None. unfold Redis.find.
    rewrite lookup_insert_eq. repeat split; done.
Qed.

Lemma length_append (a b : string) :
  String.length (a ++ b) = (String.length a + String.length b)%nat.
Proof. induction a as [|c a IH]; simpl; [done | by rewrite IH]. Qed.

Lemma key_length_differs (a b : string) : b ≠ "" -> a ≠ a ++ b.
Proof.
  intros Hb Heq. apply (f_equal String.length) in Heq.
  rewrite length_append in Heq.
  destruct b; [done | simpl in Heq; lia].
Qed.

Lemma budget_key_not_counter_key (tenant : string) :
  Gateway.budget_key tenant ≠ Gateway.counter_key tenant.
Proof. unfold Gateway.counter_key. by apply key_length_differs. Qed.

(* --------------------------------------------------------------------- *)
(** ** Doubles: the product of an int and 0.8 *)

(** The soft threshold is computed in doubles.  The lemmas of this
    section follow [SpecFloat]'s rounding of a product, bit by bit, to
    compare the double [float(B) * 0.8] with an int. *)

(** The number of binary digits of a positive int. *)
Lemma digits2_bounds (p : positive) :
  2 ^ (Zpos (digits2_pos p) - 1) <= Zpos p < 2 ^ Zpos (digits2_pos p).
Proof.
  induction p as [p IH|p IH|]; cbn [digits2_pos].
  - rewrite Pos2Z.inj_succ.
    replace (Z.succ (Zpos (digits2_pos p)) - 1)
      with (Z.succ (Zpos (digits2_pos p) - 1)) by lia.
    rewrite !Z.pow_succ_r by lia. lia.
  - rewrite Pos2Z.inj_succ.
    replace (Z.succ (Zpos (digits2_pos p)) - 1)
      with (Z.succ (Zpos (digits2_pos p) - 1)) by lia.
    rewrite !Z.pow_succ_r by lia. lia.
  - simpl. lia.
Qed.

Lemma digits2_unique (p : positive) (k : Z) :
  2 ^ (k - 1) <= Zpos p < 2 ^ k -> Zpos (digits2_pos p) = k.
Proof.
  intros [Hlo Hhi]. pose proof (digits2_bounds p) as [Dlo Dhi].
  assert (Hk : 0 < k).
  { destruct (Z.ltb_spec 0 k) as [|Hle]; [done |].
    destruct (Z.eqb_spec k 0) as [-> |]; [simpl in Hhi; lia |].
    rewrite Z.pow_neg_r in Hhi by lia. lia. }
  destruct (Z.lt_trichotomy (Zpos (digits2_pos p)) k) as [Hlt|[Heq|Hgt]];
    [| done |].
  - assert (2 ^ Zpos (digits2_pos p) <= 2 ^ (k - 1))
      by (apply Z.pow_le_mono_r; lia). lia.
  - assert (2 ^ k <= 2 ^ (Zpos (digits2_pos p) - 1))
      by (apply Z.pow_le_mono_r; lia). lia.
Qed.

(** [iter_pos], the loop of the right shift, as an iteration over [nat]. *)
Lemma iter_pos_nat {A : Type} (f : A -> A) (p : positive) (x : A) :
  SpecFloat.iter_pos f p x = Nat.iter (Pos.to_nat p) f x.
Proof.
  revert x. induction p as [p IH|p IH|]; intros x; cbn [SpecFloat.iter_pos].
  - rewrite !IH, Pos2Nat.inj_xI.
    replace (S (2 * Pos.to_nat p))%nat
      with (Pos.to_nat p + (Pos.to_nat p + 1))%nat by lia.
    rewrite !Nat.iter_add. simpl. reflexivity.
  - rewrite !IH, Pos2Nat.inj_xO.
    replace (2 * Pos.to_nat p)%nat
      with (Pos.to_nat p + Pos.to_nat p)%nat by lia.
    by rewrite Nat.iter_add.
  - reflexivity.
Qed.

(** One right shift halves the mantissa and remembers the bit that
    falls off. *)
Lemma shr_1_spec (x : shr_record) :
  0 <= shr_m x ->
  shr_m (shr_1 x) = shr_m x / 2 /\ shr_r (shr_1 x) = Z.odd (shr_m x).
Proof.
  destruct x as [m r s]. simpl. intros Hm.
  destruct m as [|[p|p|]|p]; try lia; simpl; split; try reflexivity.
  - rewrite Pos2Z.inj_xI. apply Z.div_unique with 1; lia.
  - rewrite Pos2Z.inj_xO. apply Z.div_unique with 0; lia.
Qed.

(** [k] right shifts divide the mantissa by [2 ^ k]; the last bit
    shifted out is the lowest bit of the quotient by [2 ^ (k - 1)]. *)
Lemma shr_iter_m (k : nat) (x : shr_record) :
  0 <= shr_m x ->
  shr_m (Nat.iter k shr_1 x) = shr_m x / 2 ^ Z.of_nat k.
Proof.
  intros Hx. induction k as [|k IH].
  - simpl. by rewrite Z.div_1_r.
  - change (Nat.iter (S k) shr_1 x) with (shr_1 (Nat.iter k shr_1 x)).
    assert (H0 : 0 <= shr_m (Nat.iter k shr_1 x)).
    { rewrite IH. apply Z.div_pos; [done |]. apply Z.pow_pos_nonneg; lia. }
    destruct (shr_1_spec _ H0) as [-> _]. rewrite IH.
    rewrite Nat2Z.inj_succ, Z.pow_succ_r by lia.
    rewrite Z.div_div by (try apply Z.pow_pos_nonneg; lia).
    f_equal. lia.
Qed.

Lemma shr_iter_r (k : nat) (x : shr_record) :
  0 <= shr_m x ->
  shr_r (Nat.iter (S k) shr_1 x) = Z.odd (shr_m x / 2 ^ Z.of_nat k).
Proof.
  intros Hx.
  change (Nat.iter (S k) shr_1 x) with (shr_1 (Nat.iter k shr_1 x)).
  assert (H0 : 0 <= shr_m (Nat.iter k shr_1 x)).
  { rewrite shr_iter_m by done.
    apply Z.div_pos; [done |]. apply Z.pow_pos_nonneg; lia. }
  destruct (shr_1_spec _ H0) as [_ ->]. by rewrite shr_iter_m.
Qed.

(** A mantissa of exactly 53 bits is neither shifted nor rounded. *)
Lemma shr_fexp_exact (m : positive) (e : Z) :
  Zpos (digits2_pos m) = 53 -> -1074 <= e ->
  shr_fexp 53 1024 (Zpos m) e loc_Exact
  = ({| shr_m := Zpos m; shr_r := false; shr_s := false |}, e).
Proof.
  intros Hd He. unfold shr_fexp, shr, fexp, emin.
  cbn [Zdigits2 shr_record_of_loc]. rewrite Hd.
  replace (Z.max (53 + e - 53) (3 - 1024 - 53) - e) with 0 by lia.
  reflexivity.
Qed.

Lemma round_exact (m : positive) (e : Z) :
  Zpos (digits2_pos m) = 53 -> -1074 <= e <= 971 ->
  binary_round_aux 53 1024 false (Zpos m) e loc_Exact = S754_finite false m e.
Proof.
  intros Hd He. unfold binary_round_aux.
  rewrite (shr_fexp_exact m e) by (done || lia).
  cbn [shr_m loc_of_shr_record round_nearest_even].
  rewrite (shr_fexp_exact m e) by (done || lia). cbn [shr_m].
  destruct (Z.leb_spec e (1024 - 53)); [reflexivity | lia].
Qed.

(** Rounding a mantissa of [53 + n] bits: [n] bits are shifted out, the
    quotient [m1] is the floor or the floor plus one (the floor when the
    first bit shifted out is 0), and a quotient of [2 ^ 53] is
    renormalised to [2 ^ 52] with the exponent one higher. *)
Lemma round_shift (P : positive) (e0 : Z) (n : positive) :
  Zpos (digits2_pos P) = 53 + Zpos n ->
  -1074 <= e0 + Zpos n -> e0 + Zpos n + 1 <= 971 ->
  exists m e m1,
    binary_round_aux 53 1024 false (Zpos P) e0 loc_Exact
    = S754_finite false m e
    /\ (m1 = Zpos P / 2 ^ Zpos n \/ m1 = Zpos P / 2 ^ Zpos n + 1)
    /\ (Z.odd (Zpos P / 2 ^ (Zpos n - 1)) = false -> m1 = Zpos P / 2 ^ Zpos n)
    /\ ((m1 = Zpos m /\ e = e0 + Zpos n)
        \/ (m1 = 2 * Zpos m /\ e = e0 + Zpos n + 1)).
Proof.
  intros Hd Hlo Hhi.
  pose (rec0 := {| shr_m := Zpos P; shr_r := false; shr_s := false |}).
  pose (mrs := Nat.iter (Pos.to_nat n) shr_1 rec0).
  assert (Hs : shr_fexp 53 1024 (Zpos P) e0 loc_Exact = (mrs, e0 + Zpos n)).
  { unfold shr_fexp, shr, fexp, emin. cbn [Zdigits2 shr_record_of_loc].
    rewrite Hd.
    replace (Z.max (53 + Zpos n + e0 - 53) (3 - 1024 - 53) - e0)
      with (Zpos n) by lia.
    by rewrite iter_pos_nat. }
  assert (Hq : shr_m mrs = Zpos P / 2 ^ Zpos n).
  { unfold mrs. rewrite shr_iter_m by (simpl; lia).
    by rewrite positive_nat_Z. }
  assert (Hr : shr_r mrs = Z.odd (Zpos P / 2 ^ (Zpos n - 1))).
  { unfold mrs. destruct (Pos2Nat.is_succ n) as [k Hk]. rewrite Hk.
    rewrite shr_iter_r by (simpl; lia). do 3 f_equal. lia. }
  pose proof (digits2_bounds P) as [Plo Phi]. rewrite Hd in Plo, Phi.
  assert (Hpow : 0 < 2 ^ Zpos n) by (apply Z.pow_pos_nonneg; lia).
  assert (Hqlo : 2 ^ 52 <= Zpos P / 2 ^ Zpos n).
  { apply Z.div_le_lower_bound; [done |].
    rewrite <- Z.pow_add_r by lia.
    by replace (Zpos n + 52) with (53 + Zpos n - 1) by lia. }
  assert (Hqhi : Zpos P / 2 ^ Zpos n < 2 ^ 53).
  { apply Z.div_lt_upper_bound; [done |].
    rewrite <- Z.pow_add_r by lia.
    by replace (Zpos n + 53) with (53 + Zpos n) by lia. }
  set (q := Zpos P / 2 ^ Zpos n) in *.
  set (m1 := round_nearest_even (shr_m mrs) (loc_of_shr_record mrs)).
  assert (Hm1 : (m1 = q \/ m1 = q + 1) /\ (shr_r mrs = false -> m1 = q)).
  { unfold m1. rewrite Hq. destruct mrs as [mm [|] [|]]; simpl;
      try (destruct (Z.even q)); split; auto; discriminate. }
  destruct Hm1 as [Hm1 Hdown].
  unfold binary_round_aux. rewrite Hs. fold m1.
  rewrite Hr in Hdown.
  destruct (Z.ltb_spec m1 (2 ^ 53)) as [Hlt|Hge].
  - destruct m1 as [|pm|pm] eqn:Em; try lia.
    assert (Hdm : Zpos (digits2_pos pm) = 53)
      by (apply digits2_unique; simpl; lia).
    rewrite (shr_fexp_exact pm) by (done || lia). cbn [shr_m].
    destruct (Z.leb_spec (e0 + Zpos n) (1024 - 53)); [| lia].
    exists pm, (e0 + Zpos n), (Zpos pm).
    split; [reflexivity |]. split; [exact Hm1 |]. split; [exact Hdown |].
    by left.
  - assert (Em : m1 = 9007199254740992) by (change (2 ^ 53) with 9007199254740992 in *; lia).
    rewrite Em.
    assert (Hs2 : shr_fexp 53 1024 9007199254740992 (e0 + Zpos n) loc_Exact
                  = ({| shr_m := 4503599627370496; shr_r := false;
                        shr_s := false |}, e0 + Zpos n + 1)).
    { unfold shr_fexp, shr, fexp, emin. cbn [Zdigits2 shr_record_of_loc].
      change (Zpos (digits2_pos 9007199254740992)) with 54.
      replace (Z.max (54 + (e0 + Zpos n) - 53) (3 - 1024 - 53) - (e0 + Zpos n))
        with 1 by lia.
      reflexivity. }
    rewrite Hs2. cbn [shr_m].
    destruct (Z.leb_spec (e0 + Zpos n + 1) (1024 - 53)); [| lia].
    exists 4503599627370496%positive, (e0 + Zpos n + 1), 9007199254740992.
    rewrite Em in Hm1, Hdown.
    split; [reflexivity |]. split; [exact Hm1 |]. split; [exact Hdown |].
    right. split; reflexivity.
Qed.

(** [shl_align] shifts the mantissa left with [Pos.iter xO]. *)
Lemma iter_xO (p k : positive) :
  Zpos (Pos.iter xO p k) = Zpos p * 2 ^ Zpos k.
Proof.
  induction k as [|k IH] using Pos.peano_ind.
  - simpl. lia.
  - rewrite Pos.iter_succ, Pos2Z.inj_xO, IH, Pos2Z.inj_succ.
    rewrite Z.pow_succ_r by lia. lia.
Qed.

(** [float(n)] for a positive int of at most 53 bits: the int itself,
    with its mantissa shifted to 53 bits. *)
Lemma of_int_pos (p : positive) :
  Zpos (digits2_pos p) <= 53 ->
  exists m,
    PyFloat.of_int (Zpos p) = S754_finite false m (Zpos (digits2_pos p) - 53)
    /\ Zpos m = Zpos p * 2 ^ (53 - Zpos (digits2_pos p))
    /\ 2 ^ 52 <= Zpos m < 2 ^ 53.
Proof.
  intros Hd. unfold PyFloat.of_int, binary_normalize, binary_round.
  unfold PyFloat.prec, PyFloat.emax, fexp, emin.
  replace (Z.max (Zpos (digits2_pos p) + 0 - 53) (3 - 1024 - 53))
    with (Zpos (digits2_pos p) - 53) by lia.
  unfold shl_align.
  pose proof (digits2_bounds p) as [Plo Phi].
  destruct (Zpos (digits2_pos p) - 53 - 0) as [|k|k] eqn:Ek; try lia.
  - assert (Hd53 : Zpos (digits2_pos p) = 53) by lia.
    rewrite Hd53 in *. exists p. rewrite round_exact by (done || lia).
    split; [reflexivity |]. split; [simpl; lia |].
    change (53 - 1) with 52 in Plo. lia.
  - assert (Hk : Zpos k = 53 - Zpos (digits2_pos p)) by lia.
    assert (Hm : Zpos (Pos.iter xO p k) = Zpos p * 2 ^ (53 - Zpos (digits2_pos p)))
      by (rewrite iter_xO; by rewrite Hk).
    assert (Hb : 2 ^ 52 <= Zpos (Pos.iter xO p k) < 2 ^ 53).
    2: { exists (Pos.iter xO p k). split; [| by split].
         apply round_exact; [| lia]. by apply digits2_unique. }
    rewrite Hm.
    assert (Hp : 0 < 2 ^ (53 - Zpos (digits2_pos p)))
      by (apply Z.pow_pos_nonneg; lia).
    assert (H52 : 2 ^ 52 = 2 ^ (Zpos (digits2_pos p) - 1)
                             * 2 ^ (53 - Zpos (digits2_pos p))).
    { rewrite <- Z.pow_add_r by lia. f_equal. lia. }
    assert (H53 : 2 ^ 53 = 2 ^ Zpos (digits2_pos p)
                             * 2 ^ (53 - Zpos (digits2_pos p))).
    { rewrite <- Z.pow_add_r by lia. f_equal. lia. }
    rewrite H52, H53. split.
    + apply Z.mul_le_mono_nonneg_r; lia.
    + apply Z.mul_lt_mono_pos_r; lia.
Qed.

(** The arithmetic of rounding [B * 0.8]: [P] is the product of the two
    mantissas, [a] the power of two it is divided by, [s] the power of
    two that scales an int to the exponent of the quotient, and [g] is
    [2 ^ (50 - digits B)]. *)
Lemma rounded_product_vs_int (B U g P a s q q2 m1 : Z) :
  1 <= g -> 1 <= B ->
  2 ^ 52 <= 8 * (B * g) < 2 ^ 53 ->
  P = 8 * (B * g) * 7205759403792794 ->
  (a = 2 ^ 53 /\ s = 8 * g /\ 2 ^ 105 <= P)
  \/ (a = 2 ^ 52 /\ s = 16 * g /\ P < 2 ^ 105) ->
  q * a <= P < (q + 1) * a ->
  q2 * a <= 2 * P < (q2 + 1) * a ->
  m1 = q \/ m1 = q + 1 ->
  (Z.odd q2 = false -> m1 = q) ->
  (m1 <=? U * s) = (4 * B <=? 5 * U).
Proof.
  intros Hg HB HX HP Hcase Hq Hq2 Hm1 Hdown.
  assert (Hlin : 5 * (U * g) - 4 * (B * g) = (5 * U - 4 * B) * g) by ring.
  change (2 ^ 52) with 4503599627370496 in *.
  change (2 ^ 53) with 9007199254740992 in *.
  change (2 ^ 105) with 40564819207303340847894502572032 in *.
  destruct (Z.leb_spec (4 * B) (5 * U)) as [Hle|Hgt].
  - apply Z.leb_le.
    destruct (Z.eq_dec (5 * U) (4 * B)) as [Heq|Hne].
    + assert (H0 : 5 * (U * g) = 4 * (B * g)) by (rewrite Heq in Hlin; lia).
      assert (Hq2v : q2 = 2 * (U * s)).
      { destruct Hcase as [(-> & -> & HP105)|(-> & -> & HP105)];
          replace (U * (8 * g)) with (8 * (U * g)) by ring;
          replace (U * (16 * g)) with (16 * (U * g)) by ring; lia. }
      assert (Hodd : Z.odd q2 = false)
        by (rewrite Hq2v, Z.odd_mul; reflexivity).
      rewrite (Hdown Hodd).
      destruct Hcase as [(-> & -> & HP105)|(-> & -> & HP105)];
        replace (U * (8 * g)) with (8 * (U * g)) by ring;
        replace (U * (16 * g)) with (16 * (U * g)) by ring; lia.
    + assert (H1 : g <= (5 * U - 4 * B) * g) by nia.
      destruct Hcase as [(-> & -> & HP105)|(-> & -> & HP105)];
        replace (U * (8 * g)) with (8 * (U * g)) by ring;
        replace (U * (16 * g)) with (16 * (U * g)) by ring; lia.
  - apply Z.leb_gt.
    assert (H1 : g <= (4 * B - 5 * U) * g) by nia.
    assert (Hlin' : 4 * (B * g) - 5 * (U * g) = (4 * B - 5 * U) * g) by ring.
    destruct Hcase as [(-> & -> & HP105)|(-> & -> & HP105)];
      replace (U * (8 * g)) with (8 * (U * g)) by ring;
      replace (U * (16 * g)) with (16 * (U * g)) by ring; lia.
Qed.

Lemma pow2_split (k d : Z) :
  0 <= k -> d <= 50 -> 2 ^ (k + (50 - d)) = 2 ^ k * 2 ^ (50 - d).
Proof. intros. apply Z.pow_add_r; lia. Qed.

(** An int times the double 0.8, compared with an int: for a budget
    below 2^50 the double product sits so close to the exact four fifths
    that no int lies between them. *)
Lemma int_ge_four_fifths (B U : Z) :
  0 <= B < 2 ^ 50 ->
  PyFloat.int_ge U
    (PyFloat.mul (PyFloat.of_int B)
       (S754_finite false 7205759403792794 (-53)))
  = (4 * B <=? 5 * U).
Proof.
  intros [HB0 HB50]. destruct B as [|p|p]; [| | lia].
  { change (PyFloat.int_ge U (S754_zero false) = (0 <=? 5 * U)).
    unfold PyFloat.int_ge.
    destruct (Z.leb_spec 0 U), (Z.leb_spec 0 (5 * U));
      try reflexivity; lia. }
  pose proof (digits2_bounds p) as [Plo Phi].
  set (d := Zpos (digits2_pos p)) in *.
  assert (Hd1 : 1 <= d) by (unfold d; lia).
  assert (Hd50 : d <= 50).
  { destruct (Z.leb_spec d 50) as [|Hgt]; [done |].
    assert (2 ^ 50 <= 2 ^ (d - 1)) by (apply Z.pow_le_mono_r; lia). lia. }
  destruct (of_int_pos p) as (mB & Hof & HmB & HXb); [fold d; lia |].
  fold d in Hof, HmB.
  set (g := 2 ^ (50 - d)) in *.
  assert (Hg : 1 <= g).
  { unfold g. assert (0 < 2 ^ (50 - d)) by (apply Z.pow_pos_nonneg; lia). lia. }
  assert (Hh : 2 ^ (53 - d) = 8 * g).
  { replace (53 - d) with (3 + (50 - d)) by lia.
    by rewrite pow2_split by lia. }
  rewrite Hh in HmB.
  assert (HX : Zpos mB = 8 * (Zpos p * g)) by lia.
  unfold PyFloat.mul. rewrite Hof. cbn [SFmul xorb].
  unfold PyFloat.prec, PyFloat.emax.
  set (P := (mB * 7205759403792794)%positive).
  assert (HP : Zpos P = 8 * (Zpos p * g) * 7205759403792794)
    by (unfold P; rewrite Pos2Z.inj_mul; lia).
  change (2 ^ 52) with 4503599627370496 in HXb.
  change (2 ^ 53) with 9007199254740992 in HXb.
  assert (HP104 : 2 ^ 104 <= Zpos P)
    by (change (2 ^ 104) with 20282409603651670423947251286016; lia).
  assert (HP106 : Zpos P < 2 ^ 106)
    by (change (2 ^ 106) with 81129638414606681695789005144064; lia).
  destruct (Z.ltb_spec (Zpos P) (2 ^ 105)) as [Hlt|Hge].
  - (* 105 bits: the product is divided by 2^52 *)
    assert (HdP : Zpos (digits2_pos P) = 53 + Zpos 52)
      by (apply digits2_unique; split; [exact HP104 | exact Hlt]).
    destruct (round_shift P (d - 53 + -53) 52 HdP) as
      (m & e & m1 & Hround & Hm1 & Hdown & Hme); [lia | lia |].
    rewrite Hround. unfold PyFloat.int_ge.
    change (2 ^ Zpos 52) with 4503599627370496 in *.
    change (2 ^ (Zpos 52 - 1)) with 2251799813685248 in *.
    pose proof (Z.mul_div_le (Zpos P) 4503599627370496 eq_refl) as Q1.
    pose proof (Z.mul_succ_div_gt (Zpos P) 4503599627370496 eq_refl) as Q2.
    pose proof (Z.mul_div_le (Zpos P) 2251799813685248 eq_refl) as R1.
    pose proof (Z.mul_succ_div_gt (Zpos P) 2251799813685248 eq_refl) as R2.
    set (q := Zpos P / 4503599627370496) in *.
    set (q2 := Zpos P / 2251799813685248) in *.
    assert (Hmain : (m1 <=? U * (16 * g)) = (4 * Zpos p <=? 5 * U)).
    { apply (rounded_product_vs_int (Zpos p) U g (Zpos P) (2 ^ 52) (16 * g)
               q q2 m1);
        try (right; split; [reflexivity | split; [reflexivity | exact Hlt]]);
        change (2 ^ 52) with 4503599627370496;
        change (2 ^ 53) with 9007199254740992; try done; lia. }
    rewrite <- Hmain.
    destruct Hme as [[Hm He]|[Hm He]]; subst e.
    + destruct (Z.leb_spec 0 (d - 53 + -53 + Zpos 52)); [lia |].
      replace (- (d - 53 + -53 + Zpos 52)) with (4 + (50 - d)) by lia.
      rewrite pow2_split by lia. fold g. change (2 ^ 4) with 16.
      by rewrite Hm.
    + destruct (Z.leb_spec 0 (d - 53 + -53 + Zpos 52 + 1)); [lia |].
      replace (- (d - 53 + -53 + Zpos 52 + 1)) with (3 + (50 - d)) by lia.
      rewrite pow2_split by lia. fold g. change (2 ^ 3) with 8.
      rewrite Hm. change (cond_Zopp false (Zpos m)) with (Zpos m).
      destruct (Z.leb_spec (Zpos m) (U * (8 * g))),
        (Z.leb_spec (2 * Zpos m) (U * (16 * g)));
        try reflexivity; lia.
  - (* 106 bits: the product is divided by 2^53 *)
    assert (HdP : Zpos (digits2_pos P) = 53 + Zpos 53)
      by (apply digits2_unique; split; [exact Hge | exact HP106]).
    destruct (round_shift P (d - 53 + -53) 53 HdP) as
      (m & e & m1 & Hround & Hm1 & Hdown & Hme); [lia | lia |].
    rewrite Hround. unfold PyFloat.int_ge.
    change (2 ^ Zpos 53) with 9007199254740992 in *.
    change (2 ^ (Zpos 53 - 1)) with 4503599627370496 in *.
    pose proof (Z.mul_div_le (Zpos P) 9007199254740992 eq_refl) as Q1.
    pose proof (Z.mul_succ_div_gt (Zpos P) 9007199254740992 eq_refl) as Q2.
    pose proof (Z.mul_div_le (Zpos P) 4503599627370496 eq_refl) as R1.
    pose proof (Z.mul_succ_div_gt (Zpos P) 4503599627370496 eq_refl) as R2.
    set (q := Zpos P / 9007199254740992) in *.
    set (q2 := Zpos P / 4503599627370496) in *.
    assert (Hmain : (m1 <=? U * (8 * g)) = (4 * Zpos p <=? 5 * U)).
    { apply (rounded_product_vs_int (Zpos p) U g (Zpos P) (2 ^ 53) (8 * g)
               q q2 m1);
        try (left; split; [reflexivity | split; [reflexivity | exact Hge]]);
        change (2 ^ 52) with 4503599627370496;
        change (2 ^ 53) with 9007199254740992; try done; lia. }
    rewrite <- Hmain.
    destruct Hme as [[Hm He]|[Hm He]]; subst e.
    + destruct (Z.leb_spec 0 (d - 53 + -53 + Zpos 53)); [lia |].
      replace (- (d - 53 + -53 + Zpos 53)) with (3 + (50 - d)) by lia.
      rewrite pow2_split by lia. fold g. change (2 ^ 3) with 8.
      by rewrite Hm.
    + destruct (Z.leb_spec 0 (d - 53 + -53 + Zpos 53 + 1)); [lia |].
      replace (- (d - 53 + -53 + Zpos 53 + 1)) with (2 + (50 - d)) by lia.
      rewrite pow2_split by lia. fold g. change (2 ^ 2) with 4.
      rewrite Hm. change (cond_Zopp false (Zpos m)) with (Zpos m).
      destruct (Z.leb_spec (Zpos m) (U * (4 * g))),
        (Z.leb_spec (2 * Zpos m) (U * (8 * g)));
        try reflexivity; lia.
Qed.

(* --------------------------------------------------------------------- *)
(** ** Budget enforcement *)

Lemma check_limits_allowed (s : Gateway.Settings) (B U E : Z) :
  Gateway.allowed (Gateway._check_limits s B U E) = false <-> U + E >= B.
Proof.
  unfold Gateway._check_limits; simpl.
  rewrite negb_false_iff, Z.leb_le. lia.
Qed.

(** A hit on the cached dictionary checks the cached numbers. *)
Lemma check_budget_hit (s : Gateway.Settings) (now : Z) (st : Redis.store)
    (tenants : gmap string Gateway.Tenant) (tenant : string) (E B U : Z) :
  Gateway.BUDGET_CHECK_ENABLED s = true ->
  Redis.get now st (Gateway.budget_key tenant) = Some (Redis.RBudget B U) ->
  Gateway.check_budget s now st tenants tenant E
  = (st, Gateway.Checked (Gateway._check_limits s B U E)).
Proof.
  intros Hen Hget. unfold Gateway.check_budget. by rewrite Hen, Hget.
Qed.

(** A miss reads the tenant row and writes it through for 60 seconds. *)
Lemma check_budget_miss (s : Gateway.Settings) (now : Z) (st : Redis.store)
    (tenants : gmap string Gateway.Tenant) (tenant : string) (E : Z)
    (t : Gateway.Tenant) :
  Gateway.BUDGET_CHECK_ENABLED s = true ->
  Redis.get now st (Gateway.budget_key tenant) = None ->
  tenants !! tenant = Some t ->
  Gateway.check_budget s now st tenants tenant E
  = (Redis.setex now st (Gateway.budget_key tenant) 60
       (Redis.RBudget (Gateway.token_budget_monthly t)
                      (Gateway.token_used_current_month t)),
     Gateway.Checked
       (Gateway._check_limits s (Gateway.token_budget_monthly t)
          (Gateway.token_used_current_month t) E)).
Proof.
  intros Hen Hget Ht. unfold Gateway.check_budget. by rewrite Hen, Hget, Ht.
Qed.

(** The default soft threshold, exactly: for a budget below 2^50 the
    double [budget * (80 / 100)] is reached by an int [U] if and only if
    [5 * U >= 4 * budget]. *)
Lemma soft_threshold_default (s : Gateway.Settings) (B U : Z) :
  Gateway.BUDGET_SOFT_LIMIT_PERCENT s = 80 -> 0 <= B < 2 ^ 50 ->
  PyFloat.int_ge U (Gateway.soft_limit_threshold s B) = (4 * B <=? 5 * U).
Proof.
  intros Hs HB. unfold Gateway.soft_limit_threshold. rewrite Hs.
  change (PyFloat.div (PyFloat.of_int 80) (PyFloat.of_int 100))
    with (S754_finite false 7205759403792794 (-53)).
  by apply int_ge_four_fifths.
Qed.

(** The specification's exact test at 80 %. *)
Lemma soft_limit_warning_default (s : Gateway.Settings) (B U E : Z) :
  Gateway.BUDGET_SOFT_LIMIT_PERCENT s = 80 ->
  Spec.soft_limit_warning s B U E = (4 * B <=? 5 * U) && (U + E <? B).
Proof.
  intros Hs. unfold Spec.soft_limit_warning, Spec.soft_fraction.
  rewrite Hs. f_equal.
  destruct (Z.leb_spec (4 * B) (5 * U)) as [Hle|Hgt].
  - apply Qle_bool_iff. unfold Qle. simpl. lia.
  - destruct (Qle_bool _ _) eqn:Hq; [| reflexivity].
    apply Qle_bool_iff in Hq. unfold Qle in Hq. simpl in Hq. lia.
Qed.

(** C1.  For a tenant with monthly budget [B] and usage [U] and a request
    estimated at [E] tokens, the budget check denies the request (the
    endpoint raises BudgetExceededError, answered with HTTP 402
    budget_exceeded) if and only if [U + E >= B].  With the soft limit
    at its default of 80 % and a budget [0 <= B < 2^50], the check
    reports soft_limit_reached exactly when the specification's test
    does, that is if and only if [U >= 0.8 * B] in exact arithmetic
    ([5 * U >= 4 * B]) and [U + E < B]; the request is then allowed and
    the endpoint goes on with the warning. *)
Theorem C1_budget_denied_iff_hard_limit
    (s : Gateway.Settings) (tenant : string) (B U E : Z) :
  let r := Gateway._check_limits s B U E in
  let denied := Gateway.BudgetExceededError tenant U B in
  (Gateway.allowed r = false <-> U + E >= B)
  /\ (Gateway.budget_step tenant (Gateway.Checked r) = Gateway.Raise denied
      <-> U + E >= B)
  /\ Gateway.status_code (Gateway.exception_response denied) = 402
  /\ Gateway.error (Gateway.exception_response denied) = "budget_exceeded"
  /\ (Gateway.BUDGET_SOFT_LIMIT_PERCENT s = 80 -> 0 <= B < 2 ^ 50 ->
      Gateway.soft_limit_reached r = Spec.soft_limit_warning s B U E
      /\ (Gateway.soft_limit_reached r = true
          <-> 4 * B <= 5 * U /\ U + E < B)
      /\ (4 * B <= 5 * U -> U + E < B ->
          Gateway.allowed r = true
          /\ Gateway.budget_step tenant (Gateway.Checked r)
             = Gateway.Ok true)).
Proof.
  intros r denied.
  pose proof (check_limits_allowed s B U E) as Hiff. fold r in Hiff.
  split; [exact Hiff |].
  split.
  { unfold Gateway.budget_step.
    destruct (Gateway.allowed r) eqn:Ha; simpl.
    + split; [discriminate |]. intros Hge.
      apply Hiff in Hge. discriminate.
    + split; [intros _; by apply Hiff | reflexivity]. }
  split; [reflexivity |]. split; [reflexivity |].
  intros Hs HB.
  assert (Hsoft : Gateway.soft_limit_reached r
                  = (4 * B <=? 5 * U) && (U + E <? B)).
  { subst r. unfold Gateway._check_limits. cbn [Gateway.soft_limit_reached].
    rewrite (soft_threshold_default s B U Hs HB). f_equal.
    destruct (Z.leb_spec B (U + E)), (Z.ltb_spec (U + E) B);
      try reflexivity; lia. }
  split; [by rewrite soft_limit_warning_default |].
  split.
  - rewrite Hsoft, andb_true_iff, Z.leb_le, Z.ltb_lt. reflexivity.
  - intros H45 Hlt.
    assert (Hal : Gateway.allowed r = true).
    { apply not_false_is_true. intros Ha. apply Hiff in Ha. lia. }
    split; [exact Hal |].
    unfold Gateway.budget_step. rewrite Hal, Hsoft.
    replace (4 * B <=? 5 * U) with true by (symmetry; apply Z.leb_le; lia).
    replace (U + E <? B) with true by (symmetry; apply Z.ltb_lt; lia).
    reflexivity.
Qed.

Lemma C1_budget_denied_iff_hard_limit_witness :
  let r := Gateway._check_limits Gateway.default_settings 1000000 800000 10 in
  Gateway.BUDGET_SOFT_LIMIT_PERCENT Gateway.default_settings = 80
  /\ 0 <= 1000000 < 2 ^ 50
  /\ Gateway.soft_limit_reached r = true
  /\ Gateway.allowed r = true
  /\ Gateway.budget_step "t1" (Gateway.Checked r) = Gateway.Ok true.
Proof.
  intros r.
  assert (HB : 0 <= 1000000 < 2 ^ 50) by (split; [discriminate | reflexivity]).
  destruct (C1_budget_denied_iff_hard_limit
              Gateway.default_settings "t1" 1000000 800000 10)
    as (_ & _ & _ & _ & Hsoft).
  destruct (Hsoft eq_refl HB) as (_ & Hiff & Hallow).
  split; [reflexivity |]. split; [exact HB |].
  split; [apply Hiff; split; [discriminate | reflexivity] |].
  apply Hallow; [discriminate | reflexivity].
Defined.

(** At another percentage the double threshold can lie above the exact
    product.  With the soft limit at 55 %, a budget of 100 and 55 tokens
    used, [55 / 100] is the double above 0.55 and [100 * (55 / 100)] is
    55.00000000000001: the specification's test [55 >= 100 * 0.55]
    holds and the request is within the hard limit, but the check does
    not report soft_limit_reached. *)
Lemma C1_soft_limit_counterexample :
  let s := Sample.soft_limit_55 in
  let r := Gateway._check_limits s 100 55 0 in
  Spec.soft_limit_warning s 100 55 0 = true
  /\ Gateway.soft_limit_threshold s 100
     = S754_finite false 7740561859543041 (-47)
  /\ 55 * 2 ^ 47 < 7740561859543041
  /\ Gateway.soft_limit_reached r = false
  /\ Gateway.allowed r = true
  /\ Gateway.budget_step "t1" (Gateway.Checked r) = Gateway.Ok false.
Proof. vm_compute. repeat split; reflexivity. Qed.

(** C10.  [increment_usage tenant n] modifies one key of the fast store,
    [budget:{tenant}:counter], which grows by [n]; every other key, the
    cached dictionary under [budget:{tenant}] among them, is as before.
    A budget check that hits that dictionary within its lifetime
    therefore still computes with the [used_current_month] stored in it:
    usage recorded through [increment_usage] does not enter. *)
Theorem C10_increment_usage_leaves_cached_budget
    (s : Gateway.Settings) (now : Z) (st : Redis.store)
    (tenants : gmap string Gateway.Tenant) (tenant : string) (n : Z) :
  Redis.counter_or_absent now st (Gateway.counter_key tenant) ->
  exists st',
    Gateway.increment_usage now st tenant n = Some st'
    /\ (forall k, k ≠ Gateway.counter_key tenant -> st' !! k = st !! k)
    /\ Redis.get now st' (Gateway.counter_key tenant)
       = Some (Redis.RInt (Redis.count_of now st (Gateway.counter_key tenant) + n))
    /\ st' !! Gateway.budget_key tenant = st !! Gateway.budget_key tenant
    /\ (forall now' E B U,
          Gateway.BUDGET_CHECK_ENABLED s = true ->
          Redis.get now' st (Gateway.budget_key tenant)
          = Some (Redis.RBudget B U) ->
          Gateway.check_budget s now' st' tenants tenant E
          = (st', Gateway.Checked (Gateway._check_limits s B U E))
          /\ Gateway.used_current_month (Gateway._check_limits s B U E) = U).
Proof.
  intros Hc.
  destruct (incrby_counter now st (Gateway.counter_key tenant) n Hc)
    as (st' & ex & Hincr & Hlook & Hfind).
  assert (Hframe : forall k, k ≠ Gateway.counter_key tenant -> st' !! k = st !! k)
    by (apply (incrby_frame _ _ _ _ _ _ Hincr)).
  assert (Hbk : st' !! Gateway.budget_key tenant = st !! Gateway.budget_key tenant)
    by (apply Hframe, budget_key_not_counter_key).
  exists st'. unfold Gateway.increment_usage. rewrite Hincr. simpl.
  repeat split; try done.
  - unfold Redis.get. by rewrite Hfind.
  - apply check_budget_hit; [done |].
    unfold Redis.get, Redis.find in *. by rewrite Hbk.
Qed.

Lemma C10_increment_usage_witness :
  exists st',
    Gateway.increment_usage 10
      (<[Gateway.budget_key "t1" :=
           Redis.Entry (Redis.RBudget 1000 990) (Some 60)]> ∅) "t1" 25
    = Some st'
    /\ (forall now' E B U,
          Gateway.BUDGET_CHECK_ENABLED Gateway.default_settings = true ->
          Redis.get now'
            (<[Gateway.budget_key "t1" :=
                 Redis.Entry (Redis.RBudget 1000 990) (Some 60)]> ∅)
            (Gateway.budget_key "t1")
          = Some (Redis.RBudget B U) ->
          Gateway.check_budget Gateway.default_settings now' st' ∅ "t1" E
          = (st', Gateway.Checked
                    (Gateway._check_limits Gateway.default_settings B U E))
          /\ Gateway.used_current_month
               (Gateway._check_limits Gateway.default_settings B U E) = U).
Proof.
  destruct (C10_increment_usage_leaves_cached_budget Gateway.default_settings
              10 (<[Gateway.budget_key "t1" :=
                      Redis.Entry (Redis.RBudget 1000 990) (Some 60)]> ∅)
              ∅ "t1" 25) as (st' & H1 & _ & _ & _ & H5).
  - vm_compute. exact I.
  - exists st'. split; [exact H1 | exact H5].
Defined.

(* --------------------------------------------------------------------- *)
(** ** Rate limiting *)

(** C4, as stated, fails: the key's deadline is set by every check, not
    only by the first increment.  Two checks of one tenant 30 seconds
    apart in a 60-second window: after the first the key expires at 60,
    after the second at 90. *)
Lemma C4_ttl_reset_counterexample :
  exists st1 r1 st2 r2,
    Gateway.check_rate_limit Gateway.default_settings 0 ∅ "t1" None
    = Some (st1, r1)
    /\ Gateway.check_rate_limit Gateway.default_settings 30 st1 "t1" None
       = Some (st2, r2)
    /\ Redis.ttl_deadline 30 st1 (Gateway.rate_key "t1") = Some 60
    /\ Redis.ttl_deadline 30 st2 (Gateway.rate_key "t1") = Some 90.
Proof.
  eexists _, _, _, _.
  split; [reflexivity |]. split; [reflexivity |].
  split; vm_compute; reflexivity.
Qed.

(** C4, amended.  Each rate-limit check increments the counter
    [ratelimit:{tenant_id}] and sets the key's deadline to the window
    length from the moment of that check (every check does, so later
    requests extend the window); no other key changes; the check is
    allowed if and only if the post-increment count is at most the
    effective limit (the limit passed in, or the configured default when
    it is absent or zero); a denied request raises RateLimitError, which
    is answered with HTTP 429 and Retry-After equal to the window length. *)
Theorem C4_rate_limit_check
    (s : Gateway.Settings) (now : Z) (st : Redis.store) (tenant : string)
    (limit : option Z) :
  Gateway.RATE_LIMIT_ENABLED s = true ->
  Redis.counter_or_absent now st (Gateway.rate_key tenant) ->
  exists st' r,
    Gateway.check_rate_limit s now st tenant limit
    = Some (st', Gateway.RateChecked r)
    /\ Gateway.rc_current r
       = Redis.count_of now st (Gateway.rate_key tenant) + 1
    /\ st' !! Gateway.rate_key tenant
       = Some (Redis.Entry (Redis.RInt (Gateway.rc_current r))
                 (Some (now + Gateway.RATE_LIMIT_WINDOW_SECONDS s)))
    /\ (forall k, k ≠ Gateway.rate_key tenant -> st' !! k = st !! k)
    /\ (Gateway.rc_allowed r = true
        <-> Gateway.rc_current r <= Gateway.effective_limit s limit)
    /\ (Gateway.rc_allowed r = false ->
        let e := Gateway.RateLimitError tenant
                   (Gateway.RATE_LIMIT_WINDOW_SECONDS s) in
        Gateway.rate_step tenant (Gateway.RateChecked r) = Gateway.Raise e
        /\ Gateway.status_code (Gateway.exception_response e) = 429
        /\ Gateway.retry_after (Gateway.exception_response e)
           = Some (Gateway.RATE_LIMIT_WINDOW_SECONDS s)).
Proof.
  intros Hen Hc.
  destruct (incrby_counter now st (Gateway.rate_key tenant) 1 Hc)
    as (st1 & ex & Hincr & Hlook & Hfind).
  unfold Gateway.check_rate_limit, Redis.incr, Redis.expire.
  rewrite Hen, Hincr, Hfind. simpl.
  eexists _, _. split; [reflexivity |]. simpl.
  split; [reflexivity |].
  split; [by rewrite lookup_insert_eq |].
  split.
  - intros k Hk. rewrite lookup_insert_ne by done.
    by apply (incrby_frame _ _ _ _ _ _ Hincr).
  - split; [apply Z.leb_le |].
    intros Hden. unfold Gateway.rate_step. simpl. by rewrite Hden.
Qed.

Lemma C4_rate_limit_check_witness :
  exists st' r,
    Gateway.check_rate_limit Gateway.default_settings 7
      (<[Gateway.rate_key "t1" := Redis.Entry (Redis.RInt 100) (Some 60)]> ∅)
      "t1" None
    = Some (st', Gateway.RateChecked r)
    /\ Gateway.rc_current r = 101
    /\ Gateway.rc_allowed r = false
    /\ st' !! Gateway.rate_key "t1"
       = Some (Redis.Entry (Redis.RInt 101) (Some 67)).
Proof.
  destruct (C4_rate_limit_check Gateway.default_settings 7
              (<[Gateway.rate_key "t1" :=
                   Redis.Entry (Redis.RInt 100) (Some 60)]> ∅) "t1" None)
    as (st' & r & H1 & H2 & H3 & _ & H5 & _).
  - reflexivity.
  - vm_compute. exact I.
  - exists st', r. split; [exact H1 |].
    assert (Hcur : Gateway.rc_current r = 101) by (rewrite H2; vm_compute; reflexivity).
    split; [exact Hcur |]. split.
    + destruct (Gateway.rc_allowed r); [|reflexivity].
      exfalso. destruct H5 as [H5 _]. specialize (H5 eq_refl).
      rewrite Hcur in H5. vm_compute in H5. by apply H5.
    + rewrite H3, Hcur. reflexivity.
Defined.

(* --------------------------------------------------------------------- *)
(** ** Token estimation *)

Lemma binary_round_aux_nonneg (mx ex : Z) (lx : location) :
  PyFloat.nonneg
    (binary_round_aux PyFloat.prec PyFloat.emax false mx ex lx) = true.
Proof.
  unfold binary_round_aux.
  destruct (shr_fexp _ _ mx ex lx) as [mrs' e'].
  destruct (shr_fexp _ _ _ e' loc_Exact) as [mrs'' e''].
  destruct (shr_m mrs''); [reflexivity | | reflexivity].
  destruct (e'' <=? _); reflexivity.
Qed.

Lemma of_int_nonneg (n : Z) : 0 <= n -> PyFloat.nonneg (PyFloat.of_int n) = true.
Proof.
  intros Hn. unfold PyFloat.of_int, binary_normalize.
  destruct n as [|p|p]; [reflexivity | | lia].
  unfold binary_round. destruct (shl_align _ _ _) as [mz ez].
  apply binary_round_aux_nonneg.
Qed.

Lemma mul_nonneg (x y : PyFloat.float) :
  PyFloat.nonneg x = true -> PyFloat.nonneg y = true ->
  PyFloat.nonneg (PyFloat.mul x y) = true.
Proof.
  unfold PyFloat.mul.
  destruct x as [sx|sx| |sx mx ex], y as [sy|sy| |sy my ey]; simpl;
    try reflexivity; try (destruct sx, sy; simpl; congruence).
  intros Hx Hy. apply negb_true_iff in Hx, Hy. subst.
  apply binary_round_aux_nonneg.
Qed.

Lemma add_nonneg (x y : PyFloat.float) :
  PyFloat.nonneg x = true -> PyFloat.nonneg y = true ->
  PyFloat.nonneg (PyFloat.add x y) = true.
Proof.
  unfold PyFloat.add.
  destruct x as [sx|sx| |sx mx ex], y as [sy|sy| |sy my ey]; simpl;
    try reflexivity; try (destruct sx, sy; simpl; congruence).
  intros Hx Hy. apply negb_true_iff in Hx, Hy. subst. simpl.
  unfold binary_round. destruct (shl_align _ _ _) as [mz ez].
  apply binary_round_aux_nonneg.
Qed.

Lemma estimate_sum_nonneg (messages : list Gateway.Message) :
  PyFloat.nonneg (Gateway.estimate_sum messages) = true.
Proof.
  unfold Gateway.estimate_sum.
  assert (Hacc : PyFloat.nonneg (PyFloat.of_int 0) = true) by reflexivity.
  revert Hacc. generalize (PyFloat.of_int 0).
  induction messages as [|m ms IH]; intros acc Hacc; simpl; [done |].
  apply IH, add_nonneg; [done |].
  apply mul_nonneg; [apply of_int_nonneg; lia | reflexivity].
Qed.

(** On a float that is not negative, [int()] is the floor of the
    rational the float denotes. *)
Lemma to_int_floor (x : PyFloat.float) :
  PyFloat.nonneg x = true ->
  match PyFloat.to_Q x with
  | Some q => PyFloat.to_int x = Some (Qfloor q) /\ (0 <= q)%Q
  | None => PyFloat.to_int x = None
  end.
Proof.
  destruct x as [sx|sx| |sx mx ex]; simpl; try done.
  intros Hs. apply negb_true_iff in Hs. subst sx. simpl.
  destruct (0 <=? ex) eqn:He.
  - apply Z.leb_le in He. rewrite Qfloor_Z. split; [done |].
    unfold Qle. simpl. pose proof (Z.pow_nonneg 2 ex). lia.
  - apply Z.leb_gt in He.
    assert (Hpow : 0 < 2 ^ (- ex)) by (apply Z.pow_pos_nonneg; lia).
    split.
    + unfold Qfloor. by rewrite Z2Pos.id.
    + unfold Qle. simpl. lia.
Qed.

(** C5, as stated, fails: a request with the single message "ping" (one
    word) is estimated at 1 token, where the ceiling of 1.3 is 2. *)
Lemma C5_estimate_counterexample :
  let messages := [ {| Gateway.role := "user"; Gateway.content := "ping" |} ] in
  Gateway.estimated_tokens messages = Some 1
  /\ Spec.estimate messages = 2.
Proof. split; vm_compute; reflexivity. Qed.

(** C5, amended.  The pre-call estimate is the double-precision sum over
    the messages of (word count of the content times 1.3), cut to an
    integer by [int()]: the floor of that sum, rounded down and never up.
    It is a non-negative integer, and [int()] fails only when the sum is
    not a finite number. *)
Theorem C5_estimate_is_floor_of_sum (messages : list Gateway.Message) :
  match PyFloat.to_Q (Gateway.estimate_sum messages) with
  | Some q =>
      Gateway.estimated_tokens messages = Some (Qfloor q)
      /\ (0 <= q)%Q /\ 0 <= Qfloor q /\ (inject_Z (Qfloor q) <= q)%Q
  | None => Gateway.estimated_tokens messages = None
  end.
Proof.
  pose proof (to_int_floor _ (estimate_sum_nonneg messages)) as H.
  unfold Gateway.estimated_tokens.
  destruct (PyFloat.to_Q (Gateway.estimate_sum messages)) as [q|]; [|done].
  destruct H as [H1 H2]. repeat split; try done.
  - change 0 with (Qfloor 0). by apply Qfloor_resp_le.
  - apply Qfloor_le.
Qed.

(* --------------------------------------------------------------------- *)
(** ** Provider routing *)

Lemma get_provider_by_name_In (r : Gateway.ProviderRouter) (n : string)
    (p : Gateway.Provider) :
  Gateway._get_provider_by_name r n = Some p -> In p (Gateway.providers r).
Proof.
  unfold Gateway._get_provider_by_name. intros H.
  by apply find_some in H as [H _].
Qed.

(** No provider supporting the model leaves the capable list empty. *)
Lemma no_capable_provider (s : Gateway.Settings) (r : Gateway.ProviderRouter)
    (m : string) :
  (forall p, In p (Gateway.providers r) -> Gateway.supports_model p m = false) ->
  Gateway._get_providers_for_model s r m = [].
Proof.
  intros Hno. unfold Gateway._get_providers_for_model.
  assert (H1 : fold_left
                 (fun capable provider_name =>
                    match Gateway._get_provider_by_name r provider_name with
                    | Some p =>
                        if Gateway.supports_model p m
                        then (capable ++ [p])%list else capable
                    | None => capable
                    end) (Gateway.PROVIDER_PRIORITY s) [] = []).
  { induction (Gateway.PROVIDER_PRIORITY s) as [|n ns IH]; simpl; [done |].
    destruct (Gateway._get_provider_by_name r n) as [p|] eqn:Hp; [|done].
    by rewrite (Hno p (get_provider_by_name_In _ _ _ Hp)). }
  rewrite H1. clear H1.
  induction (Gateway.providers r) as [|p ps IH]; simpl; [done |].
  rewrite (Hno p) by (by left). simpl.
  apply IH. intros q Hq. apply Hno. by right.
Qed.

(** A model no registered provider supports: [route] raises
    ModelNotSupportedError, for which no handler is registered. *)
Lemma route_unsupported_model (s : Gateway.Settings)
    (r : Gateway.ProviderRouter) (req : Gateway.LLMRequest) :
  (forall p, In p (Gateway.providers r) ->
             Gateway.supports_model p (Gateway.model req) = false) ->
  Gateway.route s r req
  = Gateway.Raise (Gateway.ModelNotSupportedError "any" (Gateway.model req))
  /\ Gateway.status_code (Gateway.respond (Gateway.route s r req)) = 500.
Proof.
  intros Hno.
  assert (Hcap : Gateway.route_capable s r req
                 = Gateway.Raise
                     (Gateway.ModelNotSupportedError "any" (Gateway.model req))).
  { unfold Gateway.route_capable. by rewrite (no_capable_provider s r _ Hno). }
  assert (Hr : Gateway.route s r req
               = Gateway.Raise
                   (Gateway.ModelNotSupportedError "any" (Gateway.model req))).
  { unfold Gateway.route.
    destruct (Gateway.preferred_provider req) as [[|c pn]|]; try done.
    destruct (Gateway._get_provider_by_name r (String c pn)) as [p|] eqn:Hp;
      [|done].
    by rewrite (Hno p (get_provider_by_name_In _ _ _ Hp)). }
  by rewrite Hr.
Qed.

(** C6 (code defect).  A completion request for the model "llama-2",
    which neither registered provider supports, passes the rate and
    budget checks, makes [route] raise ModelNotSupportedError, and is
    answered with HTTP 500: the exception has no handler that would map
    it to 400 model_not_supported. *)
Theorem C6_unsupported_model_is_answered_500 :
  let req := Sample.request "llama-2" None in
  Forall (fun p => Gateway.supports_model p (Gateway.model req) = false)
         (Gateway.providers Sample.router)
  /\ Gateway.route Gateway.default_settings Sample.router req
     = Gateway.Raise (Gateway.ModelNotSupportedError "any" "llama-2")
  /\ snd (Gateway.create_completion Gateway.default_settings 0 Sample.router
            Sample.state req)
     = Gateway.Raise (Gateway.ModelNotSupportedError "any" "llama-2")
  /\ Gateway.status_code
       (Gateway.respond
          (snd (Gateway.create_completion Gateway.default_settings 0
                  Sample.router Sample.state req))) = 500.
Proof.
  intros req. split; [repeat constructor |].
  split; [apply route_unsupported_model; intros p [<-|[<-|[]]]; reflexivity |].
  split; vm_compute; reflexivity.
Qed.






(** Without a usable preference (none given, an empty name, a name that
    is not registered, or a provider that does not support the model)
    routing goes over the providers that support the model. *)
Lemma route_without_usable_preference
    (s : Gateway.Settings) (r : Gateway.ProviderRouter)
    (req : Gateway.LLMRequest) :
  match Gateway.preferred_provider req with
  | Some (String c pn) =>
      match Gateway._get_provider_by_name r (String c pn) with
      | Some p => Gateway.supports_model p (Gateway.model req) = false
      | None => True
      end
  | _ => True
  end ->
  Gateway.route s r req = Gateway.route_capable s r req.
Proof.
  unfold Gateway.route.
  destruct (Gateway.preferred_provider req) as [[|c pn]|]; try done.
  destruct (Gateway._get_provider_by_name r (String c pn)) as [p|]; [|done].
  by intros ->.
Qed.

(* --------------------------------------------------------------------- *)
(** ** Run status *)

(** The status endpoint writes the requested status whatever the run's
    current status is. *)
Lemma update_run_status_writes_request (now : Z)
    (runs : gmap string ControlPlane.Run) (tenant run_id : string)
    (upd : ControlPlane.RunStatusUpdate) (run : ControlPlane.Run) :
  ControlPlane.select_run runs run_id tenant = Some run ->
  exists run',
    ControlPlane.update_run_status now runs tenant run_id upd
    = (<[run_id := run']> runs, ControlPlane.Returned (Some run'))
    /\ ControlPlane.run_status run'
       = ControlPlane.value (ControlPlane.status upd).
Proof.
  intros Hsel. unfold ControlPlane.update_run_status. rewrite Hsel.
  destruct (ControlPlane.in_list _ ControlPlane.terminal_statuses);
    [destruct (ControlPlane.completed_at run) |]; eexists; split; reflexivity.
Qed.

(** Cancellation of a run that is neither pending nor running is
    rejected with 400 and changes nothing. *)
Lemma cancel_run_rejects_finished (now : Z)
    (runs : gmap string ControlPlane.Run) (tenant run_id : string)
    (run : ControlPlane.Run) :
  ControlPlane.select_run runs run_id tenant = Some run ->
  ControlPlane.in_list (ControlPlane.run_status run) ["pending"; "running"]
  = false ->
  ControlPlane.cancel_run now runs tenant run_id
  = (runs, ControlPlane.HTTPException 400
             ("Cannot cancel run with status: " ++ ControlPlane.run_status run)).
Proof.
  intros Hsel Hst. unfold ControlPlane.cancel_run. by rewrite Hsel, Hst.
Qed.

(** C2 (code defect).  A run in the terminal status [completed] is asked,
    through the status endpoint, to become [running]: the endpoint
    answers 200 and the stored run is [running] again, with the
    completion time of the finished execution still on it.  (Cancelling
    the same completed run is rejected with 400.) *)
Theorem C2_status_update_reopens_completed_run :
  let run' :=
    {| ControlPlane.tenant_id := "t1";
       ControlPlane.run_status := "running";
       ControlPlane.error_message := None;
       ControlPlane.started_at := Some 1000000;
       ControlPlane.completed_at := Some 6000000;
       ControlPlane.duration_seconds := Some 5;
       ControlPlane.current_step := None |} in
  ControlPlane.in_list (ControlPlane.run_status ControlSample.completed_run)
    ControlPlane.terminal_statuses = true
  /\ ControlPlane.update_run_status 9000000 ControlSample.runs "t1" "r1"
       ControlSample.to_running
     = (<["r1" := run']> ControlSample.runs, ControlPlane.Returned (Some run'))
  /\ ControlPlane.cancel_run 9000000 ControlSample.runs "t1" "r1"
     = (ControlSample.runs,
        ControlPlane.HTTPException 400 "Cannot cancel run with status: completed").
Proof.
  intros run'. split; [reflexivity |]. split.
  - destruct (update_run_status_writes_request 9000000 ControlSample.runs
                "t1" "r1" ControlSample.to_running ControlSample.completed_run)
      as (r2 & Hupd & _); [reflexivity |].
    rewrite Hupd. vm_compute in Hupd. by simplify_eq.
  - by rewrite (cancel_run_rejects_finished 9000000 ControlSample.runs "t1" "r1"
                  ControlSample.completed_run).
Qed.

(* --------------------------------------------------------------------- *)
(** ** Queue messages *)

Lemma missing_fields_nonempty (b : Worker.Body) :
  Worker.run_id b = None \/ Worker.step_id b = None
  \/ Worker.step_name b = None \/ Worker.step_type b = None ->
  exists f fs, Worker.missing_fields b = f :: fs.
Proof.
  unfold Worker.missing_fields, Worker.required_fields, Worker.has_key.
  simpl.
  destruct (Worker.run_id b), (Worker.step_id b), (Worker.step_name b),
    (Worker.step_type b); simpl; intros H; eauto;
    destruct H as [H|[H|[H|H]]]; discriminate.
Qed.

Lemma missing_fields_complete (b : Worker.Body) (rid sid sname stype : string) :
  Worker.run_id b = Some rid -> Worker.step_id b = Some sid ->
  Worker.step_name b = Some sname -> Worker.step_type b = Some stype ->
  Worker.missing_fields b = [].
Proof.
  unfold Worker.missing_fields, Worker.required_fields, Worker.has_key.
  simpl. by intros -> -> -> ->.
Qed.

(** What [_move_to_dlq] does to a message whose body is a JSON object. *)
Lemma move_to_dlq_object (s : Worker.Settings) (w : Worker.World)
    (msg : Worker.SQSMessage) (b : Worker.Body) (reason : string) :
  Worker.MessageBody msg = Worker.Object b ->
  let w' := Worker._move_to_dlq s w msg reason in
  Worker.db w' = Worker.db w
  /\ Worker.queue w'
     = filter (fun m => Worker.ReceiptHandle m ≠ Worker.ReceiptHandle msg)
         (Worker.queue w)
  /\ (Worker.SQS_DLQ_URL s ≠ "" ->
      Worker.dlq w'
      = (Worker.dlq w ++
         [{| Worker.dlq_body := b;
             Worker.dlq_reason := reason;
             Worker.original_message_id := Worker.MessageId msg |}])%list)
  /\ (Worker.SQS_DLQ_URL s = "" -> Worker.dlq w' = Worker.dlq w).
Proof.
  intros Hb. unfold Worker._move_to_dlq. rewrite Hb.
  destruct (String.eqb_spec (Worker.SQS_DLQ_URL s) ""); simpl;
    repeat split; try done.
Qed.

(** C7, as stated, fails: a message that lacks only [attempt] is not
    sent to the DLQ.  Its step is executed as attempt 1: against a
    gateway that cannot be reached the step is marked retrying, with the
    client's error recorded, and the message stays in the queue. *)
Lemma C7_missing_attempt_counterexample :
  let b := WorkerSample.body "llm" None in
  let w := WorkerSample.world WorkerSample.queued_step b in
  let w' :=
    Worker._process_message WorkerSample.with_dlq WorkerSample.env_down
      0 2000000 w (WorkerSample.message b) in
  Worker.attempt b = None
  /\ Worker.dlq w' = []
  /\ Worker.queue w' = Worker.queue w
  /\ Worker.status <$> (Worker.steps (Worker.db w') !! "s1") = Some "retrying"
  /\ Worker.error_message <$> (Worker.steps (Worker.db w') !! "s1")
     = Some (Some "Request error: All connection attempts failed").
Proof. repeat split; vm_compute; reflexivity. Qed.

Lemma missing_fields_first_attempt (b : Worker.Body) :
  Worker.missing_fields
    {| Worker.run_id := Worker.run_id b;
       Worker.step_id := Worker.step_id b;
       Worker.step_name := Worker.step_name b;
       Worker.step_type := Worker.step_type b;
       Worker.step_config := Worker.step_config b;
       Worker.attempt := Some 1 |}
  = Worker.missing_fields b.
Proof. reflexivity. Qed.

(** Dead-lettering the same message under two bodies gives the same
    database, the same queue and the same reasons. *)
Lemma move_to_dlq_any_body (s : Worker.Settings) (w : Worker.World)
    (m1 m2 : Worker.SQSMessage) (b1 b2 : Worker.Body) (reason : string) :
  Worker.MessageBody m1 = Worker.Object b1 ->
  Worker.MessageBody m2 = Worker.Object b2 ->
  Worker.ReceiptHandle m1 = Worker.ReceiptHandle m2 ->
  Worker.db (Worker._move_to_dlq s w m1 reason)
  = Worker.db (Worker._move_to_dlq s w m2 reason)
  /\ Worker.queue (Worker._move_to_dlq s w m1 reason)
     = Worker.queue (Worker._move_to_dlq s w m2 reason)
  /\ map Worker.dlq_reason (Worker.dlq (Worker._move_to_dlq s w m1 reason))
     = map Worker.dlq_reason (Worker.dlq (Worker._move_to_dlq s w m2 reason)).
Proof.
  intros H1 H2 Hrh. unfold Worker._move_to_dlq, Worker._delete_message.
  rewrite H1, H2, Hrh.
  destruct (String.eqb _ _); simpl; [done |].
  by rewrite !map_app.
Qed.

(** C7, amended.  A queue message whose body is a JSON object missing
    any of run_id, step_id, step_name, step_type is not executed (the
    database is untouched and the executor's collaborators play no part):
    it is handed to [_move_to_dlq] with the reason "Missing required
    fields", which deletes it from the main queue and, when a DLQ is
    configured, sends it there with that reason and its message id.
    [attempt] is not required: a message that has the four keys but no
    [attempt] is processed as the same message with [attempt] 1 is: the
    same database, the same queue, the same dead-letter reasons. *)
Theorem C7_missing_required_field
    (s : Worker.Settings) (env : Worker.Env) (t0 t1 : Z) (w : Worker.World)
    (msg : Worker.SQSMessage) (b : Worker.Body) :
  Worker.MessageBody msg = Worker.Object b ->
  let w' := Worker._process_message s env t0 t1 w msg in
  (Worker.run_id b = None \/ Worker.step_id b = None
   \/ Worker.step_name b = None \/ Worker.step_type b = None ->
   w' = Worker._move_to_dlq s w msg "Missing required fields"
   /\ Worker.db w' = Worker.db w
   /\ Worker.queue w'
      = filter (fun m => Worker.ReceiptHandle m ≠ Worker.ReceiptHandle msg)
          (Worker.queue w)
   /\ (Worker.SQS_DLQ_URL s ≠ "" ->
       Worker.dlq w'
       = (Worker.dlq w ++
          [{| Worker.dlq_body := b;
              Worker.dlq_reason := "Missing required fields";
              Worker.original_message_id := Worker.MessageId msg |}])%list)
   /\ (Worker.SQS_DLQ_URL s = "" -> Worker.dlq w' = Worker.dlq w))
  /\ (Worker.attempt b = None ->
      let w1 :=
        Worker._process_message s env t0 t1 w
          (Outcome.as_first_attempt msg b) in
      Worker.db w' = Worker.db w1
      /\ Worker.queue w' = Worker.queue w1
      /\ map Worker.dlq_reason (Worker.dlq w')
         = map Worker.dlq_reason (Worker.dlq w1)).
Proof.
  intros Hb w'. split.
  - intros Hmiss.
    assert (Hw : w' = Worker._move_to_dlq s w msg "Missing required fields").
    { subst w'. unfold Worker._process_message. rewrite Hb.
      by destruct (missing_fields_nonempty b Hmiss) as (f & fs & ->). }
    split; [exact Hw |]. rewrite Hw.
    by apply move_to_dlq_object.
  - intros Hatt w1. subst w' w1. unfold Worker._process_message.
    rewrite Hb. cbn [Outcome.as_first_attempt Worker.MessageBody].
    rewrite missing_fields_first_attempt.
    cbn [Worker.run_id Worker.step_id Worker.step_name Worker.step_type
         Worker.step_config Worker.attempt].
    rewrite Hatt. cbn [default].
    destruct (Worker.missing_fields b) as [|f fs].
    2: { by apply (move_to_dlq_any_body s w msg
                     (Outcome.as_first_attempt msg b) b _ _ Hb eq_refl). }
    destruct (Worker.run_id b) as [rid|], (Worker.step_id b) as [sid|],
      (Worker.step_name b) as [sname|], (Worker.step_type b) as [stype|];
      try done.
    destruct (Worker.execute _ _ _ _ _ _ _ _ _ _ _) as [db' [[res|e rt]|]];
      try done.
    destruct (rt && _); [done |].
    by apply (move_to_dlq_any_body s _ msg
                (Outcome.as_first_attempt msg b) b _ _ Hb eq_refl).
Qed.

Lemma C7_missing_required_field_witness :
  let b :=
    {| Worker.run_id := Some "r1"; Worker.step_id := None;
       Worker.step_name := Some "search_web"; Worker.step_type := Some "tool";
       Worker.step_config := None; Worker.attempt := Some 1 |} in
  let w := WorkerSample.world WorkerSample.queued_step b in
  let w' :=
    Worker._process_message WorkerSample.with_dlq WorkerSample.env_down
      0 2000000 w (WorkerSample.message b) in
  Worker.db w' = Worker.db w
  /\ Worker.queue w' = []
  /\ Worker.dlq w'
     = [{| Worker.dlq_body := b;
           Worker.dlq_reason := "Missing required fields";
           Worker.original_message_id := "m-1" |}].
Proof.
  intros b w w'.
  destruct (C7_missing_required_field WorkerSample.with_dlq
              WorkerSample.env_down 0 2000000 w (WorkerSample.message b) b)
    as [Hmissing _].
  - reflexivity.
  - destruct Hmissing as (_ & Hdb & Hq & Hdlq & _).
    + right. left. reflexivity.
    + split; [exact Hdb |]. split.
      * subst w'. rewrite Hq. vm_compute. reflexivity.
      * subst w'. rewrite Hdlq; [reflexivity | discriminate].
Defined.

(* --------------------------------------------------------------------- *)
(** ** Step execution: failure *)

Lemma retryable_error_nonempty (e : string) :
  Worker._is_retryable_error e = true -> e ≠ "".
Proof. intros H ->. vm_compute in H. discriminate. Qed.

(** What the [except] block leaves behind when it returns. *)
Lemma on_failure_result (s : Worker.Settings) (t0 t1 : Z)
    (db0 dbx db' : Worker.DB) (sid : string) (attempt : Z) (e e' : string)
    (rt : bool) :
  Worker.on_failure s t0 t1 db0 dbx sid attempt e
  = (db', Some (Worker.Failure e' rt)) ->
  e' = e /\ rt = Worker._is_retryable_error e
  /\ exists step',
       Worker.steps db' !! sid = Some step'
       /\ Worker.status step'
          = (if rt && (attempt <? Worker.STEP_MAX_RETRIES s)
             then "retrying" else "failed")
       /\ Worker.completed_at step' = Some t1
       /\ (e ≠ "" -> Worker.error_message step' = Some e).
Proof.
  unfold Worker.on_failure, Worker._update_step_status.
  destruct (Worker.steps dbx !! sid) as [st|]; [|discriminate].
  intros [= <- <- <-]. repeat split.
  eexists. simpl. rewrite lookup_insert_eq. repeat split.
  simpl. intros Hne. destruct e; [done | reflexivity].
Qed.

(** The [except] block raises itself exactly when the step has no row. *)
Lemma on_failure_none (s : Worker.Settings) (t0 t1 : Z)
    (db0 dbx : Worker.DB) (sid : string) (attempt : Z) (e : string) :
  Worker.steps dbx !! sid = None ->
  Worker.on_failure s t0 t1 db0 dbx sid attempt e = (db0, None).
Proof.
  intros H. unfold Worker.on_failure, Worker._update_step_status.
  by rewrite H.
Qed.

Lemma on_failure_some (s : Worker.Settings) (t0 t1 : Z)
    (db0 dbx : Worker.DB) (sid : string) (attempt : Z) (e : string) :
  is_Some (Worker.steps dbx !! sid) ->
  exists db',
    Worker.on_failure s t0 t1 db0 dbx sid attempt e
    = (db', Some (Worker.Failure e (Worker._is_retryable_error e))).
Proof.
  intros [st H]. unfold Worker.on_failure, Worker._update_step_status.
  rewrite H. by eexists.
Qed.

Lemma update_step_status_keeps_row (db db' : Worker.DB) (sid st : string)
    (a b c : option Z) (o : option Worker.json) (e : option string)
    (t : Z) (q : Worker.number) :
  Worker._update_step_status db sid st a b c o e t q = inr db' ->
  is_Some (Worker.steps db' !! sid).
Proof.
  unfold Worker._update_step_status.
  destruct (Worker.steps db !! sid); [| discriminate].
  intros [= <-]. simpl. rewrite lookup_insert_eq. by eexists.
Qed.

Lemma update_run_usage_steps (db : Worker.DB) (rid : string) (t : Z)
    (q : Worker.number) :
  Worker.steps (Worker._update_run_usage db rid t q).1 = Worker.steps db.
Proof.
  unfold Worker._update_run_usage.
  destruct (Worker.runs db !! rid); [| done]. by destruct q.
Qed.

Lemma execute_failure_result (s : Worker.Settings) (env : Worker.Env)
    (t0 t1 : Z) (db0 db' : Worker.DB) (rid sid sname stype : string)
    (cfg : list (string * Worker.json)) (attempt : Z) (e : string) (rt : bool) :
  Worker.execute s env t0 t1 db0 rid sid sname stype cfg attempt
  = (db', Some (Worker.Failure e rt)) ->
  rt = Worker._is_retryable_error e
  /\ exists step',
       Worker.steps db' !! sid = Some step'
       /\ Worker.status step'
          = (if rt && (attempt <? Worker.STEP_MAX_RETRIES s)
             then "retrying" else "failed")
       /\ Worker.completed_at step' = Some t1
       /\ (e ≠ "" -> Worker.error_message step' = Some e).
Proof.
  unfold Worker.execute. intros H.
  repeat match type of H with
         | match ?x with _ => _ end = _ => destruct x
         end;
    try discriminate;
    apply on_failure_result in H as (-> & Hrt & Hst); by split.
Qed.

(** [execute] lets an exception out exactly when the step has no row;
    nothing is committed then. *)
Lemma execute_without_row (s : Worker.Settings) (env : Worker.Env)
    (t0 t1 : Z) (db0 : Worker.DB) (rid sid sname stype : string)
    (cfg : list (string * Worker.json)) (attempt : Z) :
  Worker.steps db0 !! sid = None ->
  Worker.execute s env t0 t1 db0 rid sid sname stype cfg attempt = (db0, None).
Proof.
  intros H. unfold Worker.execute.
  unfold Worker._update_step_status at 1. rewrite H.
  by apply on_failure_none.
Qed.

Lemma execute_with_row (s : Worker.Settings) (env : Worker.Env)
    (t0 t1 : Z) (db0 : Worker.DB) (rid sid sname stype : string)
    (cfg : list (string * Worker.json)) (attempt : Z) :
  is_Some (Worker.steps db0 !! sid) ->
  exists db' r,
    Worker.execute s env t0 t1 db0 rid sid sname stype cfg attempt
    = (db', Some r).
Proof.
  intros [st0 Hst]. unfold Worker.execute.
  destruct (Worker._update_step_status db0 _ _ _ _ _ _ _ _ _)
    as [e1|db1] eqn:H1.
  { unfold Worker._update_step_status in H1. by rewrite Hst in H1. }
  apply update_step_status_keeps_row in H1.
  destruct (Worker.run_step env db1 rid sid stype cfg) as [e2|res].
  { destruct (on_failure_some s t0 t1 db0 db1 sid attempt e2 H1) as [d ->].
    by eexists _, _. }
  destruct (Worker._update_step_status db1 _ _ _ _ _ _ _ _ _)
    as [e3|db2] eqn:H2.
  { destruct (on_failure_some s t0 t1 db0 db1 sid attempt e3 H1) as [d ->].
    by eexists _, _. }
  apply update_step_status_keeps_row in H2.
  pose proof (update_run_usage_steps db2 rid (Worker.res_tokens_used res)
                (Worker.res_cost_usd res)) as H3.
  destruct (Worker._update_run_usage db2 _ _ _) as [db3 [e4|[]]];
    simpl in H3; [| by eexists _, _].
  rewrite <- H3 in H2.
  destruct (on_failure_some s t0 t1 db0 db3 sid attempt e4 H2) as [d ->].
  by eexists _, _.
Qed.

(** [run_step] reads the runs table only. *)
Lemma run_step_runs (env : Worker.Env) (d d' : Worker.DB)
    (rid sid stype : string) (cfg : list (string * Worker.json)) :
  Worker.runs d = Worker.runs d' ->
  Worker.run_step env d rid sid stype cfg
  = Worker.run_step env d' rid sid stype cfg.
Proof.
  intros Hr. unfold Worker.run_step, Worker._execute_llm_step. by rewrite Hr.
Qed.

(** A step body that raises, on an existing step row, makes [execute]
    return the failure dictionary with the exception's message. *)
Lemma execute_fails_when_step_raises (s : Worker.Settings) (env : Worker.Env)
    (t0 t1 : Z) (db0 : Worker.DB) (rid sid sname stype : string)
    (cfg : list (string * Worker.json)) (attempt : Z) (st0 : Worker.Step)
    (e : string) :
  Worker.steps db0 !! sid = Some st0 ->
  Worker.run_step env db0 rid sid stype cfg = inl e ->
  exists db',
    Worker.execute s env t0 t1 db0 rid sid sname stype cfg attempt
    = (db', Some (Worker.Failure e (Worker._is_retryable_error e))).
Proof.
  intros Hst Hrun. unfold Worker.execute.
  unfold Worker._update_step_status at 1. rewrite Hst.
  rewrite (run_step_runs env _ db0) by reflexivity. rewrite Hrun.
  unfold Worker.on_failure, Worker._update_step_status. simpl.
  rewrite lookup_insert_eq. eexists. reflexivity.
Qed.

(** C8, as stated, fails: with the settings as [config.py] gives them no
    DLQ is configured, and the message of a step that failed for good
    (here on its third attempt) is deleted from the queue without being
    sent anywhere. *)
Lemma C8_no_dlq_counterexample :
  let b := WorkerSample.body "llm" (Some 3) in
  let w := WorkerSample.world WorkerSample.queued_step b in
  let w' :=
    Worker._process_message Worker.default_settings WorkerSample.env_down
      0 2000000 w (WorkerSample.message b) in
  Worker.status <$> (Worker.steps (Worker.db w') !! "s1") = Some "failed"
  /\ Worker.queue w' = []
  /\ Worker.dlq w' = [].
Proof. repeat split; vm_compute; reflexivity. Qed.

(** C8, amended.  For a message with the required fields whose step
    execution does not succeed, either the step has no row, and then
    nothing is recorded and the message stays in the queue; or the
    executor returns the failure with its error [e], classified by its
    text, and the Step row records [e]: if [e] is retryable and the
    message's attempt is strictly below STEP_MAX_RETRIES the row is
    [retrying] and the message stays in the queue, undeleted; otherwise
    the row is [failed] and the message is handed to [_move_to_dlq],
    which deletes it from the main queue and sends it to the DLQ with
    [e] as its reason when a DLQ is configured, and only deletes it when
    none is. *)
Theorem C8_failed_step_retries_or_dead_letters
    (s : Worker.Settings) (env : Worker.Env) (t0 t1 : Z) (w : Worker.World)
    (msg : Worker.SQSMessage) (b : Worker.Body)
    (rid sid sname stype : string) (db' : Worker.DB)
    (out : option Worker.ExecResult) :
  Worker.MessageBody msg = Worker.Object b ->
  Worker.run_id b = Some rid -> Worker.step_id b = Some sid ->
  Worker.step_name b = Some sname -> Worker.step_type b = Some stype ->
  Worker.execute s env t0 t1 (Worker.db w) rid sid sname stype
    (default [] (Worker.step_config b)) (default 1 (Worker.attempt b))
  = (db', out) ->
  (forall r, out ≠ Some (Worker.Succeeded r)) ->
  let w' := Worker._process_message s env t0 t1 w msg in
  (out = None /\ Worker.steps (Worker.db w) !! sid = None /\ w' = w)
  \/ exists e step',
       out = Some (Worker.Failure e (Worker._is_retryable_error e))
       /\ Worker.db w' = db'
       /\ Worker.steps db' !! sid = Some step'
       /\ (e ≠ "" -> Worker.error_message step' = Some e)
       /\ if Worker._is_retryable_error e
             && (default 1 (Worker.attempt b) <? Worker.STEP_MAX_RETRIES s)
          then Worker.status step' = "retrying"
               /\ Worker.error_message step' = Some e
               /\ Worker.queue w' = Worker.queue w
               /\ Worker.dlq w' = Worker.dlq w
          else Worker.status step' = "failed"
               /\ Worker.queue w'
                  = filter (fun m => Worker.ReceiptHandle m
                                     ≠ Worker.ReceiptHandle msg)
                      (Worker.queue w)
               /\ (Worker.SQS_DLQ_URL s ≠ "" ->
                   Worker.dlq w'
                   = (Worker.dlq w ++
                      [{| Worker.dlq_body := b;
                          Worker.dlq_reason := e;
                          Worker.original_message_id :=
                            Worker.MessageId msg |}])%list)
               /\ (Worker.SQS_DLQ_URL s = "" -> Worker.dlq w' = Worker.dlq w).
Proof.
  intros Hb Hrid Hsid Hname Htype Hexec Hfail w'.
  assert (Hw : w' = match out with
                    | None => w
                    | Some (Worker.Succeeded _) =>
                        Worker._delete_message (Worker.with_db w db')
                          (Worker.ReceiptHandle msg)
                    | Some (Worker.Failure e rt) =>
                        if rt && (default 1 (Worker.attempt b)
                                  <? Worker.STEP_MAX_RETRIES s)
                        then Worker.with_db w db'
                        else Worker._move_to_dlq s (Worker.with_db w db') msg e
                    end).
  { subst w'. unfold Worker._process_message.
    rewrite Hb, (missing_fields_complete b rid sid sname stype) by done.
    rewrite Hrid, Hsid, Hname, Htype, Hexec. by destruct out as [[]|]. }
  destruct out as [[r|e rt]|].
  - by destruct (Hfail r).
  - right.
    destruct (execute_failure_result _ _ _ _ _ _ _ _ _ _ _ _ _ _ Hexec)
      as (Hrt & step' & Hlook & Hstatus & _ & Herr).
    subst rt. exists e, step'. split; [reflexivity |].
    destruct (Worker._is_retryable_error e
              && (default 1 (Worker.attempt b) <? Worker.STEP_MAX_RETRIES s))
      eqn:Hretry; rewrite Hw.
    + split; [reflexivity |]. split; [exact Hlook |].
      split; [exact Herr |].
      apply andb_true_iff in Hretry as [Hrt1 _].
      apply retryable_error_nonempty in Hrt1.
      repeat split; try done. by apply Herr.
    + destruct (move_to_dlq_object s (Worker.with_db w db') msg b e Hb)
        as (Hdb & Hq & Hd & Hnd).
      split; [exact Hdb |]. split; [exact Hlook |].
      split; [exact Herr |]. by repeat split.
  - left. split; [reflexivity |]. split; [| exact Hw].
    destruct (Worker.steps (Worker.db w) !! sid) as [st0|] eqn:Hrow; [| done].
    destruct (execute_with_row s env t0 t1 (Worker.db w) rid sid sname stype
                (default [] (Worker.step_config b))
                (default 1 (Worker.attempt b))) as (d & r & Hsome).
    + by rewrite Hrow.
    + rewrite Hsome in Hexec. discriminate.
Qed.

Lemma C8_failed_step_witness :
  let b := WorkerSample.body "llm" (Some 3) in
  let w := WorkerSample.world WorkerSample.queued_step b in
  let w' :=
    Worker._process_message WorkerSample.with_dlq WorkerSample.env_down
      0 2000000 w (WorkerSample.message b) in
  Worker.status <$> (Worker.steps (Worker.db w') !! "s1") = Some "failed"
  /\ Worker.queue w' = []
  /\ Worker.dlq w'
     = [{| Worker.dlq_body := b;
           Worker.dlq_reason := "Request error: All connection attempts failed";
           Worker.original_message_id := "m-1" |}].
Proof.
  intros b w w'.
  destruct (C8_failed_step_retries_or_dead_letters WorkerSample.with_dlq
              WorkerSample.env_down 0 2000000 w (WorkerSample.message b) b
              "r1" "s1" "search_web" "llm"
              (Worker.execute WorkerSample.with_dlq WorkerSample.env_down
                 0 2000000 (Worker.db w) "r1" "s1" "search_web" "llm" [] 3).1
              (Worker.execute WorkerSample.with_dlq WorkerSample.env_down
                 0 2000000 (Worker.db w) "r1" "s1" "search_web" "llm" [] 3).2
              eq_refl eq_refl eq_refl eq_refl eq_refl)
    as [(Hnone & _) | (e & step' & Hout & Hdb & Hlook & _ & Hcase)].
  - vm_compute. reflexivity.
  - intros r. vm_compute. discriminate.
  - vm_compute in Hnone. discriminate.
  - assert (He : e = "Request error: All connection attempts failed").
    { vm_compute in Hout. by injection Hout as <-. }
    subst e.
    change (Worker._is_retryable_error
              "Request error: All connection attempts failed"
            && (default 1 (Worker.attempt b)
                <? Worker.STEP_MAX_RETRIES WorkerSample.with_dlq))
      with false in Hcase.
    destruct Hcase as (Hst & Hq & Hd & _).
    fold w' in Hdb, Hq, Hd.
    split; [rewrite Hdb, Hlook; simpl; by rewrite Hst |].
    split; [rewrite Hq; vm_compute; reflexivity |].
    rewrite Hd; [reflexivity | discriminate].
Defined.

(* --------------------------------------------------------------------- *)
(** ** Step execution: a step body that succeeds *)

(** When the step body returns and its cost is a float, the usage
    update raises TypeError after adding the tokens: the [except] block
    marks the row failed, and its commit writes the success update's
    values and the run's new token count with it. *)
Lemma execute_float_cost (s : Worker.Settings) (env : Worker.Env) (t0 t1 : Z)
    (db0 : Worker.DB) (rid sid sname stype : string)
    (cfg : list (string * Worker.json)) (attempt : Z)
    (st0 : Worker.Step) (run0 : Worker.Run) (res : Worker.StepResult) (x : Q) :
  Worker.steps db0 !! sid = Some st0 ->
  Worker.runs db0 !! rid = Some run0 ->
  Worker.run_step env db0 rid sid stype cfg = inr res ->
  Worker.res_cost_usd res = Worker.NFloat x ->
  exists db',
    Worker.execute s env t0 t1 db0 rid sid sname stype cfg attempt
    = (db', Some (Worker.Failure Worker.decimal_plus_float false))
    /\ Worker.steps db' !! sid
       = Some (Outcome.failed_after_success t0 t1 st0 res)
    /\ Worker.runs db' !! rid
       = Some (Outcome.tokens_charged run0 (Worker.res_tokens_used res))
    /\ (forall sid', sid' ≠ sid ->
          Worker.steps db' !! sid' = Worker.steps db0 !! sid')
    /\ (forall rid', rid' ≠ rid ->
          Worker.runs db' !! rid' = Worker.runs db0 !! rid').
Proof.
  intros Hst Hrun Hres Hcost. destruct res as [o tk c]. simpl in Hcost.
  subst c. unfold Worker.execute.
  unfold Worker._update_step_status at 1. rewrite Hst.
  rewrite (run_step_runs env _ db0) by reflexivity. rewrite Hres.
  unfold Worker._update_step_status at 1. simpl. rewrite lookup_insert_eq.
  unfold Worker._update_run_usage. simpl. rewrite Hrun.
  unfold Worker.on_failure, Worker._update_step_status. simpl.
  rewrite lookup_insert_eq.
  eexists. split; [reflexivity |]. simpl.
  rewrite !lookup_insert_eq.
  split; [reflexivity |]. split; [reflexivity |].
  split; intros k Hk; by rewrite ?lookup_insert_ne.
Qed.

(** With a whole-number cost the update goes through and the execution
    succeeds. *)
Lemma execute_success (s : Worker.Settings) (env : Worker.Env) (t0 t1 : Z)
    (db0 : Worker.DB) (rid sid sname stype : string)
    (cfg : list (string * Worker.json)) (attempt : Z)
    (st0 : Worker.Step) (run0 : Worker.Run) (res : Worker.StepResult) (n : Z) :
  Worker.steps db0 !! sid = Some st0 ->
  Worker.runs db0 !! rid = Some run0 ->
  Worker.run_step env db0 rid sid stype cfg = inr res ->
  Worker.res_cost_usd res = Worker.NInt n ->
  exists db',
    Worker.execute s env t0 t1 db0 rid sid sname stype cfg attempt
    = (db', Some (Worker.Succeeded res))
    /\ Worker.steps db' !! sid = Some (Outcome.committed_step t0 t1 st0 res)
    /\ Worker.runs db' !! rid
       = Some (Outcome.charged_run run0 (Worker.res_tokens_used res) n).
Proof.
  intros Hst Hrun Hres Hcost. destruct res as [o tk c]. simpl in Hcost.
  subst c. unfold Worker.execute.
  unfold Worker._update_step_status at 1. rewrite Hst.
  rewrite (run_step_runs env _ db0) by reflexivity. rewrite Hres.
  unfold Worker._update_step_status. simpl. rewrite lookup_insert_eq.
  unfold Worker._update_run_usage. simpl. rewrite Hrun.
  eexists. split; [reflexivity |]. simpl.
  rewrite !lookup_insert_eq. split; reflexivity.
Qed.

(** The message of a step whose body succeeds with a float cost: the
    row is failed, the tokens are charged and the cost is not, and the
    message is dead-lettered with the TypeError as its reason. *)
Lemma successful_body_is_recorded_failed
    (s : Worker.Settings) (env : Worker.Env) (t0 t1 : Z) (w : Worker.World)
    (msg : Worker.SQSMessage) (b : Worker.Body)
    (rid sid sname stype : string) (st0 : Worker.Step) (run0 : Worker.Run)
    (res : Worker.StepResult) (x : Q) :
  Worker.MessageBody msg = Worker.Object b ->
  Worker.run_id b = Some rid -> Worker.step_id b = Some sid ->
  Worker.step_name b = Some sname -> Worker.step_type b = Some stype ->
  Worker.steps (Worker.db w) !! sid = Some st0 ->
  Worker.runs (Worker.db w) !! rid = Some run0 ->
  Worker.run_step env (Worker.db w) rid sid stype
    (default [] (Worker.step_config b)) = inr res ->
  Worker.res_cost_usd res = Worker.NFloat x ->
  let w' := Worker._process_message s env t0 t1 w msg in
  Worker.steps (Worker.db w') !! sid
  = Some (Outcome.failed_after_success t0 t1 st0 res)
  /\ Worker.runs (Worker.db w') !! rid
     = Some (Outcome.tokens_charged run0 (Worker.res_tokens_used res))
  /\ Worker.queue w'
     = filter (fun m => Worker.ReceiptHandle m ≠ Worker.ReceiptHandle msg)
         (Worker.queue w)
  /\ (Worker.SQS_DLQ_URL s ≠ "" ->
      Worker.dlq w'
      = (Worker.dlq w ++
         [{| Worker.dlq_body := b;
             Worker.dlq_reason := Worker.decimal_plus_float;
             Worker.original_message_id := Worker.MessageId msg |}])%list).
Proof.
  intros Hb Hrid Hsid Hname Htype Hst Hrun Hres Hcost w'.
  destruct (execute_float_cost s env t0 t1 (Worker.db w) rid sid sname stype
              (default [] (Worker.step_config b))
              (default 1 (Worker.attempt b)) st0 run0 res x Hst Hrun Hres Hcost)
    as (db' & Hexec & Hstep & Hcharged & _).
  subst w'. unfold Worker._process_message.
  rewrite Hb, (missing_fields_complete b rid sid sname stype) by done.
  rewrite Hrid, Hsid, Hname, Htype, Hexec. cbn [andb].
  destruct (move_to_dlq_object s (Worker.with_db w db') msg b
              Worker.decimal_plus_float Hb) as (Hdb & Hq & Hd & _).
  rewrite Hdb. by repeat split.
Qed.

(** C9: the code does not do what the claim says.  An LLM step whose
    gateway call succeeds ("pong", 4 tokens, a cost of 0.0000035) is not
    committed as a success: adding the float cost to the run's Decimal
    aggregate raises TypeError, so the Step row ends [failed] with that
    error as its message (the outcome's output, tokens and cost still
    written on it), the run has the 4 tokens added but not the cost, and
    the message is dead-lettered instead of being deleted after a
    success. *)
Theorem C9_successful_step_is_recorded_failed :
  let b := WorkerSample.body "llm" (Some 1) in
  let w := WorkerSample.world WorkerSample.queued_step b in
  let w' :=
    Worker._process_message WorkerSample.with_dlq WorkerSample.env
      5000000 7000000 w (WorkerSample.message b) in
  Worker.run_step WorkerSample.env (Worker.db w) "r1" "s1" "llm" []
  = inr {| Worker.output := Worker.JStr "pong";
           Worker.res_tokens_used := 4;
           Worker.res_cost_usd := Worker.NFloat (35 # 10000000) |}
  /\ Worker.steps (Worker.db w') !! "s1"
     = Some {| Worker.status := "failed";
               Worker.started_at := Some 5000000;
               Worker.completed_at := Some 7000000;
               Worker.duration_seconds := Some 2;
               Worker.output_data := Some (Worker.JStr "pong");
               Worker.error_message := Some Worker.decimal_plus_float;
               Worker.tokens_used := 4;
               Worker.cost_usd := 35 # 10000000 |}
  /\ Worker.runs (Worker.db w') !! "r1"
     = Some {| Worker.run_tenant_id := "t1";
               Worker.run_tokens_used := 4;
               Worker.estimated_cost_usd := 0 |}
  /\ Worker.queue w' = []
  /\ Worker.dlq w'
     = [{| Worker.dlq_body := b;
           Worker.dlq_reason := Worker.decimal_plus_float;
           Worker.original_message_id := "m-1" |}].
Proof.
  intros b w w'.
  assert (Hres : Worker.run_step WorkerSample.env (Worker.db w)
                   "r1" "s1" "llm" []
                 = inr {| Worker.output := Worker.JStr "pong";
                          Worker.res_tokens_used := 4;
                          Worker.res_cost_usd :=
                            Worker.NFloat (35 # 10000000) |})
    by (vm_compute; reflexivity).
  split; [exact Hres |].
  destruct (successful_body_is_recorded_failed WorkerSample.with_dlq
              WorkerSample.env 5000000 7000000 w (WorkerSample.message b) b
              "r1" "s1" "search_web" "llm" WorkerSample.queued_step
              WorkerSample.run_row
              {| Worker.output := Worker.JStr "pong";
                 Worker.res_tokens_used := 4;
                 Worker.res_cost_usd := Worker.NFloat (35 # 10000000) |}
              (35 # 10000000)
              eq_refl eq_refl eq_refl eq_refl eq_refl)
    as (H1 & H2 & H3 & H4).
  - vm_compute. reflexivity.
  - vm_compute. reflexivity.
  - exact Hres.
  - reflexivity.
  - fold w' in H1, H2, H3, H4.
    split; [rewrite H1; reflexivity |].
    split; [rewrite H2; reflexivity |].
    split; [rewrite H3; vm_compute; reflexivity |].
    rewrite H4; [reflexivity | discriminate].
Qed.

(* --------------------------------------------------------------------- *)
(** ** Worked figures *)

(** With the default settings and the default monthly budget of
    1,000,000 tokens the soft threshold is the double 800000.0, so the
    soft limit is reached exactly from 800,000 used tokens on. *)
Example soft_threshold_default_budget (U : Z) :
  PyFloat.int_ge U
    (Gateway.soft_limit_threshold Gateway.default_settings 1000000)
  = (800000 <=? U).
Proof.
  assert (Ht : Gateway.soft_limit_threshold Gateway.default_settings 1000000
               = S754_finite false 6871947673600000 (-33))
    by (vm_compute; reflexivity).
  rewrite Ht. unfold PyFloat.int_ge. simpl.
  change 6871947673600000 with (800000 * 8589934592).
  destruct (Z.leb_spec 800000 U); [apply Z.leb_le | apply Z.leb_gt]; lia.
Qed.

(** Budget block of the specification's scenario 2: budget 1000, used
    999, estimate 10. *)
Example budget_block_scenario :
  Gateway.budget_step "t1"
    (Gateway.Checked (Gateway._check_limits Gateway.default_settings 1000 999 10))
  = Gateway.Raise (Gateway.BudgetExceededError "t1" 999 1000).
Proof. reflexivity. Qed.

(** The float sum can lie below the exact product: four messages of 2,
    7, 7 and 4 words (20 words, 1.3 * 20 = 26) are estimated at 25. *)
Example estimate_below_exact_product :
  let msg (text : string) := {| Gateway.role := "user"; Gateway.content := text |} in
  Gateway.estimated_tokens
    [ msg "a b"; msg "a b c d e f g"; msg "a b c d e f g"; msg "a b c d" ]
  = Some 25.
Proof. vm_compute. reflexivity. Qed.

(* ===================================================================== *)
(** * Further properties of the gateway *)
(* ===================================================================== *)

(** ** Provider lookup and candidate order *)

Lemma lower_char_idempotent (c : ascii) :
  PyStr.lower_char (PyStr.lower_char c) = PyStr.lower_char c.
Proof. destruct c as [[] [] [] [] [] [] [] []]; vm_compute; reflexivity. Qed.

Lemma lower_idempotent (n : string) : PyStr.lower (PyStr.lower n) = PyStr.lower n.
Proof.
  induction n as [|c n IH]; simpl; [done |].
  by rewrite lower_char_idempotent, IH.
Qed.

(** [_get_provider_by_name] ignores the letter case of the name it is
    given; what it finds is a registered provider whose own name is the
    lower-cased query, so a provider registered under a name with an
    upper-case letter is never found. *)
Theorem provider_lookup_ignores_case (r : Gateway.ProviderRouter) (n : string) :
  Gateway._get_provider_by_name r (PyStr.lower n)
  = Gateway._get_provider_by_name r n
  /\ forall p, Gateway._get_provider_by_name r n = Some p ->
       In p (Gateway.providers r)
       /\ Gateway.name p = PyStr.lower n
       /\ PyStr.lower (Gateway.name p) = Gateway.name p.
Proof.
  split.
  - unfold Gateway._get_provider_by_name. by rewrite lower_idempotent.
  - intros p Hp. unfold Gateway._get_provider_by_name in Hp.
    apply find_some in Hp as [Hin Heq]. apply String.eqb_eq in Heq.
    repeat split; [done | done |]. rewrite Heq. apply lower_idempotent.
Qed.

Lemma priority_fold_app (r : Gateway.ProviderRouter) (m : string)
    (names : list string) (acc : list Gateway.Provider) :
  fold_left
    (fun capable provider_name =>
       match Gateway._get_provider_by_name r provider_name with
       | Some p =>
           if Gateway.supports_model p m then (capable ++ [p])%list else capable
       | None => capable
       end) names acc
  = (acc ++
     flat_map
       (fun provider_name =>
          match Gateway._get_provider_by_name r provider_name with
          | Some p => if Gateway.supports_model p m then [p] else []
          | None => []
          end) names)%list.
Proof.
  revert acc. induction names as [|n ns IH]; intros acc; simpl.
  - by rewrite app_nil_r.
  - rewrite IH.
    destruct (Gateway._get_provider_by_name r n) as [p|]; [|done].
    destruct (Gateway.supports_model p m); [|done].
    by rewrite <- app_assoc.
Qed.

Lemma provider_in_app (p : Gateway.Provider) (l1 l2 : list Gateway.Provider) :
  Gateway.provider_in p (l1 ++ l2)
  = Gateway.provider_in p l1 || Gateway.provider_in p l2.
Proof. unfold Gateway.provider_in. apply existsb_app. Qed.

Lemma provider_in_self (p : Gateway.Provider) (l : list Gateway.Provider) :
  Gateway.provider_in p (l ++ [p]) = true.
Proof.
  rewrite provider_in_app. unfold Gateway.provider_in at 2. simpl.
  rewrite String.eqb_refl. by rewrite orb_true_r.
Qed.

(** The second loop of [_get_providers_for_model] only appends, and what
    it appends are registered providers that support the model and were
    not in the list by name. *)
Lemma remaining_fold (m : string) (ps : list Gateway.Provider)
    (acc : list Gateway.Provider) :
  exists rest,
    fold_left
      (fun capable p =>
         if negb (Gateway.provider_in p capable) && Gateway.supports_model p m
         then (capable ++ [p])%list else capable) ps acc
    = (acc ++ rest)%list
    /\ Forall (fun q => In q ps /\ Gateway.supports_model q m = true
                        /\ Gateway.provider_in q acc = false) rest
    /\ forall p, In p ps -> Gateway.supports_model p m = true ->
         Gateway.provider_in p (acc ++ rest) = true.
Proof.
  revert acc. induction ps as [|p ps IH]; intros acc; simpl.
  - exists []. rewrite app_nil_r. repeat split; [constructor | intros p []].
  - destruct (negb (Gateway.provider_in p acc) && Gateway.supports_model p m)
      eqn:Hadd.
    + apply andb_true_iff in Hadd as [Hnew Hsup].
      apply negb_true_iff in Hnew.
      destruct (IH (acc ++ [p])%list) as (rest & Heq & Hall & Hcov).
      exists (p :: rest). rewrite Heq, <- app_assoc. simpl.
      split; [done |]. split.
      * constructor.
        { split; [by left |]. split; [exact Hsup | exact Hnew]. }
        eapply Forall_impl; [exact Hall |]. simpl.
        intros q (Hq & Hs & Hn). rewrite provider_in_app in Hn.
        apply orb_false_iff in Hn as [Hn _]. repeat split; [by right | done | done].
      * intros q [<-|Hq] Hs.
        -- rewrite provider_in_app. simpl.
           unfold Gateway.provider_in at 2. simpl.
           by rewrite String.eqb_refl, orb_true_r.
        -- specialize (Hcov q Hq Hs). by rewrite <- app_assoc in Hcov.
    + destruct (IH acc) as (rest & Heq & Hall & Hcov).
      exists rest. rewrite Heq. split; [done |]. split.
      * eapply Forall_impl; [exact Hall |]. simpl.
        intros q (Hq & Hs & Hn). repeat split; [by right | done | done].
      * intros q [<-|Hq] Hs; [| by apply Hcov].
        rewrite Hs, andb_true_r in Hadd. apply negb_false_iff in Hadd.
        rewrite provider_in_app, Hadd. reflexivity.
Qed.

(** The candidate list of [_get_providers_for_model] starts with the
    providers named by the priority setting, in that order, followed by
    the remaining ones; every candidate is a registered provider that
    supports the model, and every registered provider that supports the
    model is among the candidates (by name). *)
Theorem capable_providers_in_priority_order
    (s : Gateway.Settings) (r : Gateway.ProviderRouter) (m : string) :
  exists rest,
    Gateway._get_providers_for_model s r m
    = (Routing.by_priority s r m ++ rest)%list
    /\ Forall (fun q => Gateway.provider_in q (Routing.by_priority s r m) = false)
         rest
    /\ Forall (fun q => In q (Gateway.providers r)
                        /\ Gateway.supports_model q m = true)
         (Gateway._get_providers_for_model s r m)
    /\ forall p, In p (Gateway.providers r) ->
         Gateway.supports_model p m = true ->
         Gateway.provider_in p (Gateway._get_providers_for_model s r m) = true.
Proof.
  unfold Gateway._get_providers_for_model. rewrite priority_fold_app. simpl.
  fold (Routing.by_priority s r m).
  destruct (remaining_fold m (Gateway.providers r) (Routing.by_priority s r m))
    as (rest & Heq & Hall & Hcov).
  exists rest. rewrite Heq. split; [done |]. split.
  - eapply Forall_impl; [exact Hall |]. simpl. by intros q (_ & _ & H).
  - split; [| exact Hcov].
    apply Forall_app. split.
    + unfold Routing.by_priority. apply Forall_forall. intros q Hq.
      apply list_elem_of_In, in_flat_map in Hq as (n & _ & Hq).
      destruct (Gateway._get_provider_by_name r n) as [p|] eqn:Hp; [| done].
      destruct (Gateway.supports_model p m) eqn:Hs; [| done].
      destruct Hq as [<-|[]]. split; [| done].
      by apply (get_provider_by_name_In r n).
    + eapply Forall_impl; [exact Hall |]. simpl. by intros q (H1 & H2 & _).
Qed.

(** ** The attempt loop *)

Lemma try_providers_skip (s : Gateway.Settings) (r : Gateway.ProviderRouter)
    (req : Gateway.LLMRequest) (total : nat)
    (pre todo : list Gateway.Provider) (attempted : list string) :
  Forall (fun p => Routing.falls_through s r req p = true) pre ->
  (length attempted + length pre < total)%nat ->
  Gateway.try_providers s r req total (pre ++ todo) attempted
  = Gateway.try_providers s r req total todo
      (attempted ++ map Gateway.name pre).
Proof.
  revert attempted. induction pre as [|p pre IH]; intros attempted Hall Hlen.
  - simpl. by rewrite app_nil_r.
  - apply Forall_cons in Hall as [Hp Hall]. simpl in Hlen.
    assert (Hnext : Gateway.try_providers s r req total (pre ++ todo)
                      (attempted ++ [Gateway.name p])
                    = Gateway.try_providers s r req total todo
                        (attempted ++ map Gateway.name (p :: pre))).
    { rewrite IH; [| done | rewrite length_app; simpl; lia].
      simpl. by rewrite <- app_assoc. }
    unfold Routing.falls_through in Hp.
    change (Gateway.try_providers s r req total ((p :: pre) ++ todo) attempted)
      with (match Gateway._execute_with_circuit_breaker s r p req with
            | Gateway.Ok response =>
                Gateway.Ok
                  {| Gateway.provider := Gateway.provider response;
                     Gateway.response_content := Gateway.response_content response;
                     Gateway.total_tokens := Gateway.total_tokens response;
                     Gateway.cost_usd := Gateway.cost_usd response;
                     Gateway.is_fallback :=
                       if (1 <? length (attempted ++ [Gateway.name p]))%nat
                       then true else Gateway.is_fallback response;
                     Gateway.attempted_providers :=
                       (attempted ++ [Gateway.name p])%list |}
            | Gateway.Raise Gateway.CircuitBreakerError =>
                Gateway.try_providers s r req total (pre ++ todo)
                  (attempted ++ [Gateway.name p])
            | Gateway.Raise (Gateway.ProviderError _ _) =>
                if (total <=? length (attempted ++ [Gateway.name p]))%nat
                then Gateway.Raise
                       (Gateway.all_providers_failed req
                          (attempted ++ [Gateway.name p]))
                else Gateway.try_providers s r req total (pre ++ todo)
                       (attempted ++ [Gateway.name p])
            | Gateway.Raise e => Gateway.Raise e
            end).
    destruct (Gateway._execute_with_circuit_breaker s r p req) as [resp|[]];
      try discriminate; [| exact Hnext].
    assert (Hno : (total <=? length (attempted ++ [Gateway.name p]))%nat = false).
    { apply Nat.leb_gt. rewrite length_app. simpl. lia. }
    rewrite Hno. exact Hnext.
Qed.

Lemma try_providers_all_fail (s : Gateway.Settings) (r : Gateway.ProviderRouter)
    (req : Gateway.LLMRequest) (total : nat)
    (todo : list Gateway.Provider) (attempted : list string) :
  Forall (fun p => Routing.falls_through s r req p = true) todo ->
  (length attempted + length todo <= total)%nat ->
  Gateway.try_providers s r req total todo attempted
  = Gateway.Raise
      (Gateway.all_providers_failed req (attempted ++ map Gateway.name todo)).
Proof.
  revert attempted. induction todo as [|p todo IH]; intros attempted Hall Hlen.
  - simpl. by rewrite app_nil_r.
  - apply Forall_cons in Hall as [Hp Hall]. simpl in Hlen.
    assert (Hnext : Gateway.try_providers s r req total todo
                      (attempted ++ [Gateway.name p])
                    = Gateway.Raise
                        (Gateway.all_providers_failed req
                           (attempted ++ map Gateway.name (p :: todo)))).
    { rewrite IH; [| done | rewrite length_app; simpl; lia].
      simpl. by rewrite <- app_assoc. }
    unfold Routing.falls_through in Hp. simpl.
    destruct (Gateway._execute_with_circuit_breaker s r p req) as [resp|[]];
      try discriminate; [| exact Hnext].
    destruct (total <=? length (attempted ++ [Gateway.name p]))%nat eqn:Hbrk;
      [| exact Hnext].
    apply Nat.leb_le in Hbrk. rewrite length_app in Hbrk. simpl in Hbrk.
    assert (todo = []) as -> by (destruct todo; [done | simpl in Hlen; lia]).
    reflexivity.
Qed.

(** The first candidate that neither raises ProviderError nor is cut off
    by its breaker decides the request. *)
Lemma first_decisive_candidate (s : Gateway.Settings)
    (r : Gateway.ProviderRouter) (req : Gateway.LLMRequest)
    (pre post : list Gateway.Provider) (p : Gateway.Provider) :
  Gateway.preferred_provider req = None ->
  Gateway._get_providers_for_model s r (Gateway.model req) = (pre ++ p :: post)%list ->
  Forall (fun q => Routing.falls_through s r req q = true) pre ->
  Routing.falls_through s r req p = false ->
  Gateway.route s r req
  = match Gateway._execute_with_circuit_breaker s r p req with
    | Gateway.Ok response =>
        Gateway.Ok
          (Routing.answered response
             (match pre with [] => Gateway.is_fallback response | _ => true end)
             (map Gateway.name pre ++ [Gateway.name p]))
    | Gateway.Raise e => Gateway.Raise e
    end.
Proof.
  intros Hpref Hcap Hpre Hp.
  unfold Gateway.route. rewrite Hpref.
  unfold Gateway.route_capable. rewrite Hcap.
  assert (Hne : exists c cs, (pre ++ p :: post)%list = c :: cs)
    by (destruct pre; simpl; eauto).
  destruct Hne as (c & cs & Hne). rewrite Hne, <- Hne. clear c cs Hne.
  rewrite try_providers_skip; [| done | rewrite length_app; simpl; lia].
  unfold Routing.falls_through in Hp. simpl.
  destruct (Gateway._execute_with_circuit_breaker s r p req) as [resp|e].
  - unfold Routing.answered. do 2 f_equal.
    rewrite length_app, length_map. simpl.
    destruct pre; simpl; [reflexivity |].
    by rewrite Nat.add_1_r.
  - destruct e; try reflexivity; discriminate.
Qed.

(** Failover: when the candidates before the first one that answers
    all failed (ProviderError, or an OPEN breaker), the response is that
    provider's, [attempted_providers] lists the candidates tried in order,
    ending with it, and [is_fallback] is set as soon as it was not the
    first. *)
Theorem failover_response (s : Gateway.Settings) (r : Gateway.ProviderRouter)
    (req : Gateway.LLMRequest) (pre post : list Gateway.Provider)
    (p : Gateway.Provider) (response : Gateway.LLMResponse) :
  Gateway.preferred_provider req = None ->
  Gateway._get_providers_for_model s r (Gateway.model req) = (pre ++ p :: post)%list ->
  Forall (fun q => Routing.falls_through s r req q = true) pre ->
  Gateway._execute_with_circuit_breaker s r p req = Gateway.Ok response ->
  exists answer,
    Gateway.route s r req = Gateway.Ok answer
    /\ Gateway.provider answer = Gateway.provider response
    /\ Gateway.total_tokens answer = Gateway.total_tokens response
    /\ Gateway.attempted_providers answer
       = (map Gateway.name pre ++ [Gateway.name p])%list
    /\ (pre ≠ [] -> Gateway.is_fallback answer = true)
    /\ (pre = [] -> Gateway.is_fallback answer = Gateway.is_fallback response).
Proof.
  intros Hpref Hcap Hpre Hok.
  rewrite (first_decisive_candidate s r req pre post p Hpref Hcap Hpre)
    by (unfold Routing.falls_through; by rewrite Hok).
  rewrite Hok. eexists. split; [reflexivity |]. simpl.
  repeat split; destruct pre; done.
Qed.

Lemma failover_response_witness :
  exists answer,
    Gateway.route Gateway.default_settings Sample.router_shared_alias
      (Sample.request "gpt-4" None) = Gateway.Ok answer
    /\ Gateway.provider answer = "anthropic"
    /\ Gateway.attempted_providers answer = ["openai"; "anthropic"]
    /\ Gateway.is_fallback answer = true.
Proof.
  destruct (failover_response Gateway.default_settings
              Sample.router_shared_alias (Sample.request "gpt-4" None)
              [Sample.openai_down] [] Sample.anthropic_alias
              (Sample.response_of "anthropic"))
    as (answer & H1 & H2 & _ & H4 & H5 & _).
  - reflexivity.
  - vm_compute. reflexivity.
  - repeat constructor.
  - reflexivity.
  - exists answer. split; [exact H1 |]. split; [exact H2 |].
    split; [exact H4 |]. apply H5. discriminate.
Defined.



(** When every candidate fails (ProviderError, or its breaker is OPEN),
    routing raises ProviderError "all", whose message names the model and
    every candidate in the order tried, and the request is answered with
    HTTP 503. *)
Theorem all_candidates_failed_is_503 (s : Gateway.Settings)
    (r : Gateway.ProviderRouter) (req : Gateway.LLMRequest)
    (c : Gateway.Provider) (cs : list Gateway.Provider) :
  Gateway.preferred_provider req = None ->
  Gateway._get_providers_for_model s r (Gateway.model req) = c :: cs ->
  Forall (fun q => Routing.falls_through s r req q = true) (c :: cs) ->
  Gateway.route s r req
  = Gateway.Raise
      (Gateway.ProviderError "all"
         ("All providers failed for model " ++ Gateway.model req ++ ". "
          ++ "Attempted: "
          ++ Gateway.join_names (map Gateway.name (c :: cs))))
  /\ Gateway.status_code (Gateway.respond (Gateway.route s r req)) = 503.
Proof.
  intros Hpref Hcap Hall.
  assert (Hr : Gateway.route s r req
               = Gateway.Raise
                   (Gateway.all_providers_failed req
                      (map Gateway.name (c :: cs)))).
  { unfold Gateway.route. rewrite Hpref.
    unfold Gateway.route_capable. rewrite Hcap.
    by rewrite try_providers_all_fail. }
  rewrite Hr. split; reflexivity.
Qed.

Lemma all_candidates_failed_is_503_witness :
  Gateway.route Gateway.default_settings RoutingSample.router_all_down
    (Sample.request "gpt-4" None)
  = Gateway.Raise
      (Gateway.ProviderError "all"
         "All providers failed for model gpt-4. Attempted: openai, anthropic").
Proof.
  destruct (all_candidates_failed_is_503 Gateway.default_settings
              RoutingSample.router_all_down (Sample.request "gpt-4" None)
              Sample.openai_down [Sample.anthropic_alias]) as (H & _).
  - reflexivity.
  - vm_compute. reflexivity.
  - repeat constructor.
  - rewrite H. reflexivity.
Defined.

(** ** The rate limiter over time *)

Lemma get_frame (now : Z) (st st' : Redis.store) (k : string) :
  st' !! k = st !! k -> Redis.get now st' k = Redis.get now st k.
Proof. intros H. unfold Redis.get, Redis.find. by rewrite H. Qed.

Lemma rate_key_not_budget_key (t t' : string) :
  Gateway.rate_key t ≠ Gateway.budget_key t'.
Proof. discriminate. Qed.

Lemma rate_key_not_counter_key (t t' : string) :
  Gateway.rate_key t ≠ Gateway.counter_key t'.
Proof. discriminate. Qed.

(** One check on a key that is absent, expired or a counter. *)
Lemma check_rate_limit_step (s : Gateway.Settings) (now : Z)
    (st : Redis.store) (tenant : string) (limit : option Z) :
  Gateway.RATE_LIMIT_ENABLED s = true ->
  Redis.counter_or_absent now st (Gateway.rate_key tenant) ->
  exists st',
    Gateway.check_rate_limit s now st tenant limit
    = Some (st', Pipeline.verdict s limit
                   (Redis.count_of now st (Gateway.rate_key tenant) + 1))
    /\ st' !! Gateway.rate_key tenant
       = Some (Redis.Entry
                 (Redis.RInt (Redis.count_of now st (Gateway.rate_key tenant) + 1))
                 (Some (now + Gateway.RATE_LIMIT_WINDOW_SECONDS s)))
    /\ forall k, k ≠ Gateway.rate_key tenant -> st' !! k = st !! k.
Proof.
  intros Hen Hc.
  destruct (incrby_counter now st (Gateway.rate_key tenant) 1 Hc)
    as (st1 & ex & Hincr & Hlook & Hfind).
  unfold Gateway.check_rate_limit, Redis.incr, Redis.expire.
  rewrite Hen, Hincr, Hfind. simpl.
  eexists. split; [reflexivity |].
  split; [by rewrite lookup_insert_eq |].
  intros k Hk. rewrite lookup_insert_ne by done.
  by apply (incrby_frame _ _ _ _ _ _ Hincr).
Qed.

(** A key written by a check is a live counter up to the end of its
    window, the last second included. *)
Lemma counter_live (now now' window c : Z) (st : Redis.store) (k : string) :
  st !! k = Some (Redis.Entry (Redis.RInt c) (Some (now + window))) ->
  now' <= now + window ->
  Redis.count_of now' st k = c /\ Redis.counter_or_absent now' st k.
Proof.
  intros Hk Hle.
  unfold Redis.count_of, Redis.counter_or_absent, Redis.get, Redis.find.
  rewrite Hk. unfold Redis.live. simpl.
  assert (Hl : (now' <=? now + window) = true) by (apply Z.leb_le; lia).
  by rewrite Hl.
Qed.

Lemma counter_expired (now now' window c : Z) (st : Redis.store) (k : string) :
  st !! k = Some (Redis.Entry (Redis.RInt c) (Some (now + window))) ->
  now + window < now' ->
  Redis.count_of now' st k = 0 /\ Redis.counter_or_absent now' st k.
Proof.
  intros Hk Hgt.
  unfold Redis.count_of, Redis.counter_or_absent, Redis.get, Redis.find.
  rewrite Hk. unfold Redis.live. simpl.
  assert (Hl : (now' <=? now + window) = false) by (apply Z.leb_gt; lia).
  by rewrite Hl.
Qed.

Lemma counts_succ (c : Z) (n : nat) :
  Pipeline.counts c (S n) = c :: Pipeline.counts (c + 1) n.
Proof.
  unfold Pipeline.counts. rewrite <- cons_seq. simpl.
  rewrite Z.add_0_r. f_equal.
  rewrite <- seq_shift, List.map_map. apply List.map_ext. intros i. lia.
Qed.

Lemma rate_checks_from (s : Gateway.Settings) (tenant : string) (ts : list Z) :
  Gateway.RATE_LIMIT_ENABLED s = true ->
  forall (t : Z) (st : Redis.store),
    Redis.counter_or_absent t st (Gateway.rate_key tenant) ->
    Pipeline.chained (Gateway.RATE_LIMIT_WINDOW_SECONDS s) t ts ->
    exists st',
      Pipeline.rate_checks s st tenant (t :: ts)
      = Some (st',
              map (Pipeline.verdict s None)
                (Pipeline.counts
                   (Redis.count_of t st (Gateway.rate_key tenant) + 1)
                   (length (t :: ts)))).
Proof.
  intros Hen. induction ts as [|t' ts IH]; intros t st Hc Hch.
  - destruct (check_rate_limit_step s t st tenant None Hen Hc)
      as (st1 & Hchk & _ & _).
    exists st1. simpl. rewrite Hchk. unfold Pipeline.counts. simpl.
    by rewrite Z.add_0_r.
  - destruct (check_rate_limit_step s t st tenant None Hen Hc)
      as (st1 & Hchk & Hkey & _).
    destruct Hch as [Hgap Hch].
    destruct (counter_live t t' _ _ st1 _ Hkey) as [Hcount Hok]; [lia |].
    destruct (IH t' st1 Hok Hch) as (st2 & Hrest).
    exists st2.
    change (Pipeline.rate_checks s st tenant (t :: t' :: ts))
      with (match Gateway.check_rate_limit s t st tenant None with
            | None => None
            | Some (st1, res) =>
                match Pipeline.rate_checks s st1 tenant (t' :: ts) with
                | None => None
                | Some (st2, rs) => Some (st2, res :: rs)
                end
            end).
    rewrite Hchk, Hrest, Hcount.
    change (length (t :: t' :: ts)) with (S (length (t' :: ts))).
    by rewrite (counts_succ _ (length (t' :: ts))).
Qed.

(** Rate limiting over a burst: starting from no count, [n] checks of one
    tenant, each less than a window after the one before, see the counts
    1, 2, ..., [n]; the k-th is allowed exactly when k is at most the
    configured requests-per-minute (the only limit the endpoint applies),
    so the first [limit] requests pass and every later one is denied for
    as long as the burst lasts. *)
Theorem rate_limit_counts_a_burst (s : Gateway.Settings) (tenant : string)
    (st : Redis.store) (t : Z) (ts : list Z) :
  Gateway.RATE_LIMIT_ENABLED s = true ->
  Redis.get t st (Gateway.rate_key tenant) = None ->
  Pipeline.chained (Gateway.RATE_LIMIT_WINDOW_SECONDS s) t ts ->
  exists st',
    Pipeline.rate_checks s st tenant (t :: ts)
    = Some (st', map (Pipeline.verdict s None)
                   (Pipeline.counts 1 (length (t :: ts))))
    /\ forall k, In k (Pipeline.counts 1 (length (t :: ts))) ->
         (Gateway.rate_step tenant (Pipeline.verdict s None k) = Gateway.Ok tt
          <-> k <= Gateway.RATE_LIMIT_REQUESTS_PER_MINUTE s).
Proof.
  intros Hen Habs Hch.
  assert (Hc : Redis.counter_or_absent t st (Gateway.rate_key tenant))
    by (unfold Redis.counter_or_absent; by rewrite Habs).
  destruct (rate_checks_from s tenant ts Hen t st Hc Hch) as (st' & Hrun).
  assert (H0 : Redis.count_of t st (Gateway.rate_key tenant) = 0)
    by (unfold Redis.count_of; by rewrite Habs).
  rewrite H0 in Hrun. exists st'. split; [exact Hrun |].
  intros k _. unfold Gateway.rate_step, Pipeline.verdict. simpl.
  destruct (Z.leb_spec k (Gateway.RATE_LIMIT_REQUESTS_PER_MINUTE s)); simpl;
    split; try done; lia.
Qed.

Lemma rate_limit_counts_a_burst_witness :
  exists st',
    Pipeline.rate_checks Gateway.default_settings ∅ "t1" [0; 10; 65]
    = Some (st', map (Pipeline.verdict Gateway.default_settings None) [1; 2; 3]).
Proof.
  destruct (rate_limit_counts_a_burst Gateway.default_settings "t1" ∅ 0 [10; 65])
    as (st' & H & _).
  - reflexivity.
  - reflexivity.
  - simpl. lia.
  - exists st'. exact H.
Defined.

(** The window is measured from the last request, and the counter is
    there up to and including its last second: a check made more than a
    window after the previous one finds the key expired and starts again
    at 1; a check made up to a window after it, the last second
    included, counts on from the previous count. *)
Theorem rate_limit_restarts_after_idle_window (s : Gateway.Settings)
    (tenant : string) (st : Redis.store) (t t' : Z) :
  Gateway.RATE_LIMIT_ENABLED s = true ->
  Redis.counter_or_absent t st (Gateway.rate_key tenant) ->
  exists first,
    first = Pipeline.verdict s None
              (Redis.count_of t st (Gateway.rate_key tenant) + 1)
    /\ (t + Gateway.RATE_LIMIT_WINDOW_SECONDS s < t' ->
        exists st',
          Pipeline.rate_checks s st tenant [t; t']
          = Some (st', [first; Pipeline.verdict s None 1]))
    /\ (t' <= t + Gateway.RATE_LIMIT_WINDOW_SECONDS s ->
        exists st',
          Pipeline.rate_checks s st tenant [t; t']
          = Some (st', [first;
                        Pipeline.verdict s None
                          (Redis.count_of t st (Gateway.rate_key tenant) + 2)])).
Proof.
  intros Hen Hc.
  destruct (check_rate_limit_step s t st tenant None Hen Hc)
    as (st1 & Hchk & Hkey & _).
  eexists. split; [reflexivity |]. split; intros Htime.
  - destruct (counter_expired t t' _ _ st1 _ Hkey Htime) as [Hcount Hok].
    destruct (check_rate_limit_step s t' st1 tenant None Hen Hok)
      as (st2 & Hchk2 & _ & _).
    rewrite Hcount in Hchk2. exists st2. simpl. by rewrite Hchk, Hchk2.
  - destruct (counter_live t t' _ _ st1 _ Hkey Htime) as [Hcount Hok].
    destruct (check_rate_limit_step s t' st1 tenant None Hen Hok)
      as (st2 & Hchk2 & _ & _).
    rewrite Hcount in Hchk2.
    replace (Redis.count_of t st (Gateway.rate_key tenant) + 1 + 1)
      with (Redis.count_of t st (Gateway.rate_key tenant) + 2) in Hchk2 by lia.
    exists st2. simpl. by rewrite Hchk, Hchk2.
Qed.

Lemma rate_limit_restarts_after_idle_window_witness :
  (exists st',
     Pipeline.rate_checks Gateway.default_settings
       (<[Gateway.rate_key "t1" := Redis.Entry (Redis.RInt 100) (Some 60)]> ∅)
       "t1" [7; 68]
     = Some (st', [Pipeline.verdict Gateway.default_settings None 101;
                   Pipeline.verdict Gateway.default_settings None 1]))
  /\ (exists st',
        Pipeline.rate_checks Gateway.default_settings
          (<[Gateway.rate_key "t1" := Redis.Entry (Redis.RInt 100) (Some 60)]> ∅)
          "t1" [7; 67]
        = Some (st', [Pipeline.verdict Gateway.default_settings None 101;
                      Pipeline.verdict Gateway.default_settings None 102])).
Proof.
  split.
  - destruct (rate_limit_restarts_after_idle_window Gateway.default_settings
                "t1"
                (<[Gateway.rate_key "t1"
                   := Redis.Entry (Redis.RInt 100) (Some 60)]> ∅) 7 68)
      as (first & -> & Hrestart & _).
    + reflexivity.
    + vm_compute. exact I.
    + apply Hrestart. simpl. lia.
  - destruct (rate_limit_restarts_after_idle_window Gateway.default_settings
                "t1"
                (<[Gateway.rate_key "t1"
                   := Redis.Entry (Redis.RInt 100) (Some 60)]> ∅) 7 67)
      as (first & -> & _ & Hgoes_on).
    + reflexivity.
    + vm_compute. exact I.
    + apply Hgoes_on. simpl. lia.
Defined.

(** ** The budget cache *)

(** A budget check that misses the cache stores the tenant's two numbers
    for 60 seconds.  Up to and including the 60th second every further
    check of the tenant answers from the stored numbers, whatever the
    tenant row has become in the meantime, and leaves the store alone;
    once more than 60 seconds have passed the entry is gone and the row
    is read (and stored) again. *)
Theorem budget_cache_lives_60_seconds (s : Gateway.Settings) (now now' : Z)
    (st : Redis.store) (tenants tenants' : gmap string Gateway.Tenant)
    (tenant : string) (E E' : Z) (t t' : Gateway.Tenant) :
  Gateway.BUDGET_CHECK_ENABLED s = true ->
  Redis.get now st (Gateway.budget_key tenant) = None ->
  tenants !! tenant = Some t ->
  tenants' !! tenant = Some t' ->
  let st1 := fst (Gateway.check_budget s now st tenants tenant E) in
  (now' <= now + 60 ->
   Gateway.check_budget s now' st1 tenants' tenant E'
   = (st1, Gateway.Checked
             (Gateway._check_limits s (Gateway.token_budget_monthly t)
                (Gateway.token_used_current_month t) E')))
  /\ (now + 60 < now' ->
      Gateway.check_budget s now' st1 tenants' tenant E'
      = (Redis.setex now' st1 (Gateway.budget_key tenant) 60
           (Redis.RBudget (Gateway.token_budget_monthly t')
                          (Gateway.token_used_current_month t')),
         Gateway.Checked
           (Gateway._check_limits s (Gateway.token_budget_monthly t')
              (Gateway.token_used_current_month t') E'))).
Proof.
  intros Hen Hmiss Ht Ht' st1. subst st1.
  rewrite (check_budget_miss s now st tenants tenant E t Hen Hmiss Ht). simpl.
  split; intros Htime.
  - apply check_budget_hit; [done |].
    unfold Redis.get, Redis.find, Redis.setex. rewrite lookup_insert_eq.
    unfold Redis.live. simpl.
    assert (Hl : (now' <=? now + 60) = true) by (apply Z.leb_le; lia).
    by rewrite Hl.
  - apply check_budget_miss; [done | | done].
    unfold Redis.get, Redis.find, Redis.setex. rewrite lookup_insert_eq.
    unfold Redis.live. simpl.
    assert (Hl : (now' <=? now + 60) = false) by (apply Z.leb_gt; lia).
    by rewrite Hl.
Qed.

Lemma budget_cache_lives_60_seconds_witness :
  let spent :=
    {| Gateway.token_budget_monthly := 1000000;
       Gateway.token_used_current_month := 1000000;
       Gateway.rate_limit_per_minute := 100 |} in
  let st1 :=
    fst (Gateway.check_budget Gateway.default_settings 0 ∅
           (<["t1" := Sample.tenant]> ∅) "t1" 10) in
  Gateway.check_budget Gateway.default_settings 60 st1 (<["t1" := spent]> ∅) "t1" 10
  = (st1, Gateway.Checked
            (Gateway._check_limits Gateway.default_settings 1000000 0 10))
  /\ snd (Gateway.check_budget Gateway.default_settings 61 st1
            (<["t1" := spent]> ∅) "t1" 10)
     = Gateway.Checked
         (Gateway._check_limits Gateway.default_settings 1000000 1000000 10).
Proof.
  intros spent st1. split.
  - destruct (budget_cache_lives_60_seconds Gateway.default_settings 0 60 ∅
                (<["t1" := Sample.tenant]> ∅) (<["t1" := spent]> ∅) "t1" 10 10
                Sample.tenant spent) as [H _].
    + reflexivity.
    + vm_compute. reflexivity.
    + vm_compute. reflexivity.
    + vm_compute. reflexivity.
    + apply H. lia.
  - destruct (budget_cache_lives_60_seconds Gateway.default_settings 0 61 ∅
                (<["t1" := Sample.tenant]> ∅) (<["t1" := spent]> ∅) "t1" 10 10
                Sample.tenant spent) as [_ H].
    + reflexivity.
    + vm_compute. reflexivity.
    + vm_compute. reflexivity.
    + vm_compute. reflexivity.
    + unfold st1. rewrite H by lia. reflexivity.
Defined.

(** ** The request pipeline of [create_completion] *)

Lemma check_budget_view (s : Gateway.Settings) (now : Z) (st : Redis.store)
    (tenants : gmap string Gateway.Tenant) (tenant : string) (E B U : Z) :
  Gateway.BUDGET_CHECK_ENABLED s = true ->
  Pipeline.budget_view now st tenants tenant = Some (B, U) ->
  exists st',
    Gateway.check_budget s now st tenants tenant E
    = (st', Gateway.Checked (Gateway._check_limits s B U E))
    /\ forall k, k ≠ Gateway.budget_key tenant -> st' !! k = st !! k.
Proof.
  intros Hen Hview. unfold Pipeline.budget_view in Hview.
  unfold Gateway.check_budget. rewrite Hen. simpl.
  destruct (Redis.get now st (Gateway.budget_key tenant)) as [[c|b u|x]|];
    try (destruct (tenants !! tenant) as [t|]; [|discriminate];
         injection Hview as <- <-; eexists; split; [reflexivity |];
         intros k Hk; unfold Redis.setex; by rewrite lookup_insert_ne).
  injection Hview as <- <-. by exists st.
Qed.

Lemma budget_view_frame (now : Z) (st st' : Redis.store)
    (tenants : gmap string Gateway.Tenant) (tenant : string) :
  st' !! Gateway.budget_key tenant = st !! Gateway.budget_key tenant ->
  Pipeline.budget_view now st' tenants tenant
  = Pipeline.budget_view now st tenants tenant.
Proof.
  intros H. unfold Pipeline.budget_view. by rewrite (get_frame now st st' _ H).
Qed.

(** The pipeline up to and including the budget check, for a request
    that is within the rate limit. *)
Lemma pipeline_to_budget (s : Gateway.Settings) (now : Z)
    (r : Gateway.ProviderRouter) (σ : Gateway.State) (req : Gateway.LLMRequest)
    (E B U : Z) :
  Gateway.RATE_LIMIT_ENABLED s = true ->
  Gateway.BUDGET_CHECK_ENABLED s = true ->
  Redis.counter_or_absent now (Gateway.redis σ)
    (Gateway.rate_key (Gateway.tenant_id req)) ->
  Redis.count_of now (Gateway.redis σ) (Gateway.rate_key (Gateway.tenant_id req))
  < Gateway.RATE_LIMIT_REQUESTS_PER_MINUTE s ->
  Gateway.estimated_tokens (Gateway.messages req) = Some E ->
  Pipeline.budget_view now (Gateway.redis σ) (Gateway.tenants σ)
    (Gateway.tenant_id req) = Some (B, U) ->
  exists st2,
    (forall k, k ≠ Gateway.rate_key (Gateway.tenant_id req) ->
               k ≠ Gateway.budget_key (Gateway.tenant_id req) ->
               st2 !! k = Gateway.redis σ !! k)
    /\ Gateway.create_completion s now r σ req
       = match Gateway.budget_step (Gateway.tenant_id req)
                 (Gateway.Checked (Gateway._check_limits s B U E)) with
         | Gateway.Raise e => (Gateway.with_redis σ st2, Gateway.Raise e)
         | Gateway.Ok _ =>
             match Gateway.route s r req with
             | Gateway.Raise e => (Gateway.with_redis σ st2, Gateway.Raise e)
             | Gateway.Ok response =>
                 match Gateway.increment_usage now st2 (Gateway.tenant_id req)
                         (Gateway.total_tokens response) with
                 | None => (Gateway.with_redis σ st2, Gateway.Raise Gateway.ResponseError)
                 | Some st3 =>
                     ({| Gateway.redis := st3;
                         Gateway.tenants := Gateway.tenants σ;
                         Gateway.llm_events :=
                           (Gateway.llm_events σ
                            ++ [Pipeline.event_of req response])%list |},
                      Gateway.Ok response)
                 end
             end
         end.
Proof.
  intros Hrate Hbud Hc Hcount Hest Hview.
  destruct (check_rate_limit_step s now (Gateway.redis σ)
              (Gateway.tenant_id req) None Hrate Hc)
    as (st1 & Hchk & _ & Hframe1).
  assert (Hview1 : Pipeline.budget_view now st1 (Gateway.tenants σ)
                     (Gateway.tenant_id req) = Some (B, U)).
  { rewrite (budget_view_frame now (Gateway.redis σ) st1); [done |].
    apply Hframe1. intros Heq. by apply (rate_key_not_budget_key _ _ (eq_sym Heq)). }
  destruct (check_budget_view s now st1 (Gateway.tenants σ)
              (Gateway.tenant_id req) E B U Hbud Hview1)
    as (st2 & Hcb & Hframe2).
  exists st2. split.
  - intros k Hk1 Hk2. rewrite Hframe2 by done. by apply Hframe1.
  - unfold Gateway.create_completion. rewrite Hchk.
    unfold Pipeline.verdict, Gateway.rate_step. simpl.
    assert (Hle : (Redis.count_of now (Gateway.redis σ)
                     (Gateway.rate_key (Gateway.tenant_id req)) + 1
                   <=? Gateway.RATE_LIMIT_REQUESTS_PER_MINUTE s) = true)
      by (apply Z.leb_le; lia).
    rewrite Hle. simpl. rewrite Hest, Hcb. reflexivity.
Qed.

Lemma counter_frame (now : Z) (st st' : Redis.store) (k : string) :
  st' !! k = st !! k ->
  Redis.count_of now st' k = Redis.count_of now st k
  /\ (Redis.counter_or_absent now st k -> Redis.counter_or_absent now st' k).
Proof.
  intros H. unfold Redis.count_of, Redis.counter_or_absent.
  by rewrite (get_frame now st st' k H).
Qed.

(** A request over the rate limit is answered 429 with Retry-After set
    to the window, before anything else happens: no budget is read, no
    provider is called (the outcome does not depend on the router), no
    event is written, and the only key of the store that changes is the
    tenant's rate counter, which the denied request still increments and
    whose window it restarts.  The limit is the configured
    requests-per-minute, whatever the tenant row says. *)
Theorem rate_limited_request_is_429 (s : Gateway.Settings) (now : Z)
    (r : Gateway.ProviderRouter) (σ : Gateway.State) (req : Gateway.LLMRequest) :
  Gateway.RATE_LIMIT_ENABLED s = true ->
  Redis.counter_or_absent now (Gateway.redis σ)
    (Gateway.rate_key (Gateway.tenant_id req)) ->
  Gateway.RATE_LIMIT_REQUESTS_PER_MINUTE s
  <= Redis.count_of now (Gateway.redis σ)
       (Gateway.rate_key (Gateway.tenant_id req)) ->
  exists st1,
    Gateway.create_completion s now r σ req
    = (Gateway.with_redis σ st1,
       Gateway.Raise
         (Gateway.RateLimitError (Gateway.tenant_id req)
            (Gateway.RATE_LIMIT_WINDOW_SECONDS s)))
    /\ st1 !! Gateway.rate_key (Gateway.tenant_id req)
       = Some (Redis.Entry
                 (Redis.RInt
                    (Redis.count_of now (Gateway.redis σ)
                       (Gateway.rate_key (Gateway.tenant_id req)) + 1))
                 (Some (now + Gateway.RATE_LIMIT_WINDOW_SECONDS s)))
    /\ (forall k, k ≠ Gateway.rate_key (Gateway.tenant_id req) ->
                  st1 !! k = Gateway.redis σ !! k)
    /\ Gateway.status_code
         (Gateway.respond (snd (Gateway.create_completion s now r σ req))) = 429
    /\ Gateway.retry_after
         (Gateway.respond (snd (Gateway.create_completion s now r σ req)))
       = Some (Gateway.RATE_LIMIT_WINDOW_SECONDS s).
Proof.
  intros Hrate Hc Hover.
  destruct (check_rate_limit_step s now (Gateway.redis σ)
              (Gateway.tenant_id req) None Hrate Hc)
    as (st1 & Hchk & Hkey & Hframe).
  assert (Hcc : Gateway.create_completion s now r σ req
                = (Gateway.with_redis σ st1,
                   Gateway.Raise
                     (Gateway.RateLimitError (Gateway.tenant_id req)
                        (Gateway.RATE_LIMIT_WINDOW_SECONDS s)))).
  { unfold Gateway.create_completion. rewrite Hchk.
    unfold Pipeline.verdict, Gateway.rate_step. simpl.
    assert (Hgt : (Redis.count_of now (Gateway.redis σ)
                     (Gateway.rate_key (Gateway.tenant_id req)) + 1
                   <=? Gateway.RATE_LIMIT_REQUESTS_PER_MINUTE s) = false)
      by (apply Z.leb_gt; lia).
    by rewrite Hgt. }
  exists st1. rewrite Hcc. by repeat split.
Qed.

Lemma rate_limited_request_is_429_witness :
  exists st1,
    Gateway.create_completion Gateway.default_settings 7 Sample.router
      PipelineSample.state_at_rate_limit (Sample.request "gpt-4" None)
    = (Gateway.with_redis PipelineSample.state_at_rate_limit st1,
       Gateway.Raise (Gateway.RateLimitError "t1" 60))
    /\ st1 !! Gateway.rate_key "t1"
       = Some (Redis.Entry (Redis.RInt 101) (Some 67)).
Proof.
  destruct (rate_limited_request_is_429 Gateway.default_settings 7
              Sample.router PipelineSample.state_at_rate_limit
              (Sample.request "gpt-4" None)) as (st1 & H1 & H2 & _).
  - reflexivity.
  - vm_compute. exact I.
  - vm_compute. discriminate.
  - exists st1. split; [exact H1 |].
    etransitivity; [exact H2 | vm_compute; reflexivity].
Defined.

(** A request within the rate limit whose estimate reaches the budget is
    answered 402 with the usage and budget the check computed with; no
    provider is called, no event is written, and the tenant's usage
    counter is left as it was. *)
Theorem budget_denied_request_is_402 (s : Gateway.Settings) (now : Z)
    (r : Gateway.ProviderRouter) (σ : Gateway.State) (req : Gateway.LLMRequest)
    (E B U : Z) :
  Gateway.RATE_LIMIT_ENABLED s = true ->
  Gateway.BUDGET_CHECK_ENABLED s = true ->
  Redis.counter_or_absent now (Gateway.redis σ)
    (Gateway.rate_key (Gateway.tenant_id req)) ->
  Redis.count_of now (Gateway.redis σ) (Gateway.rate_key (Gateway.tenant_id req))
  < Gateway.RATE_LIMIT_REQUESTS_PER_MINUTE s ->
  Gateway.estimated_tokens (Gateway.messages req) = Some E ->
  Pipeline.budget_view now (Gateway.redis σ) (Gateway.tenants σ)
    (Gateway.tenant_id req) = Some (B, U) ->
  B <= U + E ->
  exists st2,
    Gateway.create_completion s now r σ req
    = (Gateway.with_redis σ st2,
       Gateway.Raise (Gateway.BudgetExceededError (Gateway.tenant_id req) U B))
    /\ st2 !! Gateway.counter_key (Gateway.tenant_id req)
       = Gateway.redis σ !! Gateway.counter_key (Gateway.tenant_id req)
    /\ Gateway.status_code
         (Gateway.respond (snd (Gateway.create_completion s now r σ req))) = 402.
Proof.
  intros Hrate Hbud Hc Hcount Hest Hview Hover.
  destruct (pipeline_to_budget s now r σ req E B U Hrate Hbud Hc Hcount Hest Hview)
    as (st2 & Hframe & Hcc).
  assert (Hdeny : Gateway.budget_step (Gateway.tenant_id req)
                    (Gateway.Checked (Gateway._check_limits s B U E))
                  = Gateway.Raise
                      (Gateway.BudgetExceededError (Gateway.tenant_id req) U B)).
  { unfold Gateway.budget_step, Gateway._check_limits. simpl.
    assert (Hle : (B <=? U + E) = true) by (apply Z.leb_le; lia).
    by rewrite Hle. }
  rewrite Hdeny in Hcc. exists st2. rewrite Hcc.
  split; [done |]. split; [| done].
  apply Hframe.
  - intros Heq. by apply (rate_key_not_counter_key _ _ (eq_sym Heq)).
  - intros Heq. by apply (budget_key_not_counter_key _ (eq_sym Heq)).
Qed.

Lemma budget_denied_request_is_402_witness :
  exists st2,
    Gateway.create_completion Gateway.default_settings 0 Sample.router
      PipelineSample.state_nearly_spent PipelineSample.ten_word_request
    = (Gateway.with_redis PipelineSample.state_nearly_spent st2,
       Gateway.Raise (Gateway.BudgetExceededError "t1" 999 1000)).
Proof.
  destruct (budget_denied_request_is_402 Gateway.default_settings 0
              Sample.router PipelineSample.state_nearly_spent
              PipelineSample.ten_word_request 13 1000 999)
    as (st2 & H & _).
  - reflexivity.
  - reflexivity.
  - vm_compute. exact I.
  - vm_compute. reflexivity.
  - vm_compute. reflexivity.
  - vm_compute. reflexivity.
  - lia.
  - exists st2. exact H.
Defined.

(** A request that passes both checks and is answered by a provider
    returns that response with 200; exactly one event row is added, for
    this tenant, provider and token count; and the tenant's usage
    counter grows by the response's actual [total_tokens] (not by the
    estimate the budget check used).  No key other than the tenant's
    rate, budget-cache and usage-counter keys changes. *)
Theorem answered_request_is_accounted (s : Gateway.Settings) (now : Z)
    (r : Gateway.ProviderRouter) (σ : Gateway.State) (req : Gateway.LLMRequest)
    (E B U : Z) (response : Gateway.LLMResponse) :
  Gateway.RATE_LIMIT_ENABLED s = true ->
  Gateway.BUDGET_CHECK_ENABLED s = true ->
  Redis.counter_or_absent now (Gateway.redis σ)
    (Gateway.rate_key (Gateway.tenant_id req)) ->
  Redis.count_of now (Gateway.redis σ) (Gateway.rate_key (Gateway.tenant_id req))
  < Gateway.RATE_LIMIT_REQUESTS_PER_MINUTE s ->
  Gateway.estimated_tokens (Gateway.messages req) = Some E ->
  Pipeline.budget_view now (Gateway.redis σ) (Gateway.tenants σ)
    (Gateway.tenant_id req) = Some (B, U) ->
  U + E < B ->
  Gateway.route s r req = Gateway.Ok response ->
  Redis.counter_or_absent now (Gateway.redis σ)
    (Gateway.counter_key (Gateway.tenant_id req)) ->
  exists st3,
    Gateway.create_completion s now r σ req
    = ({| Gateway.redis := st3;
          Gateway.tenants := Gateway.tenants σ;
          Gateway.llm_events :=
            (Gateway.llm_events σ ++ [Pipeline.event_of req response])%list |},
       Gateway.Ok response)
    /\ Redis.get now st3 (Gateway.counter_key (Gateway.tenant_id req))
       = Some (Redis.RInt
                 (Redis.count_of now (Gateway.redis σ)
                    (Gateway.counter_key (Gateway.tenant_id req))
                  + Gateway.total_tokens response))
    /\ (forall k, k ≠ Gateway.rate_key (Gateway.tenant_id req) ->
                  k ≠ Gateway.budget_key (Gateway.tenant_id req) ->
                  k ≠ Gateway.counter_key (Gateway.tenant_id req) ->
                  st3 !! k = Gateway.redis σ !! k)
    /\ Gateway.status_code
         (Gateway.respond (snd (Gateway.create_completion s now r σ req))) = 200.
Proof.
  intros Hrate Hbud Hc Hcount Hest Hview Hunder Hroute Hctr.
  destruct (pipeline_to_budget s now r σ req E B U Hrate Hbud Hc Hcount Hest Hview)
    as (st2 & Hframe & Hcc).
  assert (Hallow : Gateway.budget_step (Gateway.tenant_id req)
                     (Gateway.Checked (Gateway._check_limits s B U E))
                   = Gateway.Ok
                       (Gateway.soft_limit_reached
                          (Gateway._check_limits s B U E))).
  { unfold Gateway.budget_step, Gateway._check_limits. simpl.
    assert (Hlt : (B <=? U + E) = false) by (apply Z.leb_gt; lia).
    by rewrite Hlt. }
  rewrite Hallow, Hroute in Hcc.
  assert (Hk : st2 !! Gateway.counter_key (Gateway.tenant_id req)
               = Gateway.redis σ !! Gateway.counter_key (Gateway.tenant_id req)).
  { apply Hframe.
    - intros Heq. by apply (rate_key_not_counter_key _ _ (eq_sym Heq)).
    - intros Heq. by apply (budget_key_not_counter_key _ (eq_sym Heq)). }
  destruct (counter_frame now (Gateway.redis σ) st2 _ Hk) as [Hsame Hok].
  destruct (incrby_counter now st2 (Gateway.counter_key (Gateway.tenant_id req))
              (Gateway.total_tokens response) (Hok Hctr))
    as (st3 & ex & Hincr & _ & Hfind).
  unfold Gateway.increment_usage in Hcc. rewrite Hincr in Hcc. simpl in Hcc.
  exists st3. rewrite Hcc. split; [done |]. split.
  - unfold Redis.get. rewrite Hfind. simpl. by rewrite Hsame.
  - split; [| done]. intros k Hk1 Hk2 Hk3.
    rewrite (incrby_frame _ _ _ _ _ _ Hincr) by done. by apply Hframe.
Qed.

Lemma answered_request_is_accounted_witness :
  exists st3,
    Gateway.create_completion Gateway.default_settings 0 Sample.router
      Sample.state (Sample.request "gpt-4" None)
    = ({| Gateway.redis := st3;
          Gateway.tenants := Gateway.tenants Sample.state;
          Gateway.llm_events :=
            [Pipeline.event_of (Sample.request "gpt-4" None)
               (Sample.response_of "openai")] |},
       Gateway.Ok (Sample.response_of "openai"))
    /\ Redis.get 0 st3 (Gateway.counter_key "t1") = Some (Redis.RInt 4).
Proof.
  destruct (answered_request_is_accounted Gateway.default_settings 0
              Sample.router Sample.state (Sample.request "gpt-4" None)
              1 1000000 0 (Sample.response_of "openai"))
    as (st3 & H1 & H2 & _).
  - reflexivity.
  - reflexivity.
  - vm_compute. exact I.
  - vm_compute. reflexivity.
  - vm_compute. reflexivity.
  - vm_compute. reflexivity.
  - lia.
  - vm_compute. reflexivity.
  - vm_compute. exact I.
  - exists st3. split; [exact H1 |].
    etransitivity; [exact H2 | vm_compute; reflexivity].
Defined.

(** When routing fails for a request that passed the rate and budget
    checks, the exception of the router is the outcome of the endpoint;
    no event is written and the tenant's usage counter is left as it
    was. *)
Theorem failed_request_is_not_accounted (s : Gateway.Settings) (now : Z)
    (r : Gateway.ProviderRouter) (σ : Gateway.State) (req : Gateway.LLMRequest)
    (E B U : Z) (e : Gateway.exn) :
  Gateway.RATE_LIMIT_ENABLED s = true ->
  Gateway.BUDGET_CHECK_ENABLED s = true ->
  Redis.counter_or_absent now (Gateway.redis σ)
    (Gateway.rate_key (Gateway.tenant_id req)) ->
  Redis.count_of now (Gateway.redis σ) (Gateway.rate_key (Gateway.tenant_id req))
  < Gateway.RATE_LIMIT_REQUESTS_PER_MINUTE s ->
  Gateway.estimated_tokens (Gateway.messages req) = Some E ->
  Pipeline.budget_view now (Gateway.redis σ) (Gateway.tenants σ)
    (Gateway.tenant_id req) = Some (B, U) ->
  U + E < B ->
  Gateway.route s r req = Gateway.Raise e ->
  exists st2,
    Gateway.create_completion s now r σ req
    = (Gateway.with_redis σ st2, Gateway.Raise e)
    /\ st2 !! Gateway.counter_key (Gateway.tenant_id req)
       = Gateway.redis σ !! Gateway.counter_key (Gateway.tenant_id req)
    /\ Gateway.respond (snd (Gateway.create_completion s now r σ req))
       = Gateway.exception_response e.
Proof.
  intros Hrate Hbud Hc Hcount Hest Hview Hunder Hroute.
  destruct (pipeline_to_budget s now r σ req E B U Hrate Hbud Hc Hcount Hest Hview)
    as (st2 & Hframe & Hcc).
  assert (Hallow : Gateway.budget_step (Gateway.tenant_id req)
                     (Gateway.Checked (Gateway._check_limits s B U E))
                   = Gateway.Ok
                       (Gateway.soft_limit_reached
                          (Gateway._check_limits s B U E))).
  { unfold Gateway.budget_step, Gateway._check_limits. simpl.
    assert (Hlt : (B <=? U + E) = false) by (apply Z.leb_gt; lia).
    by rewrite Hlt. }
  rewrite Hallow, Hroute in Hcc. exists st2. rewrite Hcc.
  split; [done |]. split; [| done].
  apply Hframe.
  - intros Heq. by apply (rate_key_not_counter_key _ _ (eq_sym Heq)).
  - intros Heq. by apply (budget_key_not_counter_key _ (eq_sym Heq)).
Qed.

Lemma failed_request_is_not_accounted_witness :
  exists st2,
    Gateway.create_completion Gateway.default_settings 0
      RoutingSample.router_all_down Sample.state (Sample.request "gpt-4" None)
    = (Gateway.with_redis Sample.state st2,
       Gateway.Raise
         (Gateway.ProviderError "all"
            "All providers failed for model gpt-4. Attempted: openai, anthropic")).
Proof.
  destruct (failed_request_is_not_accounted Gateway.default_settings 0
              RoutingSample.router_all_down Sample.state
              (Sample.request "gpt-4" None) 1 1000000 0
              (Gateway.ProviderError "all"
                 "All providers failed for model gpt-4. Attempted: openai, anthropic"))
    as (st2 & H & _).
  - reflexivity.
  - reflexivity.
  - vm_compute. exact I.
  - vm_compute. reflexivity.
  - vm_compute. reflexivity.
  - vm_compute. reflexivity.
  - lia.
  - vm_compute. reflexivity.
  - exists st2. exact H.
Defined.

(** A request for a tenant that has no row (and no cached budget) is not
    answered 402: [check_budget] returns a dictionary without the usage
    keys, the endpoint fails with KeyError while building the
    BudgetExceededError, and the client gets HTTP 500.  The request has
    none the less been counted against the rate limit. *)
Theorem unknown_tenant_is_500 (s : Gateway.Settings) (now : Z)
    (r : Gateway.ProviderRouter) (σ : Gateway.State) (req : Gateway.LLMRequest)
    (E : Z) :
  Gateway.RATE_LIMIT_ENABLED s = true ->
  Gateway.BUDGET_CHECK_ENABLED s = true ->
  Redis.counter_or_absent now (Gateway.redis σ)
    (Gateway.rate_key (Gateway.tenant_id req)) ->
  Redis.count_of now (Gateway.redis σ) (Gateway.rate_key (Gateway.tenant_id req))
  < Gateway.RATE_LIMIT_REQUESTS_PER_MINUTE s ->
  Gateway.estimated_tokens (Gateway.messages req) = Some E ->
  Pipeline.budget_view now (Gateway.redis σ) (Gateway.tenants σ)
    (Gateway.tenant_id req) = None ->
  exists st1,
    Gateway.create_completion s now r σ req
    = (Gateway.with_redis σ st1,
       Gateway.Raise (Gateway.KeyError "used_current_month"))
    /\ st1 !! Gateway.rate_key (Gateway.tenant_id req)
       = Some (Redis.Entry
                 (Redis.RInt
                    (Redis.count_of now (Gateway.redis σ)
                       (Gateway.rate_key (Gateway.tenant_id req)) + 1))
                 (Some (now + Gateway.RATE_LIMIT_WINDOW_SECONDS s)))
    /\ Gateway.status_code
         (Gateway.respond (snd (Gateway.create_completion s now r σ req))) = 500.
Proof.
  intros Hrate Hbud Hc Hcount Hest Hview.
  destruct (check_rate_limit_step s now (Gateway.redis σ)
              (Gateway.tenant_id req) None Hrate Hc)
    as (st1 & Hchk & Hkey & Hframe1).
  assert (Hview1 : Pipeline.budget_view now st1 (Gateway.tenants σ)
                     (Gateway.tenant_id req) = None).
  { rewrite (budget_view_frame now (Gateway.redis σ) st1); [done |].
    apply Hframe1. intros Heq. by apply (rate_key_not_budget_key _ _ (eq_sym Heq)). }
  assert (Hcb : Gateway.check_budget s now st1 (Gateway.tenants σ)
                  (Gateway.tenant_id req) E = (st1, Gateway.TenantNotFound)).
  { unfold Gateway.check_budget. rewrite Hbud. simpl.
    unfold Pipeline.budget_view in Hview1.
    destruct (Redis.get now st1 (Gateway.budget_key (Gateway.tenant_id req)))
      as [[c|b u|x]|];
      destruct (Gateway.tenants σ !! Gateway.tenant_id req); done. }
  assert (Hcc : Gateway.create_completion s now r σ req
                = (Gateway.with_redis σ st1,
                   Gateway.Raise (Gateway.KeyError "used_current_month"))).
  { unfold Gateway.create_completion. rewrite Hchk.
    unfold Pipeline.verdict, Gateway.rate_step. simpl.
    assert (Hle : (Redis.count_of now (Gateway.redis σ)
                     (Gateway.rate_key (Gateway.tenant_id req)) + 1
                   <=? Gateway.RATE_LIMIT_REQUESTS_PER_MINUTE s) = true)
      by (apply Z.leb_le; lia).
    rewrite Hle. simpl. by rewrite Hest, Hcb. }
  exists st1. rewrite Hcc. by repeat split.
Qed.

Lemma unknown_tenant_is_500_witness :
  exists st1,
    Gateway.create_completion Gateway.default_settings 0 Sample.router
      PipelineSample.state_no_tenant (Sample.request "gpt-4" None)
    = (Gateway.with_redis PipelineSample.state_no_tenant st1,
       Gateway.Raise (Gateway.KeyError "used_current_month")).
Proof.
  destruct (unknown_tenant_is_500 Gateway.default_settings 0 Sample.router
              PipelineSample.state_no_tenant (Sample.request "gpt-4" None) 1)
    as (st1 & H & _).
  - reflexivity.
  - reflexivity.
  - vm_compute. exact I.
  - vm_compute. reflexivity.
  - vm_compute. reflexivity.
  - vm_compute. reflexivity.
  - exists st1. exact H.
Defined.

(** ** Providers: conversion and pricing tables *)

Lemma split_system_from (ms : list Gateway.Message) (sys0 : option string)
    (out0 : list Gateway.Message) :
  fold_left
    (fun '(system_message, out) msg =>
       if String.eqb (Gateway.role msg) "system"
       then (Some (Gateway.content msg), out)
       else (system_message, (out ++ [msg])%list))
    ms (sys0, out0)
  = (match last (List.filter Providers.is_system ms) with
     | Some m => Some (Gateway.content m)
     | None => sys0
     end,
     (out0 ++ List.filter (fun m => negb (Providers.is_system m)) ms)%list).
Proof.
  revert sys0 out0. induction ms as [|m ms IH]; intros sys0 out0; simpl.
  - by rewrite app_nil_r.
  - assert (Hsys : Providers.is_system m
                   = String.eqb (Gateway.role m) "system") by reflexivity.
    destruct (String.eqb (Gateway.role m) "system") eqn:Hr;
      rewrite Hsys; simpl; rewrite IH.
    + f_equal.
      destruct (List.filter Providers.is_system ms) as [|m' l] eqn:Hf; [done |].
      rewrite last_cons_cons.
      destruct (last (m' :: l)) eqn:Hl; [done |].
      by apply last_None in Hl.
    + by rewrite <- app_assoc.
Qed.

(** The Anthropic provider sends the non-system messages of a request,
    in their order, as the conversation, and the content of the last
    system message as the system prompt: earlier system messages are
    dropped, and with no system message there is no system prompt. *)
Theorem anthropic_keeps_last_system_message (messages : list Gateway.Message) :
  snd (Providers.split_system messages)
  = List.filter (fun m => negb (Providers.is_system m)) messages
  /\ fst (Providers.split_system messages)
     = Gateway.content <$> last (List.filter Providers.is_system messages)
  /\ Forall (fun m => Gateway.role m ≠ "system")
       (snd (Providers.split_system messages)).
Proof.
  unfold Providers.split_system. rewrite split_system_from. simpl.
  split; [done |]. split.
  - by destruct (last (List.filter Providers.is_system messages)).
  - apply Forall_forall. intros m Hm.
    apply list_elem_of_In, filter_In in Hm as [_ Hm].
    unfold Providers.is_system in Hm. apply negb_true_iff in Hm.
    by apply String.eqb_neq.
Qed.

(** Every model a provider supports is billed at a price of its own:
    for OpenAI the mapped model name has its own entry in the price
    table, for Anthropic the dated model name falls back to the entry of
    its family (opus, sonnet, haiku); the last-resort price (gpt-3.5-turbo,
    claude-3-haiku) is never applied to a supported model of another
    kind.  Mapping a model name is idempotent. *)
Theorem supported_models_have_their_own_price :
  Forall
    (fun m =>
       let mapped := Providers.map_model_name Providers.openai_models m in
       Providers.openai_pricing mapped
       = Providers.get Providers.TOKEN_COSTS mapped
       /\ is_Some (Providers.get Providers.TOKEN_COSTS mapped)
       /\ Providers.map_model_name Providers.openai_models mapped = mapped)
    (Providers.keys Providers.openai_models)
  /\ Forall
       (fun m =>
          let mapped := Providers.map_model_name Providers.anthropic_models m in
          Providers.get Providers.TOKEN_COSTS mapped = None
          /\ Providers.anthropic_pricing mapped
             = (if PyStr.contains "opus" m
                then Providers.get Providers.TOKEN_COSTS "claude-3-opus"
                else if PyStr.contains "sonnet" m
                then Providers.get Providers.TOKEN_COSTS "claude-3-sonnet"
                else Providers.get Providers.TOKEN_COSTS "claude-3-haiku")
          /\ (PyStr.contains "opus" m || PyStr.contains "sonnet" m
              || PyStr.contains "haiku" m) = true
          /\ Providers.map_model_name Providers.anthropic_models mapped = mapped)
       (Providers.keys Providers.anthropic_models).
Proof.
  split; repeat constructor; vm_compute; eauto.
Qed.

(** ** Words *)

Lemma no_space_snoc (w : string) (c : ascii) :
  Words.no_space w = true -> PyStr.is_space c = false ->
  Words.no_space (w ++ String c EmptyString) = true
  /\ w ++ String c EmptyString ≠ "".
Proof.
  intros Hw Hc. induction w as [|a w IH]; simpl.
  - rewrite Hc. by split.
  - simpl in Hw. apply andb_true_iff in Hw as [Ha Hw].
    destruct (IH Hw) as [IH1 _]. rewrite Ha, IH1. by split.
Qed.

Lemma split_from_words (s cur : string) :
  Words.no_space cur = true ->
  Forall Words.is_word (PyStr.split_from cur s).
Proof.
  revert cur. induction s as [|c s IH]; intros cur Hcur; simpl.
  - destruct cur; [constructor |]. by repeat constructor.
  - destruct (PyStr.is_space c) eqn:Hc.
    + destruct cur; [by apply IH |].
      constructor; [by split | by apply IH].
    + apply IH. by apply no_space_snoc.
Qed.

Lemma split_from_blank (s : string) :
  Words.all_space s = true -> PyStr.split_from EmptyString s = [].
Proof.
  induction s as [|c s IH]; simpl; [done |].
  intros H. apply andb_true_iff in H as [Hc Hs]. rewrite Hc. by apply IH.
Qed.

Lemma estimate_sum_blank (messages : list Gateway.Message) :
  Forall (fun m => Words.all_space (Gateway.content m) = true) messages ->
  Gateway.estimate_sum messages = S754_zero false.
Proof.
  unfold Gateway.estimate_sum. change (PyFloat.of_int 0) with (S754_zero false).
  induction messages as [|m ms IH]; intros Hall; simpl; [done |].
  apply Forall_cons in Hall as [Hm Hms].
  unfold Gateway.message_estimate, PyStr.split.
  rewrite (split_from_blank _ Hm). simpl.
  change (PyFloat.add (S754_zero false)
            (PyFloat.mul (PyFloat.of_int 0) PyFloat.lit_1_3))
    with (S754_zero false).
  by apply IH.
Qed.

(** [content.split()] yields words only: each is non-empty and has no
    whitespace in it; a content that is empty or all whitespace has no
    words, and a request made of such messages is estimated at 0 tokens. *)
Theorem split_yields_words (s : string) :
  Forall Words.is_word (PyStr.split s)
  /\ (Words.all_space s = true -> PyStr.split s = [])
  /\ forall messages,
       Forall (fun m => Words.all_space (Gateway.content m) = true) messages ->
       Gateway.estimated_tokens messages = Some 0.
Proof.
  split; [by apply split_from_words |].
  split; [apply split_from_blank |].
  intros messages Hall. unfold Gateway.estimated_tokens.
  by rewrite (estimate_sum_blank messages Hall).
Qed.

(* --------------------------------------------------------------------- *)
(** ** Control plane: run endpoints *)

Lemma select_run_Some (runs : gmap string ControlPlane.Run)
    (id user : string) (run : ControlPlane.Run) :
  ControlPlane.select_run runs id user = Some run
  <-> runs !! id = Some run /\ ControlPlane.tenant_id run = user.
Proof.
  unfold ControlPlane.select_run.
  destruct (runs !! id) as [r|]; [| by split; [| intros []]].
  destruct (String.eqb (ControlPlane.tenant_id r) user) eqn:He.
  - apply String.eqb_eq in He. split.
    + by intros [= ->].
    + by intros [[= ->] _].
  - apply String.eqb_neq in He. split; [done |]. by intros [[= ->] ?].
Qed.

Lemma update_run_status_frame (now : Z) (runs : gmap string ControlPlane.Run)
    (user id : string) (upd : ControlPlane.RunStatusUpdate)
    (id' : string) (r : ControlPlane.Run) :
  runs !! id' = Some r -> ControlPlane.tenant_id r ≠ user ->
  (ControlPlane.update_run_status now runs user id upd).1 !! id' = Some r.
Proof.
  intros Hr Hne. unfold ControlPlane.update_run_status.
  destruct (ControlPlane.select_run runs id user) as [run|] eqn:Hsel; [| done].
  apply select_run_Some in Hsel as [Hrun Hten].
  destruct (if ControlPlane.in_list _ _ then _ else _) as [c d]. simpl.
  destruct (decide (id' = id)) as [-> |Hid].
  - rewrite Hrun in Hr. by injection Hr as ->.
  - by rewrite lookup_insert_ne.
Qed.

Lemma cancel_run_frame (now : Z) (runs : gmap string ControlPlane.Run)
    (user id : string) (id' : string) (r : ControlPlane.Run) :
  runs !! id' = Some r -> ControlPlane.tenant_id r ≠ user ->
  (ControlPlane.cancel_run now runs user id).1 !! id' = Some r.
Proof.
  intros Hr Hne. unfold ControlPlane.cancel_run.
  destruct (ControlPlane.select_run runs id user) as [run|] eqn:Hsel; [| done].
  apply select_run_Some in Hsel as [Hrun Hten].
  destruct (negb _); [done |]. simpl.
  destruct (decide (id' = id)) as [-> |Hid].
  - rewrite Hrun in Hr. by injection Hr as ->.
  - by rewrite lookup_insert_ne.
Qed.

(** A user's status update or cancellation never changes a run of
    another tenant, whatever run id it names; and when the id it names
    is a run of another tenant, both endpoints answer 404 Run not found,
    as for a run that does not exist. *)
Theorem run_endpoints_leave_other_tenants_alone (now : Z)
    (runs : gmap string ControlPlane.Run) (user id : string)
    (upd : ControlPlane.RunStatusUpdate) (id' : string)
    (r : ControlPlane.Run) :
  runs !! id' = Some r -> ControlPlane.tenant_id r ≠ user ->
  (ControlPlane.update_run_status now runs user id upd).1 !! id' = Some r
  /\ (ControlPlane.cancel_run now runs user id).1 !! id' = Some r
  /\ ControlPlane.update_run_status now runs user id' upd
     = (runs, ControlPlane.HTTPException 404 "Run not found")
  /\ ControlPlane.cancel_run now runs user id'
     = (runs, ControlPlane.HTTPException 404 "Run not found").
Proof.
  intros Hr Hne.
  split; [by apply update_run_status_frame |].
  split; [by apply cancel_run_frame |].
  assert (Hsel : ControlPlane.select_run runs id' user = None).
  { unfold ControlPlane.select_run. rewrite Hr.
    apply String.eqb_neq in Hne. by rewrite Hne. }
  unfold ControlPlane.update_run_status, ControlPlane.cancel_run.
  by rewrite Hsel.
Qed.

Lemma run_endpoints_leave_other_tenants_alone_witness :
  (ControlPlane.update_run_status 9000000 ControlSample.runs "t2" "r1"
     ControlSample.to_running).1 !! "r1" = Some ControlSample.completed_run
  /\ (ControlPlane.cancel_run 9000000 ControlSample.runs "t2" "r1").1 !! "r1"
     = Some ControlSample.completed_run
  /\ ControlPlane.update_run_status 9000000 ControlSample.runs "t2" "r1"
       ControlSample.to_running
     = (ControlSample.runs, ControlPlane.HTTPException 404 "Run not found")
  /\ ControlPlane.cancel_run 9000000 ControlSample.runs "t2" "r1"
     = (ControlSample.runs, ControlPlane.HTTPException 404 "Run not found").
Proof.
  apply (run_endpoints_leave_other_tenants_alone 9000000 ControlSample.runs
           "t2" "r1" ControlSample.to_running "r1" ControlSample.completed_run).
  - vm_compute. reflexivity.
  - vm_compute. discriminate.
Defined.

(** A status update never rewrites a timestamp that is set: a run that
    has a [started_at] keeps it, a run that has a [completed_at] keeps
    it and its [duration_seconds], whatever status is written; the
    run's tenant never changes, and the stored row is the returned one. *)
Theorem status_update_keeps_set_timestamps (now : Z)
    (runs runs' : gmap string ControlPlane.Run) (user id : string)
    (upd : ControlPlane.RunStatusUpdate) (run run' : ControlPlane.Run) :
  runs !! id = Some run ->
  ControlPlane.update_run_status now runs user id upd
  = (runs', ControlPlane.Returned (Some run')) ->
  runs' !! id = Some run'
  /\ ControlPlane.tenant_id run' = ControlPlane.tenant_id run
  /\ (forall t, ControlPlane.started_at run = Some t ->
                ControlPlane.started_at run' = Some t)
  /\ (forall c, ControlPlane.completed_at run = Some c ->
                ControlPlane.completed_at run' = Some c
                /\ ControlPlane.duration_seconds run'
                   = ControlPlane.duration_seconds run).
Proof.
  intros Hrun. unfold ControlPlane.update_run_status.
  destruct (ControlPlane.select_run runs id user) as [r0|] eqn:Hsel;
    [| discriminate].
  apply select_run_Some in Hsel as [Hr0 _].
  rewrite Hrun in Hr0. injection Hr0 as <-.
  destruct (if ControlPlane.in_list _ _ then _ else _) as [c d] eqn:Hcd.
  intros [= <- <-]. rewrite lookup_insert_eq. simpl.
  split; [done |]. split; [done |]. split.
  - intros t Ht. by rewrite Ht.
  - intros c0 Hc0. rewrite Hc0 in Hcd.
    destruct (ControlPlane.in_list _ _); by injection Hcd as <- <-.
Qed.

Lemma status_update_keeps_set_timestamps_witness :
  exists (runs' : gmap string ControlPlane.Run) run',
    runs' !! "r1" = Some run'
    /\ ControlPlane.tenant_id run' = "t1"
    /\ (forall t, ControlPlane.started_at ControlSample.completed_run = Some t ->
                  ControlPlane.started_at run' = Some t)
    /\ (forall c, ControlPlane.completed_at ControlSample.completed_run = Some c ->
                  ControlPlane.completed_at run' = Some c
                  /\ ControlPlane.duration_seconds run' = Some 5).
Proof.
  eexists _, _.
  apply (status_update_keeps_set_timestamps 9000000 ControlSample.runs _
           "t1" "r1" ControlSample.to_running ControlSample.completed_run).
  - vm_compute. reflexivity.
  - reflexivity.
Defined.

(** The life of a run through the status endpoint: a run that has not
    started, marked running at [t0] and given a final status (completed,
    failed, cancelled, budget_exceeded or timeout) at [t1], is stored
    with that status, [started_at = t0], [completed_at = t1] and the
    whole seconds between the two as its duration. *)
Theorem run_lifecycle_sets_timestamps (t0 t1 : Z)
    (runs : gmap string ControlPlane.Run) (user id : string)
    (run : ControlPlane.Run) (final : ControlPlane.RunStatus)
    (u1 u2 : ControlPlane.RunStatusUpdate) :
  ControlPlane.select_run runs id user = Some run ->
  ControlPlane.started_at run = None ->
  ControlPlane.completed_at run = None ->
  ControlPlane.status u1 = ControlPlane.Running ->
  ControlPlane.status u2 = final ->
  ControlPlane.in_list (ControlPlane.value final)
    ControlPlane.terminal_statuses = true ->
  exists run2,
    (ControlPlane.update_run_status t1
       (ControlPlane.update_run_status t0 runs user id u1).1 user id u2)
    = (<[id := run2]> runs, ControlPlane.Returned (Some run2))
    /\ ControlPlane.run_status run2 = ControlPlane.value final
    /\ ControlPlane.started_at run2 = Some t0
    /\ ControlPlane.completed_at run2 = Some t1
    /\ ControlPlane.duration_seconds run2 = Some (Z.quot (t1 - t0) 1000000).
Proof.
  intros Hsel Hs Hc Hu1 Hu2 Hfinal.
  unfold ControlPlane.update_run_status at 2. rewrite Hsel, Hu1, Hs, Hc.
  simpl.
  unfold ControlPlane.update_run_status, ControlPlane.select_run.
  rewrite lookup_insert_eq. simpl.
  apply select_run_Some in Hsel as [_ Hten].
  apply String.eqb_eq in Hten. rewrite Hten, Hu2.
  unfold ControlPlane.in_list, ControlPlane.terminal_statuses in Hfinal.
  simpl in Hfinal. rewrite Hfinal. simpl.
  eexists. rewrite insert_insert_eq. split; [reflexivity |].
  by repeat split.
Qed.

Lemma run_lifecycle_sets_timestamps_witness :
  exists run2,
    (ControlPlane.update_run_status 7500000
       (ControlPlane.update_run_status 1000000
          (<["r9" := RunCreationSample.pending_run]> ∅) "t1" "r9"
          (RunCreationSample.update ControlPlane.Running)).1 "t1" "r9"
       (RunCreationSample.update ControlPlane.Failed))
    = (<["r9" := run2]> (<["r9" := RunCreationSample.pending_run]> ∅),
       ControlPlane.Returned (Some run2))
    /\ ControlPlane.run_status run2 = "failed"
    /\ ControlPlane.started_at run2 = Some 1000000
    /\ ControlPlane.completed_at run2 = Some 7500000
    /\ ControlPlane.duration_seconds run2 = Some 6.
Proof.
  apply (run_lifecycle_sets_timestamps 1000000 7500000
           (<["r9" := RunCreationSample.pending_run]> ∅) "t1" "r9"
           RunCreationSample.pending_run ControlPlane.Failed
           (RunCreationSample.update ControlPlane.Running)
           (RunCreationSample.update ControlPlane.Failed));
    vm_compute; reflexivity.
Defined.

(** A cancellation that is accepted (204) found the run pending or
    running; it stores the run as cancelled, completed now, with the
    whole seconds since its start as duration when it had started.
    Cancelling is final: every later cancellation of that run is
    refused with 400 and changes nothing. *)
Theorem cancel_run_is_final (now : Z)
    (runs runs' : gmap string ControlPlane.Run) (user id : string) :
  ControlPlane.cancel_run now runs user id
  = (runs', ControlPlane.Returned None) ->
  exists run run',
    ControlPlane.select_run runs id user = Some run
    /\ (ControlPlane.run_status run = "pending"
        \/ ControlPlane.run_status run = "running")
    /\ runs' = <[id := run']> runs
    /\ ControlPlane.run_status run' = "cancelled"
    /\ ControlPlane.completed_at run' = Some now
    /\ (forall t, ControlPlane.started_at run = Some t ->
                  ControlPlane.duration_seconds run'
                  = Some (Z.quot (now - t) 1000000))
    /\ forall later,
         ControlPlane.cancel_run later runs' user id
         = (runs', ControlPlane.HTTPException 400
                     "Cannot cancel run with status: cancelled").
Proof.
  unfold ControlPlane.cancel_run.
  destruct (ControlPlane.select_run runs id user) as [run|] eqn:Hsel;
    [| discriminate].
  destruct (negb _) eqn:Hst; [discriminate |].
  intros [= <-]. eexists run, _.
  split; [done |]. split.
  { apply negb_false_iff in Hst. unfold ControlPlane.in_list in Hst.
    simpl in Hst. rewrite orb_false_r in Hst.
    apply orb_true_iff in Hst as [H|H]; apply String.eqb_eq in H; auto. }
  split; [reflexivity |]. simpl. split; [done |]. split; [done |]. split.
  { intros t Ht. by rewrite Ht. }
  intros later. unfold ControlPlane.select_run.
  rewrite lookup_insert_eq. simpl.
  apply select_run_Some in Hsel as [_ Hten].
  apply String.eqb_eq in Hten. by rewrite Hten.
Qed.

Lemma cancel_run_is_final_witness :
  exists run run',
    ControlPlane.select_run (<["r9" := RunCreationSample.pending_run]> ∅)
      "r9" "t1" = Some run
    /\ (ControlPlane.run_status run = "pending"
        \/ ControlPlane.run_status run = "running")
    /\ (ControlPlane.cancel_run 5000000
          (<["r9" := RunCreationSample.pending_run]> ∅) "t1" "r9").1
       = <["r9" := run']> (<["r9" := RunCreationSample.pending_run]> ∅)
    /\ ControlPlane.run_status run' = "cancelled"
    /\ ControlPlane.completed_at run' = Some 5000000
    /\ (forall t, ControlPlane.started_at run = Some t ->
                  ControlPlane.duration_seconds run'
                  = Some (Z.quot (5000000 - t) 1000000))
    /\ forall later,
         ControlPlane.cancel_run later
           (ControlPlane.cancel_run 5000000
              (<["r9" := RunCreationSample.pending_run]> ∅) "t1" "r9").1
           "t1" "r9"
         = ((ControlPlane.cancel_run 5000000
               (<["r9" := RunCreationSample.pending_run]> ∅) "t1" "r9").1,
            ControlPlane.HTTPException 400
              "Cannot cancel run with status: cancelled").
Proof.
  apply (cancel_run_is_final 5000000
           (<["r9" := RunCreationSample.pending_run]> ∅)
           (ControlPlane.cancel_run 5000000
              (<["r9" := RunCreationSample.pending_run]> ∅) "t1" "r9").1
           "t1" "r9").
  reflexivity.
Defined.

(* --------------------------------------------------------------------- *)
(** ** Control plane: creating a run *)

(** For a task the user can see (own tenant, active) and a budget that
    is given (the request's when it is set and not 0, else the task's
    default): the run is refused with 402 exactly when the tenant's
    usage plus that budget exceeds the monthly budget, and then nothing
    is stored; a budget that uses up the month exactly is accepted.  An
    accepted run is stored pending under the user's tenant, and the
    tenant's usage is not part of what the handler writes. *)
Theorem create_run_admits_within_monthly_budget
    (tasks : gmap string RunCreation.Task) (tenant : RunCreation.Tenant)
    (runs : gmap string ControlPlane.Run) (new_id : string)
    (user : RunCreation.User) (data : RunCreation.RunCreate)
    (task : RunCreation.Task) (budget : Z) :
  tasks !! RunCreation.task_id data = Some task ->
  RunCreation.task_tenant_id task = RunCreation.user_tenant_id user ->
  RunCreation.is_active task = true ->
  RunCreation.int_or (RunCreation.token_budget data)
    (RunCreation.default_token_budget task) = Some budget ->
  let out := RunCreation.create_run tasks tenant runs new_id user data in
  (RunCreation.token_used_current_month tenant + budget
   > RunCreation.token_budget_monthly tenant ->
   out = (runs, RunCreation.HTTPException 402
                  "Insufficient token budget for this run"))
  /\ (RunCreation.token_used_current_month tenant + budget
      <= RunCreation.token_budget_monthly tenant ->
      exists run,
        out = (<[new_id := run]> runs, RunCreation.Created new_id budget run)
        /\ ControlPlane.run_status run = "pending"
        /\ ControlPlane.started_at run = None
        /\ ControlPlane.completed_at run = None
        /\ ControlPlane.select_run out.1 new_id
             (RunCreation.user_tenant_id user) = Some run).
Proof.
  intros Htask Hten Hact Hbudget out. subst out.
  unfold RunCreation.create_run, RunCreation.select_task.
  rewrite Htask, Hten, String.eqb_refl, Hact. cbn [andb].
  rewrite Hbudget. split.
  - intros Hgt. apply Z.gtb_gt in Hgt. by rewrite Hgt.
  - intros Hle.
    destruct (_ >? _) eqn:Hgt; [apply Z.gtb_gt in Hgt; lia |].
    eexists. split; [reflexivity |]. repeat split.
    unfold ControlPlane.select_run. simpl. rewrite lookup_insert_eq. simpl.
    by rewrite String.eqb_refl.
Qed.

Lemma create_run_admits_within_monthly_budget_witness :
  (990000 + 10000 > 1000000 ->
   RunCreation.create_run RunCreationSample.tasks RunCreationSample.tenant ∅
     "r9" RunCreationSample.user (RunCreationSample.request None)
   = (∅, RunCreation.HTTPException 402
           "Insufficient token budget for this run"))
  /\ (990000 + 10000 <= 1000000 ->
      exists run,
        RunCreation.create_run RunCreationSample.tasks
          RunCreationSample.tenant ∅ "r9" RunCreationSample.user
          (RunCreationSample.request None)
        = (<["r9" := run]> ∅, RunCreation.Created "r9" 10000 run)
        /\ ControlPlane.run_status run = "pending"
        /\ ControlPlane.started_at run = None
        /\ ControlPlane.completed_at run = None
        /\ ControlPlane.select_run
             (RunCreation.create_run RunCreationSample.tasks
                RunCreationSample.tenant ∅ "r9" RunCreationSample.user
                (RunCreationSample.request None)).1 "r9" "t1" = Some run).
Proof.
  apply (create_run_admits_within_monthly_budget RunCreationSample.tasks
           RunCreationSample.tenant ∅ "r9" RunCreationSample.user
           (RunCreationSample.request None) RunCreationSample.task 10000);
    vm_compute; reflexivity.
Defined.

(** A task of another tenant, an inactive task and a task that does not
    exist are answered alike, 404 Task not found or inactive, before any
    budget is looked at, and nothing is stored. *)
Theorem create_run_hides_foreign_tasks
    (tasks : gmap string RunCreation.Task) (tenant : RunCreation.Tenant)
    (runs : gmap string ControlPlane.Run) (new_id : string)
    (user : RunCreation.User) (data : RunCreation.RunCreate) :
  (forall task, tasks !! RunCreation.task_id data = Some task ->
     RunCreation.task_tenant_id task ≠ RunCreation.user_tenant_id user
     \/ RunCreation.is_active task = false) <->
  RunCreation.create_run tasks tenant runs new_id user data
  = (runs, RunCreation.HTTPException 404 "Task not found or inactive").
Proof.
  unfold RunCreation.create_run, RunCreation.select_task. split.
  - intros H. destruct (tasks !! RunCreation.task_id data) as [task|]; [| done].
    destruct (H task eq_refl) as [Hne|Hin].
    + apply String.eqb_neq in Hne. by rewrite Hne.
    + by rewrite Hin, andb_false_r.
  - intros H task Htask. rewrite Htask in H.
    destruct (String.eqb _ _) eqn:He; simpl in H.
    + destruct (RunCreation.is_active task); [| by right].
      destruct (RunCreation.int_or _ _); [| discriminate].
      destruct (_ >? _); discriminate.
    + left. by apply String.eqb_neq.
Qed.

(* --------------------------------------------------------------------- *)
(** ** Worker: which errors are retried *)

Lemma lower_app (a b : string) :
  PyStr.lower (a ++ b) = PyStr.lower a ++ PyStr.lower b.
Proof. induction a as [|c a IH]; simpl; [done |]. by rewrite IH. Qed.

Lemma lower_app_inv (e x y : string) :
  PyStr.lower e = x ++ y ->
  exists e1 e2, e = e1 ++ e2 /\ PyStr.lower e1 = x /\ PyStr.lower e2 = y.
Proof.
  revert e. induction x as [|c x IH]; intros e H; simpl in H.
  - by exists EmptyString, e.
  - destruct e as [|c' e]; simpl in H; [discriminate |].
    injection H as Hc He. destruct (IH e He) as (e1 & e2 & -> & H1 & H2).
    exists (String c' e1), e2. split; [reflexivity |].
    simpl. by rewrite Hc, H1.
Qed.

Lemma prefix_app (p b : string) : String.prefix p (p ++ b) = true.
Proof.
  induction p as [|c p IH]; [by destruct b |].
  change (String.prefix (String c p) (String c (p ++ b)) = true).
  cbn [String.prefix]. by destruct (ascii_dec c c).
Qed.

Lemma prefix_inv (p s : string) :
  String.prefix p s = true -> exists b, s = p ++ b.
Proof.
  revert s. induction p as [|c p IH]; intros s H.
  - by exists s.
  - destruct s as [|c' s]; cbn [String.prefix] in H; [discriminate |].
    destruct (ascii_dec c c') as [<- |]; [| discriminate].
    destruct (IH s H) as [b ->]. by exists b.
Qed.

Lemma contains_prefix (p s : string) :
  String.prefix p s = true -> PyStr.contains p s = true.
Proof. intros H. destruct s; cbn [PyStr.contains]; by rewrite H. Qed.

Lemma contains_app (p a b : string) : PyStr.contains p (a ++ p ++ b) = true.
Proof.
  induction a as [|c a IH].
  - change (PyStr.contains p (p ++ b) = true).
    apply contains_prefix, prefix_app.
  - change (PyStr.contains p (String c (a ++ p ++ b)) = true).
    simpl. rewrite IH. apply orb_true_r.
Qed.

Lemma contains_inv (p s : string) :
  PyStr.contains p s = true -> exists a b, s = a ++ p ++ b.
Proof.
  induction s as [|c s IH]; cbn [PyStr.contains]; intros H.
  - rewrite orb_false_r in H. apply prefix_inv in H as [b Hb].
    by exists EmptyString, b.
  - apply orb_true_iff in H as [H|H].
    + apply prefix_inv in H as [b ->]. by exists EmptyString, b.
    + destruct (IH H) as (a & b & ->). by exists (String c a), b.
Qed.

(** Whether a failed step may be retried is decided by the text of the
    error alone: it is retryable exactly when the text contains, in any
    letter case and anywhere (inside a word or a number too), one of
    timeout, connection, rate limit, 503, 502, 500. *)
Theorem retryable_iff_text_has_fragment (error : string) :
  Worker._is_retryable_error error = true
  <-> exists before fragment after,
        error = before ++ fragment ++ after
        /\ In (PyStr.lower fragment) Worker.retryable_patterns.
Proof.
  unfold Worker._is_retryable_error. rewrite existsb_exists. split.
  - intros (p & Hp & Hc).
    apply contains_inv in Hc as (a & b & Hc).
    apply lower_app_inv in Hc as (e1 & e23 & -> & _ & H23).
    apply lower_app_inv in H23 as (e2 & e3 & -> & H2 & _).
    exists e1, e2, e3. by rewrite H2.
  - intros (a & w & b & -> & Hin).
    exists (PyStr.lower w). split; [done |].
    rewrite !lower_app. apply contains_app.
Qed.

(* --------------------------------------------------------------------- *)
(** ** Worker: what a message can change *)

Lemma delete_message_queue (w : Worker.World) (rh : string)
    (m : Worker.SQSMessage) :
  In m (Worker.queue (Worker._delete_message w rh))
  <-> In m (Worker.queue w) /\ Worker.ReceiptHandle m ≠ rh.
Proof.
  unfold Worker._delete_message. simpl.
  rewrite <- !list_elem_of_In, list_elem_of_filter. tauto.
Qed.

Ltac nothing_added :=
  exists []; rewrite app_nil_r;
  split; [reflexivity | split; [simpl; lia | constructor]].

Lemma move_to_dlq_frame (s : Worker.Settings) (w : Worker.World)
    (message : Worker.SQSMessage) (reason : string) :
  let w' := Worker._move_to_dlq s w message reason in
  Worker.db w' = Worker.db w
  /\ (forall m, In m (Worker.queue w) ->
        Worker.ReceiptHandle m ≠ Worker.ReceiptHandle message ->
        In m (Worker.queue w'))
  /\ (forall m, In m (Worker.queue w') -> In m (Worker.queue w))
  /\ exists added,
       Worker.dlq w' = (Worker.dlq w ++ added)%list
       /\ (length added <= 1)%nat
       /\ Forall (fun d => Worker.original_message_id d
                           = Worker.MessageId message) added.
Proof.
  unfold Worker._move_to_dlq.
  destruct (String.eqb _ _).
  - simpl. split; [done |]. split; [| split].
    + intros m Hm Hne. rewrite <- list_elem_of_In, list_elem_of_filter.
      by rewrite list_elem_of_In.
    + intros m Hm.
      apply list_elem_of_In, list_elem_of_filter in Hm as [_ Hm].
      by apply list_elem_of_In.
    + nothing_added.
  - destruct (Worker.MessageBody message) as [| |body]; simpl.
    1,2: split; [done |]; split; [done |]; split; [done |];
         nothing_added.
    split; [done |]. split; [| split].
    + intros m Hm Hne. rewrite <- list_elem_of_In, list_elem_of_filter.
      by rewrite list_elem_of_In.
    + intros m Hm.
      apply list_elem_of_In, list_elem_of_filter in Hm as [_ Hm].
      by apply list_elem_of_In.
    + eexists [_]. split; [reflexivity |]. split; [simpl; lia |].
      by repeat constructor.
Qed.

Lemma update_step_status_frame (db db' : Worker.DB) (sid st : string)
    (a b c : option Z) (o : option Worker.json) (e : option string)
    (t : Z) (q : Worker.number) :
  Worker._update_step_status db sid st a b c o e t q = inr db' ->
  Worker.runs db' = Worker.runs db
  /\ forall sid', sid' ≠ sid ->
       Worker.steps db' !! sid' = Worker.steps db !! sid'.
Proof.
  unfold Worker._update_step_status.
  destruct (Worker.steps db !! sid); [| discriminate].
  intros [= <-]. simpl. split; [done |].
  intros sid' Hne. by rewrite lookup_insert_ne.
Qed.

Lemma update_run_usage_frame (db : Worker.DB) (rid : string)
    (t : Z) (q : Worker.number) :
  Worker.steps (Worker._update_run_usage db rid t q).1 = Worker.steps db
  /\ forall rid', rid' ≠ rid ->
       Worker.runs (Worker._update_run_usage db rid t q).1 !! rid'
       = Worker.runs db !! rid'.
Proof.
  unfold Worker._update_run_usage.
  destruct (Worker.runs db !! rid); [| done].
  destruct q; simpl; (split; [done |]);
    intros rid' Hne; by rewrite lookup_insert_ne.
Qed.

Lemma on_failure_frame (s : Worker.Settings) (t0 t1 : Z)
    (db0 dbx : Worker.DB) (sid : string) (attempt : Z) (e : string) :
  let db' := (Worker.on_failure s t0 t1 db0 dbx sid attempt e).1 in
  db' = db0
  \/ (Worker.runs db' = Worker.runs dbx
      /\ forall sid', sid' ≠ sid ->
           Worker.steps db' !! sid' = Worker.steps dbx !! sid').
Proof.
  unfold Worker.on_failure.
  destruct (Worker._update_step_status _ _ _ _ _ _ _ _ _ _) as [|db'] eqn:H;
    simpl; [by left |].
  right. by apply update_step_status_frame in H.
Qed.

Lemma execute_frame (s : Worker.Settings) (env : Worker.Env) (t0 t1 : Z)
    (db0 : Worker.DB) (rid sid sname stype : string)
    (cfg : list (string * Worker.json)) (attempt : Z) :
  let db' :=
    (Worker.execute s env t0 t1 db0 rid sid sname stype cfg attempt).1 in
  (forall sid', sid' ≠ sid ->
     Worker.steps db' !! sid' = Worker.steps db0 !! sid')
  /\ (forall rid', rid' ≠ rid ->
        Worker.runs db' !! rid' = Worker.runs db0 !! rid').
Proof.
  unfold Worker.execute.
  destruct (Worker._update_step_status db0 _ _ _ _ _ _ _ _ _)
    as [e1|db1] eqn:H1.
  { destruct (on_failure_frame s t0 t1 db0 db0 sid attempt e1) as [-> |[Hr Hs]];
      [done |]. split; [done |]. intros rid' _. by rewrite Hr. }
  apply update_step_status_frame in H1 as [Hr1 Hs1].
  destruct (Worker.run_step env db1 rid sid stype cfg) as [e2|res].
  { destruct (on_failure_frame s t0 t1 db0 db1 sid attempt e2) as [-> |[Hr Hs]];
      [done |]. split.
    - intros sid' Hne. by rewrite Hs, Hs1.
    - intros rid' _. by rewrite Hr, Hr1. }
  destruct (Worker._update_step_status db1 _ _ _ _ _ _ _ _ _)
    as [e3|db2] eqn:H2.
  { destruct (on_failure_frame s t0 t1 db0 db1 sid attempt e3) as [-> |[Hr Hs]];
      [done |]. split.
    - intros sid' Hne. by rewrite Hs, Hs1.
    - intros rid' _. by rewrite Hr, Hr1. }
  apply update_step_status_frame in H2 as [Hr2 Hs2].
  destruct (update_run_usage_frame db2 rid (Worker.res_tokens_used res)
              (Worker.res_cost_usd res)) as [Hs3 Hr3].
  destruct (Worker._update_run_usage db2 _ _ _) as [db3 [e4|[]]];
    simpl in Hs3, Hr3.
  { destruct (on_failure_frame s t0 t1 db0 db3 sid attempt e4) as [-> |[Hr Hs]];
      [done |]. split.
    - intros sid' Hne. by rewrite Hs, Hs3, Hs2, Hs1.
    - intros rid' Hne. by rewrite Hr, Hr3, Hr2, Hr1. }
  simpl. split.
  - intros sid' Hne. by rewrite Hs3, Hs2, Hs1.
  - intros rid' Hne. by rewrite Hr3, Hr2, Hr1.
Qed.

(** Processing a message changes nothing but what belongs to it: every
    other message stays in the queue and none appears in it; the
    dead-letter queue keeps its content and gains at most one entry,
    which carries this message's id; the step rows other than the
    message's step and the run rows other than its run are unchanged. *)
Theorem process_message_touches_only_its_own (s : Worker.Settings)
    (env : Worker.Env) (t0 t1 : Z) (w : Worker.World)
    (message : Worker.SQSMessage) :
  let w' := Worker._process_message s env t0 t1 w message in
  (forall m, In m (Worker.queue w) ->
     Worker.ReceiptHandle m ≠ Worker.ReceiptHandle message ->
     In m (Worker.queue w'))
  /\ (forall m, In m (Worker.queue w') -> In m (Worker.queue w))
  /\ (exists added,
        Worker.dlq w' = (Worker.dlq w ++ added)%list
        /\ (length added <= 1)%nat
        /\ Forall (fun d => Worker.original_message_id d
                            = Worker.MessageId message) added)
  /\ (forall body sid',
        Worker.MessageBody message = Worker.Object body ->
        Worker.step_id body ≠ Some sid' ->
        Worker.steps (Worker.db w') !! sid'
        = Worker.steps (Worker.db w) !! sid')
  /\ (forall body rid',
        Worker.MessageBody message = Worker.Object body ->
        Worker.run_id body ≠ Some rid' ->
        Worker.runs (Worker.db w') !! rid'
        = Worker.runs (Worker.db w) !! rid').
Proof.
  assert (Hsame : forall w0 : Worker.World,
    (forall m, In m (Worker.queue w0) ->
       Worker.ReceiptHandle m ≠ Worker.ReceiptHandle message ->
       In m (Worker.queue w0))
    /\ (forall m, In m (Worker.queue w0) -> In m (Worker.queue w0))
    /\ (exists added,
          Worker.dlq w0 = (Worker.dlq w0 ++ added)%list
          /\ (length added <= 1)%nat
          /\ Forall (fun d => Worker.original_message_id d
                              = Worker.MessageId message) added)).
  { intros w0. split; [done |]. split; [done |].
    nothing_added. }
  unfold Worker._process_message.
  destruct (Worker.MessageBody message) as [| |body] eqn:Hbody.
  - destruct (move_to_dlq_frame s w message "Invalid JSON")
      as (Hdb & Hq1 & Hq2 & Hd).
    split; [done |]. split; [done |]. split; [done |].
    split; intros ? ? [=].
  - destruct (Hsame w) as (? & ? & ?).
    split; [done |]. split; [done |]. split; [done |].
    split; intros ? ? [=].
  - destruct (Worker.missing_fields body) as [|f fs].
    2: { destruct (move_to_dlq_frame s w message "Missing required fields")
           as (Hdb & Hq1 & Hq2 & Hd).
         split; [done |]. split; [done |]. split; [done |].
         split; intros ? ? _ _; by rewrite Hdb. }
    destruct (Worker.run_id body) as [rid|] eqn:Hrid,
             (Worker.step_id body) as [sid|] eqn:Hsid,
             (Worker.step_name body) as [sname|],
             (Worker.step_type body) as [stype|];
      try (destruct (Hsame w) as (? & ? & ?);
           split; [done |]; split; [done |]; split; [done |];
           split; intros ? ? _ _; done).
    pose proof (execute_frame s env t0 t1 (Worker.db w) rid sid sname stype
                  (default [] (Worker.step_config body))
                  (default 1 (Worker.attempt body))) as [Hs Hr].
    destruct (Worker.execute _ _ _ _ _ _ _ _ _ _ _) as [db' [[res|e rt]|]];
      simpl in Hs, Hr.
    + split.
      { intros m Hm Hne. by apply delete_message_queue. }
      split.
      { intros m Hm. by apply delete_message_queue in Hm as [Hm _]. }
      split; [nothing_added |].
      split; intros b0 x [= <-] Hne; simpl.
      * apply Hs. congruence.
      * apply Hr. congruence.
    + destruct (rt && _).
      * destruct (Hsame w) as (? & ? & ?).
        split; [done |]. split; [done |]. split; [done |].
        split; intros b0 x [= <-] Hne; simpl.
        -- apply Hs. congruence.
        -- apply Hr. congruence.
      * destruct (move_to_dlq_frame s (Worker.with_db w db') message e)
          as (Hdb & Hq1 & Hq2 & Hd).
        split; [done |]. split; [done |]. split; [done |].
        split; intros b0 x [= <-] Hne; rewrite Hdb; simpl.
        -- apply Hs. congruence.
        -- apply Hr. congruence.
    + destruct (Hsame w) as (? & ? & ?).
      split; [done |]. split; [done |]. split; [done |].
      split; intros ? ? _ _; done.
Qed.

(** A message whose body is not JSON is never dead-lettered by the
    worker: with a dead-letter queue configured the move fails on
    parsing the body again, so the message stays in the queue and the
    dead-letter queue is unchanged; without one the message is deleted.
    The database is not touched either way. *)
Theorem invalid_json_is_never_dead_lettered (s : Worker.Settings)
    (env : Worker.Env) (t0 t1 : Z) (w : Worker.World)
    (message : Worker.SQSMessage) :
  Worker.MessageBody message = Worker.InvalidJSON ->
  let w' := Worker._process_message s env t0 t1 w message in
  Worker.dlq w' = Worker.dlq w
  /\ Worker.db w' = Worker.db w
  /\ (Worker.SQS_DLQ_URL s ≠ "" -> w' = w)
  /\ (Worker.SQS_DLQ_URL s = "" ->
      forall m, In m (Worker.queue w')
                <-> In m (Worker.queue w)
                    /\ Worker.ReceiptHandle m ≠ Worker.ReceiptHandle message).
Proof.
  intros Hbody. unfold Worker._process_message, Worker._move_to_dlq.
  rewrite Hbody.
  destruct (String.eqb_spec (Worker.SQS_DLQ_URL s) "") as [He|Hne]; simpl.
  - split; [done |]. split; [done |]. split; [done |].
    intros _ m. apply delete_message_queue.
  - by repeat split.
Qed.

Lemma invalid_json_is_never_dead_lettered_witness :
  Worker.dlq
    (Worker._process_message WorkerSample.with_dlq WorkerSample.env 0 2000000
       {| Worker.db := WorkerSample.database WorkerSample.queued_step;
          Worker.queue :=
            [{| Worker.ReceiptHandle := "rh-7"; Worker.MessageId := "m-7";
                Worker.MessageBody := Worker.InvalidJSON |}];
          Worker.dlq := [] |}
       {| Worker.ReceiptHandle := "rh-7"; Worker.MessageId := "m-7";
          Worker.MessageBody := Worker.InvalidJSON |}) = []
  /\ Worker.queue
       (Worker._process_message WorkerSample.with_dlq WorkerSample.env 0 2000000
          {| Worker.db := WorkerSample.database WorkerSample.queued_step;
             Worker.queue :=
               [{| Worker.ReceiptHandle := "rh-7"; Worker.MessageId := "m-7";
                   Worker.MessageBody := Worker.InvalidJSON |}];
             Worker.dlq := [] |}
          {| Worker.ReceiptHandle := "rh-7"; Worker.MessageId := "m-7";
             Worker.MessageBody := Worker.InvalidJSON |})
     = [{| Worker.ReceiptHandle := "rh-7"; Worker.MessageId := "m-7";
           Worker.MessageBody := Worker.InvalidJSON |}].
Proof.
  destruct (invalid_json_is_never_dead_lettered WorkerSample.with_dlq
              WorkerSample.env 0 2000000
              {| Worker.db := WorkerSample.database WorkerSample.queued_step;
                 Worker.queue :=
                   [{| Worker.ReceiptHandle := "rh-7"; Worker.MessageId := "m-7";
                       Worker.MessageBody := Worker.InvalidJSON |}];
                 Worker.dlq := [] |}
              {| Worker.ReceiptHandle := "rh-7"; Worker.MessageId := "m-7";
                 Worker.MessageBody := Worker.InvalidJSON |} eq_refl)
    as (Hd & _ & Hw & _).
  split; [exact Hd |].
  rewrite Hw; [reflexivity |]. vm_compute. discriminate.
Defined.

(** A message for a step that has no row in the database changes
    nothing: the executor cannot record the failure either, its
    exception leaves the handler, and the message stays in the queue
    (it is neither deleted nor dead-lettered). *)
Theorem message_for_unknown_step_is_left_in_queue (s : Worker.Settings)
    (env : Worker.Env) (t0 t1 : Z) (w : Worker.World)
    (message : Worker.SQSMessage) (body : Worker.Body)
    (rid sid sname stype : string) :
  Worker.MessageBody message = Worker.Object body ->
  Worker.run_id body = Some rid -> Worker.step_id body = Some sid ->
  Worker.step_name body = Some sname -> Worker.step_type body = Some stype ->
  Worker.steps (Worker.db w) !! sid = None ->
  Worker._process_message s env t0 t1 w message = w.
Proof.
  intros Hbody Hrid Hsid Hname Htype Hrow.
  unfold Worker._process_message. rewrite Hbody.
  rewrite (missing_fields_complete body rid sid sname stype) by done.
  rewrite Hrid, Hsid, Hname, Htype.
  unfold Worker.execute, Worker.on_failure, Worker._update_step_status.
  by rewrite Hrow.
Qed.

Lemma message_for_unknown_step_is_left_in_queue_witness :
  Worker._process_message WorkerSample.with_dlq WorkerSample.env 0 2000000
    {| Worker.db := {| Worker.steps := ∅;
                       Worker.runs := <["r1" := WorkerSample.run_row]> ∅ |};
       Worker.queue :=
         [WorkerSample.message (WorkerSample.body "llm" (Some 1))];
       Worker.dlq := [] |}
    (WorkerSample.message (WorkerSample.body "llm" (Some 1)))
  = {| Worker.db := {| Worker.steps := ∅;
                       Worker.runs := <["r1" := WorkerSample.run_row]> ∅ |};
       Worker.queue :=
         [WorkerSample.message (WorkerSample.body "llm" (Some 1))];
       Worker.dlq := [] |}.
Proof.
  apply (message_for_unknown_step_is_left_in_queue WorkerSample.with_dlq
           WorkerSample.env 0 2000000 _
           (WorkerSample.message (WorkerSample.body "llm" (Some 1)))
           (WorkerSample.body "llm" (Some 1)) "r1" "s1" "search_web" "llm");
    reflexivity.
Defined.

(* --------------------------------------------------------------------- *)
(** ** Worker: a step executed twice *)

Lemma run_step_same_tenant (env : Worker.Env) (d d' : Worker.DB)
    (rid sid stype : string) (cfg : list (string * Worker.json))
    (run run' : Worker.Run) :
  Worker.runs d !! rid = Some run -> Worker.runs d' !! rid = Some run' ->
  Worker.run_tenant_id run = Worker.run_tenant_id run' ->
  Worker.run_step env d rid sid stype cfg
  = Worker.run_step env d' rid sid stype cfg.
Proof.
  intros H H' Ht. unfold Worker.run_step, Worker._execute_llm_step.
  by rewrite H, H', Ht.
Qed.

(** Executing a step is not idempotent, although no execution is
    recorded as a success: each execution of a step whose body succeeds
    with a float cost returns the TypeError failure and still adds the
    outcome's tokens to the run.  After two executions the run's
    tokens_used has grown by twice the outcome's tokens and its
    estimated_cost_usd has not changed. *)
Theorem every_execution_charges_tokens_never_cost (s : Worker.Settings)
    (env : Worker.Env) (t0 t1 t2 t3 : Z) (db0 : Worker.DB)
    (rid sid sname stype : string) (cfg : list (string * Worker.json))
    (attempt : Z) (st0 : Worker.Step) (run0 : Worker.Run)
    (res : Worker.StepResult) (x : Q) :
  Worker.steps db0 !! sid = Some st0 ->
  Worker.runs db0 !! rid = Some run0 ->
  Worker.run_step env db0 rid sid stype cfg = inr res ->
  Worker.res_cost_usd res = Worker.NFloat x ->
  exists db1 db2,
    Worker.execute s env t0 t1 db0 rid sid sname stype cfg attempt
    = (db1, Some (Worker.Failure Worker.decimal_plus_float false))
    /\ Worker.execute s env t2 t3 db1 rid sid sname stype cfg attempt
       = (db2, Some (Worker.Failure Worker.decimal_plus_float false))
    /\ Worker.runs db2 !! rid
       = Some {| Worker.run_tenant_id := Worker.run_tenant_id run0;
                 Worker.run_tokens_used :=
                   Worker.run_tokens_used run0
                   + 2 * Worker.res_tokens_used res;
                 Worker.estimated_cost_usd := Worker.estimated_cost_usd run0 |}.
Proof.
  intros Hst Hrun Hres Hcost.
  destruct (execute_float_cost s env t0 t1 db0 rid sid sname stype cfg attempt
              st0 run0 res x Hst Hrun Hres Hcost)
    as (db1 & H1 & Hst1 & Hrun1 & _).
  assert (Hres1 : Worker.run_step env db1 rid sid stype cfg = inr res).
  { rewrite <- Hres.
    by apply (run_step_same_tenant env db1 db0 rid sid stype cfg
                (Outcome.tokens_charged run0 (Worker.res_tokens_used res))
                run0). }
  destruct (execute_float_cost s env t2 t3 db1 rid sid sname stype cfg attempt
              _ _ res x Hst1 Hrun1 Hres1 Hcost)
    as (db2 & H2 & _ & Hrun2 & _).
  exists db1, db2. split; [exact H1 |]. split; [exact H2 |].
  rewrite Hrun2. unfold Outcome.tokens_charged. simpl. do 2 f_equal. lia.
Qed.

Lemma every_execution_charges_tokens_never_cost_witness :
  exists db1 db2,
    Worker.execute WorkerSample.with_dlq WorkerSample.env 0 2000000
      (WorkerSample.database WorkerSample.queued_step)
      "r1" "s1" "search_web" "llm" [] 1
    = (db1, Some (Worker.Failure Worker.decimal_plus_float false))
    /\ Worker.execute WorkerSample.with_dlq WorkerSample.env 5000000 7000000
         db1 "r1" "s1" "search_web" "llm" [] 1
       = (db2, Some (Worker.Failure Worker.decimal_plus_float false))
    /\ Worker.runs db2 !! "r1"
       = Some {| Worker.run_tenant_id := "t1";
                 Worker.run_tokens_used := 0 + 2 * 4;
                 Worker.estimated_cost_usd := 0 |}.
Proof.
  apply (every_execution_charges_tokens_never_cost WorkerSample.with_dlq
           WorkerSample.env 0 2000000 5000000 7000000
           (WorkerSample.database WorkerSample.queued_step)
           "r1" "s1" "search_web" "llm" [] 1
           WorkerSample.queued_step WorkerSample.run_row
           {| Worker.output := Worker.JStr "pong";
              Worker.res_tokens_used := 4;
              Worker.res_cost_usd := Worker.NFloat (35 # 10000000) |}
           (35 # 10000000)).
  - vm_compute. reflexivity.
  - vm_compute. reflexivity.
  - vm_compute. reflexivity.
  - reflexivity.
Defined.

(* --------------------------------------------------------------------- *)
(** ** Worker: the gateway client *)

Lemma append_assoc (a b c : string) : (a ++ b) ++ c = a ++ b ++ c.
Proof.
  induction a as [|x a IH]; [reflexivity |].
  change (String x ((a ++ b) ++ c) = String x (a ++ b ++ c)). by rewrite IH.
Qed.

Lemma contains_inside (p a s b : string) :
  PyStr.contains p s = true -> PyStr.contains p (a ++ s ++ b) = true.
Proof.
  intros H. apply contains_inv in H as (x & y & ->).
  rewrite !append_assoc, <- (append_assoc a x). apply contains_app.
Qed.

Lemma retryable_inside (p a s b : string) :
  In p Worker.retryable_patterns ->
  PyStr.contains p (PyStr.lower s) = true ->
  Worker._is_retryable_error (a ++ s ++ b) = true.
Proof.
  intros Hp H. unfold Worker._is_retryable_error. apply existsb_exists.
  exists p. split; [done |]. rewrite !lower_app. by apply contains_inside.
Qed.

Lemma status_error_retryable_upto (n : nat) :
  (n <= 500)%nat ->
  forallb (fun i => Bool.eqb (Worker._is_retryable_error
                                (ClientStatus.status_error (100 + Z.of_nat i)))
                             (ClientStatus.retried_statuses (100 + Z.of_nat i)))
          (seq 0 n) = true.
Proof.
  intros Hn. apply forallb_forall. intros i Hi. apply in_seq in Hi.
  assert (H500 : forallb (fun i => Bool.eqb (Worker._is_retryable_error
                                (ClientStatus.status_error (100 + Z.of_nat i)))
                             (ClientStatus.retried_statuses (100 + Z.of_nat i)))
          (seq 0 500) = true) by (vm_compute; reflexivity).
  rewrite forallb_forall in H500. apply H500. apply in_seq. lia.
Qed.

Lemma status_error_retryable (code : Z) :
  100 <= code <= 599 ->
  Worker._is_retryable_error (ClientStatus.status_error code)
  = ClientStatus.retried_statuses code.
Proof.
  intros Hc.
  pose proof (status_error_retryable_upto 500 (le_n _)) as H.
  rewrite forallb_forall in H.
  specialize (H (Z.to_nat (code - 100))).
  replace (100 + Z.of_nat (Z.to_nat (code - 100))) with code in H by lia.
  apply Bool.eqb_prop, H, in_seq. lia.
Qed.

Lemma completion_all_fail (timeout : Z) (gateway : nat -> LLMClient.reply)
    (e : string) :
  (forall i, LLMClient.attempt timeout (gateway i) = inl e) ->
  LLMClient.completion timeout gateway = (3%nat, inl e).
Proof.
  intros H. unfold LLMClient.completion. simpl. by rewrite !H.
Qed.

(** When the gateway answers every request of a step with the same
    HTTP status other than 200 and 402, the client sends three requests
    and raises; the executor then classifies the step as retryable
    exactly for the statuses 429, 500, 502 and 503.  The other 5xx
    statuses (501, 504, ...) and all other 4xx fail the step for good. *)
Theorem gateway_status_decides_retry (timeout code : Z)
    (gateway : nat -> LLMClient.reply) :
  100 <= code <= 599 -> code ≠ 200 -> code ≠ 402 ->
  (forall i, exists m d, gateway i = LLMClient.Response code m d) ->
  exists e,
    LLMClient.completion timeout gateway = (3%nat, inl e)
    /\ (Worker._is_retryable_error e = true
        <-> code = 429 \/ code = 500 \/ code = 502 \/ code = 503).
Proof.
  intros Hc H200 H402 Hg. exists (ClientStatus.status_error code). split.
  - apply completion_all_fail. intros i. destruct (Hg i) as (m & d & ->).
    unfold LLMClient.attempt, ClientStatus.status_error.
    destruct (Z.eqb_spec code 200); [done |].
    destruct (Z.eqb_spec code 402); [done |].
    by destruct (code =? 429).
  - rewrite (status_error_retryable code Hc). unfold ClientStatus.retried_statuses.
    rewrite !orb_true_iff, !Z.eqb_eq. tauto.
Qed.

Lemma gateway_status_decides_retry_witness :
  exists e,
    LLMClient.completion 120
      (fun _ => LLMClient.Response 504 None ("", 0, Worker.NFloat 0)) = (3%nat, inl e)
    /\ (Worker._is_retryable_error e = true
        <-> 504 = 429 \/ 504 = 500 \/ 504 = 502 \/ 504 = 503).
Proof.
  apply (gateway_status_decides_retry 120 504
           (fun _ => LLMClient.Response 504 None ("", 0, Worker.NFloat 0))).
  - lia.
  - discriminate.
  - discriminate.
  - intros _. by eexists _, _.
Defined.

(** A budget refusal is not exempt from retries: the client raises the
    gateway's message, Budget exceeded: U/B tokens, after three
    requests, and the executor classifies it by its text, so the step
    is retryable whenever the digits of the usage U or of the budget B
    contain 500, 502 or 503. *)
Theorem budget_refusal_is_retried_on_its_digits (timeout U B : Z)
    (gateway : nat -> LLMClient.reply) (digits : string) :
  (forall i, exists d,
     gateway i
     = LLMClient.Response 402 (Some (LLMClient.budget_message U B)) d) ->
  In digits ["500"; "502"; "503"] ->
  PyStr.contains digits (LLMClient.str U) = true
  \/ PyStr.contains digits (LLMClient.str B) = true ->
  LLMClient.completion timeout gateway
  = (3%nat, inl (LLMClient.budget_message U B))
  /\ Worker._is_retryable_error (LLMClient.budget_message U B) = true.
Proof.
  intros Hg Hd Hc. split.
  - apply completion_all_fail. intros i. by destruct (Hg i) as (d & ->).
  - assert (Hp : In digits Worker.retryable_patterns).
    { simpl in Hd. simpl. tauto. }
    assert (Hl : PyStr.lower digits = digits).
    { simpl in Hd. destruct Hd as [<- |[<- |[<- |[]]]]; reflexivity. }
    assert (Hlow : forall s, PyStr.contains digits s = true ->
                     PyStr.contains digits (PyStr.lower s) = true).
    { intros s Hs. apply contains_inv in Hs as (x & y & ->).
      rewrite !lower_app, Hl. apply contains_app. }
    unfold LLMClient.budget_message. destruct Hc as [Hc|Hc].
    + apply (retryable_inside digits); [done | by apply Hlow].
    + rewrite <- (append_assoc (LLMClient.str U) "/"),
        <- (append_assoc "Budget exceeded: ").
      apply (retryable_inside digits); [done | by apply Hlow].
Qed.

Lemma budget_refusal_is_retried_on_its_digits_witness :
  LLMClient.completion 120
    (fun _ => LLMClient.Response 402
                (Some (LLMClient.budget_message 1499990 1500000))
                ("", 0, Worker.NFloat 0))
  = (3%nat, inl (LLMClient.budget_message 1499990 1500000))
  /\ Worker._is_retryable_error (LLMClient.budget_message 1499990 1500000)
     = true.
Proof.
  apply (budget_refusal_is_retried_on_its_digits 120 1499990 1500000
           (fun _ => LLMClient.Response 402
                       (Some (LLMClient.budget_message 1499990 1500000))
                       ("", 0, Worker.NFloat 0)) "500").
  - intros _. by eexists.
  - simpl. tauto.
  - right. vm_compute. reflexivity.
Defined.
